(** * NX-TWEAKER dashboard script ([src/script.js]): model and properties

    The script drives a single-page monitoring dashboard inside a WebView.
    This development embeds its three parts:

    - [Nav]: [PerformanceDashboard.switchPage], the navigation click
      listener and [switchToPage], over the elements of the document
      navigation queries;
    - [Monitor]: the metric state ([performanceData]), the start-up
      (the listener of [DOMContentLoaded], the constructor,
      [initializePerformanceMonitoring], [detectSystemInfo],
      [updateStaticInfo]), the refresh tick ([updatePerformanceMetrics] and
      its steps) and the timer that repeats it, the render step ([updateUI])
      and the inbound entry points [window.updateDashboard] and
      [window.updatePerformanceMetric];
    - [Bridge]: the click listeners that post action names to the host, and
      their registration when the script is loaded.

    The ripple effect of a navigation click is not part of the model.

    A JavaScript number is a binary64 floating-point number.  A finite one
    is held as the rational it denotes ([Q]), and the operators [+], [-],
    [*] and [/] of the script round their exact result to the nearest
    binary64 number, ties to even ([fl]); a literal such as [0.7] is the
    binary64 number nearest to it.  [Math.max], [Math.min], [Math.round]
    and the comparisons are exact.  [Infinity] and [NaN] are values of
    their own; they arise from the quotient of [measureMemoryUsage], and an
    arithmetic operation on one of them, or on a value that is not a number,
    is outside the model ([None]).  The sign of a zero is not kept. *)

From Stdlib Require Import QArith Qround Qminmax Qpower Qabs Qreduction.
From Stdlib Require Import Lqa ZArith Lia.
From Stdlib Require Qcanon.
From stdpp Require Import base option list strings gmap.

Set Default Proof Using "Type".

(** ** Navigation *)

Module Nav.

(** An element as navigation sees it: its [id] and [data-page] attributes and
    whether its [classList] holds ["nav-btn"], ["page"] and ["active"]. *)
Record element := Element {
  el_id : option string;
  data_page : option string;
  nav_btn : bool;
  page : bool;
  active : bool
}.

(** The document lists its elements in document order; an element is referred
    to by its position. *)
Abbreviation document := (list element).

Definition classList_remove_active (e : element) : element :=
  Element (el_id e) (data_page e) (nav_btn e) (page e) false.

Definition classList_add_active (e : element) : element :=
  Element (el_id e) (data_page e) (nav_btn e) (page e) true.

(** [nodes.forEach(f)] for [nodes = document.querySelectorAll("." + cls)]. *)
Definition forEach_class (cls : element → bool) (f : element → element)
    (doc : document) : document :=
  (λ e, if cls e then f e else e) <$> doc.

(** The characters that do not stand for themselves between the double
    quotes of a CSS string, by their codes: the double quote (34), which
    ends the string, the backslash (92), which starts an escape, and the line
    feed, form feed and carriage return (10, 12, 13) and the null character
    (0), which the CSS tokenizer rejects or replaces. *)
Definition css_special (c : Ascii.ascii) : bool :=
  bool_decide (Ascii.nat_of_ascii c ∈ [34; 92; 10; 12; 13; 0]).

Fixpoint css_literal (t : string) : bool :=
  match t with
  | EmptyString => true
  | String c t => negb (css_special c) && css_literal t
  end.

(** [t] is a plain identifier: it is not empty (no element has the empty
    string as its [id]) and, pasted between double quotes into a selector, it
    is a CSS string whose value is [t] itself. *)
Definition plain (t : string) : Prop := t ≠ EmptyString ∧ css_literal t = true.

(** [document.querySelector(`[data-page="${t}"]`)] for a plain identifier
    [t]: the first element, in document order, that carries the attribute
    with that value.  (For an identifier with a character that is special in
    a CSS string the selector is another one, or is not a selector at all and
    the call raises; what is proved about the queries below is proved for
    plain identifiers.) *)
Definition querySelector_data_page (t : string) (doc : document) : option nat :=
  fst <$> list_find (λ e, data_page e = Some t) doc.

(** [document.getElementById(t)]. *)
Definition getElementById (t : string) (doc : document) : option nat :=
  fst <$> list_find (λ e, el_id e = Some t) doc.

(** [switchPage(targetPage, navButtons, pages)], with [navButtons] and [pages]
    the [".nav-btn"] and [".page"] elements of the document. *)
Definition switchPage (targetPage : string) (doc : document) : document :=
  let doc := forEach_class nav_btn classList_remove_active doc in
  let doc := forEach_class page classList_remove_active doc in
  let activeButton := querySelector_data_page targetPage doc in
  let activePage := getElementById targetPage doc in
  match activeButton, activePage with
  | Some b, Some p =>
      alter classList_add_active p (alter classList_add_active b doc)
  | _, _ => doc
  end.

(** The click listener of [initializeNavigation], registered on every
    [".nav-btn"] element: [e.currentTarget.dataset.page] is [undefined] when
    the attribute is missing, and the template literal and [getElementById]
    then both see the string ["undefined"].  The ripple effect that follows
    only restarts a CSS animation and is left out. *)
Definition nav_click (i : nat) (doc : document) : document :=
  match doc !! i with
  | Some e =>
      if nav_btn e then switchPage (default "undefined" (data_page e)) doc
      else doc
  | None => doc
  end.

(** What the two [forEach] loops of [switchPage] do to one element. *)
Definition deactivate (e : element) : element :=
  if nav_btn e || page e then classList_remove_active e else e.

Definition same_attrs (e e' : element) : Prop :=
  el_id e = el_id e' ∧ data_page e = data_page e' ∧
  nav_btn e = nav_btn e' ∧ page e = page e'.

(** A small document for examples: two buttons, of which the first is the
    active one, and the single page of the first button. *)
Definition home_button : element :=
  Element None (Some "home") true false true.
Definition about_button : element :=
  Element None (Some "about") true false false.
Definition home_page : element :=
  Element (Some "home") None false true true.
Definition about_page : element :=
  Element (Some "about") None false true false.

Definition doc_missing_page : document := [home_button; about_button; home_page].
Definition doc_two_pages : document :=
  [home_button; about_button; home_page; about_page].

(** What [switchPage] leaves at position [i], given the results [qb] and [qp]
    of its two queries. *)
Definition repaint (qb qp : option nat) (i : nat) (e : element) : element :=
  match qb, qp with
  | Some b, Some p =>
      if decide (i = b ∨ i = p) then classList_add_active (deactivate e)
      else deactivate e
  | _, _ => deactivate e
  end.


Definition active_buttons (doc : document) : list element :=
  filter (λ e, nav_btn e && active e) doc.

Definition active_pages (doc : document) : list element :=
  filter (λ e, page e && active e) doc.

(** [switchToPage(pageName)]: [button.click()] dispatches a click to the
    first element with that [data-page]; the navigation listener runs when
    the element is a [".nav-btn"].  (The document of the model is flat: a
    click on an element is not seen by another one; and its elements are
    enabled: a disabled form control would not dispatch the click.) *)
Definition switchToPage (pageName : string) (doc : document) : document :=
  match querySelector_data_page pageName doc with
  | Some button => nav_click button doc
  | None => doc
  end.

(** [window.switchToPage(pageName)]; [has_dashboard] tells whether
    [window.dashboard] is set. *)
Definition window_switchToPage (has_dashboard : bool) (pageName : string)
    (doc : document) : document :=
  if has_dashboard then switchToPage pageName doc else doc.

(** A document whose first element carries [data-page] without being a
    navigation button. *)
Definition doc_stray_link : document :=
  Element None (Some "home") false false false :: doc_two_pages.

End Nav.

(** ** Metrics: state, refresh tick and render *)

Module Monitor.

Local Open Scope Q_scope.

(** *** JavaScript values *)

(** The values the script keeps in a reading and writes to the document.
    [Num q] is the finite number [q], [Infinity negative] is [Infinity] or
    [-Infinity]; [Fixed q d] stands for the string [q.toFixed(d)]; [Str] is
    any other string. *)
Inductive value :=
  | Undefined
  | Num (q : Q)
  | Infinity (negative : bool)
  | NaN
  | Fixed (q : Q) (digits : nat)
  | Str (s : string).

(** *** Binary64 arithmetic *)

Definition pow2 (k : Z) : Q := 2 ^ k.

(** For [0 < x], the integer [e] with [2^e ≤ x < 2^(e+1)]. *)
Definition ilog2 (x : Q) : Z :=
  let k := (Z.log2 (Qnum x) - Z.log2 (Zpos (Qden x)))%Z in
  if Qle_bool (pow2 k) x then k else (k - 1)%Z.

(** The nearest integer, the even one of two that are equally near. *)
Definition rne (y : Q) : Z :=
  let f := Qfloor y in
  match Qcompare (y - inject_Z f) (1 # 2) with
  | Lt => f
  | Gt => (f + 1)%Z
  | Eq => if Z.even f then f else (f + 1)%Z
  end.

(** The exponent of the smallest normal number; below it the numbers are
    subnormal, all with this exponent. *)
Definition emin : Z := (-1022)%Z.

Definition exponent (x : Q) : Z := Z.max (ilog2 x) emin.

(** [0 < x] rounded to 53 significant bits. *)
Definition round_pos (x : Q) : Q :=
  let e := exponent x in
  inject_Z (rne (x * pow2 (52 - e))) * pow2 (e - 52).

(** [fl x]: the binary64 number nearest to [x], as a fraction in lowest
    terms.  The exponent is not bounded from above here: [overflows] tells
    when the result is out of range, and the operation gives an infinity. *)
Definition fl (x : Q) : Q :=
  match Qcompare x 0 with
  | Eq => 0
  | Gt => Qred (round_pos (Qred x))
  | Lt => - Qred (round_pos (Qred (- x)))
  end.

Definition overflows (x : Q) : bool := Qle_bool (pow2 1024) (Qabs x).

(** [x + y], [x - y], [x * y] and [x / y] on finite numbers, [y] not zero
    in the quotient. *)
Definition js_add (x y : Q) : Q := fl (x + y).
Definition js_sub (x y : Q) : Q := fl (x - y).
Definition js_mul (x y : Q) : Q := fl (x * y).
Definition js_div (x y : Q) : Q := fl (x / y).

Notation "x ⊕ y" := (js_add x y) (at level 50, left associativity).
Notation "x ⊖ y" := (js_sub x y) (at level 50, left associativity).
Notation "x ⊗ y" := (js_mul x y) (at level 40, left associativity).
Notation "x ⊘ y" := (js_div x y) (at level 40, left associativity).

(** [Math.round] rounds to the nearest integer, halves upwards. *)
Definition Math_round (x : Q) : Q := inject_Z (Qfloor (x + (1 # 2))).
Definition Math_max (x y : Q) : Q := Qmax x y.
Definition Math_min (x y : Q) : Q := Qmin x y.

(** [x < 0]. *)
Definition is_negative (x : Q) : bool := if Qlt_le_dec x 0 then true else false.

(** [Math.round((x / y) * 100)]: a quotient by zero is an infinity, or [NaN]
    for [0 / 0], and so is what is computed from it; a quotient or a product
    beyond the binary64 range is an infinity. *)
Definition percentage (x y : Q) : value :=
  if Qeq_bool y 0 then
    if Qeq_bool x 0 then NaN else Infinity (is_negative x)
  else
    let p := (x ⊘ y) ⊗ 100 in
    if overflows p then Infinity (is_negative p) else Num (Math_round p).

(** [v > n] for a number [n]: [undefined] converts to [NaN], which compares
    false; the conversion of a string to a number is not modelled. *)
Definition js_gt (v : value) (n : Q) : option bool :=
  match v with
  | Num q => Some (if Qlt_le_dec n q then true else false)
  | Infinity negative => Some (negb negative)
  | Undefined | NaN => Some false
  | Fixed _ _ | Str _ => None
  end.

(** A template literal, kept unevaluated: its string pieces and the values
    substituted between them. *)
Inductive part := Lit (s : string) | Val (v : value).
Abbreviation text := (list part).

(** *** The metric set *)

Inductive metric := Disk | Gpu | Proc | Ram | Cpu.

Global Instance metric_eq_dec : EqDecision metric.
Proof. solve_decision. Defined.

Definition key (m : metric) : string :=
  match m with
  | Disk => "disk" | Gpu => "gpu" | Proc => "proc" | Ram => "ram" | Cpu => "cpu"
  end.

(** A reading is an object with string keys, [{ usage: 78, used: 234, ... }]. *)
Abbreviation Reading := (gmap string value).

(** [performanceData]: an object with exactly the five keys of its literal;
    the script never adds or removes one. *)
Record MetricSet := {
  disk : Reading;
  gpu : Reading;
  proc : Reading;
  ram : Reading;
  cpu : Reading
}.

(** [Object.keys(this.performanceData)], in the order of the literal. *)
Definition Object_keys : list metric := [Disk; Gpu; Proc; Ram; Cpu].

(** [this.performanceData[m]] for one of the five keys. *)
Definition reading (m : metric) (pd : MetricSet) : Reading :=
  match m with
  | Disk => disk pd | Gpu => gpu pd | Proc => proc pd | Ram => ram pd
  | Cpu => cpu pd
  end.

Definition set_reading (m : metric) (r : Reading) (pd : MetricSet) : MetricSet :=
  match m with
  | Disk => {| disk := r; gpu := gpu pd; proc := proc pd; ram := ram pd; cpu := cpu pd |}
  | Gpu => {| disk := disk pd; gpu := r; proc := proc pd; ram := ram pd; cpu := cpu pd |}
  | Proc => {| disk := disk pd; gpu := gpu pd; proc := r; ram := ram pd; cpu := cpu pd |}
  | Ram => {| disk := disk pd; gpu := gpu pd; proc := proc pd; ram := r; cpu := cpu pd |}
  | Cpu => {| disk := disk pd; gpu := gpu pd; proc := proc pd; ram := ram pd; cpu := r |}
  end.

(** The metric that [this.performanceData[k]] is the reading of, for an
    arbitrary string [k]: one of the five keys.  (For the names in
    [inherited] the expression is not [undefined] either: it is a function of
    [Object.prototype], which is not a reading.) *)
Definition metric_of_key (k : string) : option metric :=
  list_find (λ m, key m = k) Object_keys ≫= λ '(_, m), Some m.

(** [r.f], [undefined] when the reading has no such field. *)
Definition field (r : Reading) (f : string) : value := default Undefined (r !! f).

(** The names a plain object inherits from [Object.prototype], [__proto__]
    apart: each is a function, which is truthy and can be assigned a
    property. *)
Definition inherited : list string :=
  [ "constructor"; "hasOwnProperty"; "isPrototypeOf"; "propertyIsEnumerable";
    "toLocaleString"; "toString"; "valueOf";
    "__defineGetter__"; "__defineSetter__";
    "__lookupGetter__"; "__lookupSetter__" ].

(** [initializeSimulatedData]. *)
Definition initializeSimulatedData : MetricSet := {|
  disk := {[ "usage" := Num 78; "used" := Num 234; "free" := Num 66; "total" := Num 300 ]};
  gpu := {[ "usage" := Num 45; "temp" := Num 67; "memory" := Num (fl 6.2) ]};
  proc := {[ "usage" := Num 32; "cores" := Num 8; "threads" := Num 16 ]};
  ram := {[ "usage" := Num 67; "used" := Num (fl 10.7); "total" := Num 16 ]};
  cpu := {[ "usage" := Num 28; "freq" := Num (fl 3.2); "temp" := Num 52 ]}
|}.

(** *** The page *)

Record Style := {
  animation : string;
  width : text;
  background : string
}.

(** An element the render step writes to.  An element that is not an HTML or
    SVG element has no [style] object, and an assignment to a property of its
    [style] raises a [TypeError]. *)
Record Element := {
  textContent : text;
  style : option Style
}.

(** [performance.memory], where the browser has it. *)
Record MemoryInfo := {
  usedJSHeapSize : Q;
  totalJSHeapSize : Q
}.

(** What the script reaches through globals:
    - [elements]: the elements with an [id], by [id];
    - [indicators]: for a metric name, the [".status-indicator"] inside the
      first element with that [data-metric], if there is one;
    - [console]: the lines logged so far;
    - [clock]: what the coming calls of [performance.now()] return, [None]
      for a call that raises;
    - [randoms]: what the coming calls of [Math.random()] return;
    - [memory]: [performance.memory]. *)
Record Page := {
  elements : gmap string Element;
  indicators : gmap string Element;
  console : list string;
  clock : list (option Q);
  randoms : list Q;
  memory : option MemoryInfo
}.

(** The dashboard object ([this]) together with the globals. *)
Record World := {
  performanceData : MetricSet;
  page : Page
}.

(** [window]: [window.dashboard] is set once the dashboard is constructed. *)
Record Window := {
  dashboard : option MetricSet;
  globals : Page
}.

Definition set_performanceData (pd : MetricSet) (w : World) : World :=
  {| performanceData := pd; page := page w |}.
Definition set_page (p : Page) (w : World) : World :=
  {| performanceData := performanceData w; page := p |}.
Definition set_elements (els : gmap string Element) (p : Page) : Page :=
  {| elements := els; indicators := indicators p; console := console p;
     clock := clock p; randoms := randoms p; memory := memory p |}.
Definition set_indicators (inds : gmap string Element) (p : Page) : Page :=
  {| elements := elements p; indicators := inds; console := console p;
     clock := clock p; randoms := randoms p; memory := memory p |}.
Definition set_console (c : list string) (p : Page) : Page :=
  {| elements := elements p; indicators := indicators p; console := c;
     clock := clock p; randoms := randoms p; memory := memory p |}.
Definition set_clock (c : list (option Q)) (p : Page) : Page :=
  {| elements := elements p; indicators := indicators p; console := console p;
     clock := c; randoms := randoms p; memory := memory p |}.
Definition set_randoms (r : list Q) (p : Page) : Page :=
  {| elements := elements p; indicators := indicators p; console := console p;
     clock := clock p; randoms := r; memory := memory p |}.

(** *** Computations *)

(** How a statement ends: normally with a value, or by raising. *)
Inductive completion (A : Type) := Normal (a : A) | Throw.
Arguments Normal {A} a.
Arguments Throw {A}.

(** A computation reads and updates the world; an update made before a
    [throw] stays.  [None]: the world does not say how the computation goes
    on (no clock reading or random number left, or an operation on a value
    that is outside the model). *)
Definition M (A : Type) : Type := World → option (completion A * World).

Global Instance M_ret : MRet M := λ A a w, Some (Normal a, w).
Global Instance M_bind : MBind M := λ A B k m w,
  match m w with
  | Some (Normal a, w') => k a w'
  | Some (Throw, w') => Some (Throw, w')
  | None => None
  end.

Definition throw {A} : M A := λ w, Some (Throw, w).
Definition unmodelled {A} : M A := λ _, None.
Definition get_world : M World := λ w, Some (Normal w, w).
Definition modify (f : World → World) : M unit := λ w, Some (Normal tt, f w).

(** [try { body } catch (error) { handler }]. *)
Definition try_catch {A} (body handler : M A) : M A := λ w,
  match body w with
  | Some (Throw, w') => handler w'
  | r => r
  end.

(** [l.forEach(f)]. *)
Fixpoint forEach {A} (l : list A) (f : A → M unit) : M unit :=
  match l with
  | [] => mret tt
  | x :: l => f x ;; forEach l f
  end.

(** [while (cond) { body }], for at most [fuel] tests of the condition. *)
Fixpoint while (fuel : nat) (cond : M bool) (body : M unit) : M unit :=
  match fuel with
  | O => unmodelled
  | S fuel =>
      b ← cond;
      if b : bool then body ;; while fuel cond body else mret tt
  end.

Definition to_number (v : value) : M Q :=
  match v with
  | Num q => mret q
  | _ => unmodelled
  end.

Definition performance_now : M Q := λ w,
  match clock (page w) with
  | [] => None
  | Some t :: rest => Some (Normal t, set_page (set_clock rest (page w)) w)
  | None :: rest => Some (Throw, set_page (set_clock rest (page w)) w)
  end.

Definition Math_random : M Q := λ w,
  match randoms (page w) with
  | [] => None
  | r :: rest => Some (Normal r, set_page (set_randoms rest (page w)) w)
  end.

Definition console_log (line : string) : M unit :=
  modify (λ w, set_page (set_console (console (page w) ++ [line]) (page w)) w).

(** [this.performanceData[m].f] *)
Definition get_field (m : metric) (f : string) : M value :=
  w ← get_world; mret (field (reading m (performanceData w)) f).

(** [this.performanceData[m].f = v] *)
Definition set_field (m : metric) (f : string) (v : value) : M unit :=
  modify (λ w,
    let pd := performanceData w in
    set_performanceData (set_reading m (<[f := v]> (reading m pd)) pd) w).

(** [this.performanceData[m].f], used as a number. *)
Definition get_number (m : metric) (f : string) : M Q :=
  get_field m f ≫= to_number.

(** *** The refresh tick *)

Definition targetTime : Q := 10.

(** [Math.max(0, Math.min(100, (1 - targetTime / actualTime) * 100))].  A
    division by zero gives [Infinity], the product [-Infinity], and the
    clamp 0.  A quotient beyond the binary64 range is an infinity of the sign
    of the quotient, and the clamp gives for it what it gives here for the
    quotient itself. *)
Definition estimatedUsage (actualTime : Q) : Q :=
  if Qeq_bool actualTime 0 then 0
  else Math_max 0 (Math_min 100 ((1 ⊖ targetTime ⊘ actualTime) ⊗ 100)).

(** The condition of the loop of [measureCPUUsage],
    [performance.now() - start < targetTime]. *)
Definition loop_test (start : Q) : M bool :=
  now ← performance_now;
  mret (if Qlt_le_dec (now ⊖ start) targetTime then true else false).

(** The body of the loop, [Math.random() * Math.random()]; the counter
    [iterations] is never read. *)
Definition loop_body : M unit := Math_random ;; Math_random ;; mret tt.

(** [measureCPUUsage].  Every test of the loop condition reads the clock
    once, so the length of the clock trace bounds the number of tests. *)
Definition measureCPUUsage : M unit :=
  start ← performance_now;
  w ← get_world;
  while (length (clock (page w))) (loop_test start) loop_body ;;
  now ← performance_now;
  let actualTime := now ⊖ start in
  usage ← get_number Cpu "usage";
  set_field Cpu "usage"
    (Num (Math_round (usage ⊗ fl 0.7 ⊕ estimatedUsage actualTime ⊗ fl 0.3))) ;;
  usage ← get_number Cpu "usage";
  set_field Cpu "temp" (Num (Math_round (35 ⊕ usage ⊗ fl 0.4))) ;;
  usage ← get_number Cpu "usage";
  set_field Cpu "freq" (Fixed (fl 2.8 ⊕ usage ⊗ fl 0.01) 1).

(** [1024 * 1024 * 1024].  A division by this power of two only lowers the
    exponent of a binary64 number, so the quotient of a heap or storage size
    by it is exact. *)
Definition GB : Q := 1024 * 1024 * 1024.

(** [measureMemoryUsage].  With [ram.total] zero the usage is [Infinity] or
    [NaN]. *)
Definition measureMemoryUsage : M unit :=
  w ← get_world;
  match memory (page w) with
  | Some memInfo =>
      let usedGB := usedJSHeapSize memInfo / GB in
      set_field Ram "used" (Fixed usedGB 1) ;;
      total ← get_number Ram "total";
      set_field Ram "usage" (percentage usedGB total)
  | None => mret tt
  end.

(** The three statements the script repeats for every simulated metric:
    [usage += (Math.random() - 0.5) * span],
    [usage = Math.max(lo, Math.min(hi, usage))],
    [usage = Math.round(usage)]. *)
Definition nudge_usage (m : metric) (span lo hi : Q) : M unit :=
  usage ← get_number m "usage";
  r ← Math_random;
  set_field m "usage" (Num (usage ⊕ (r ⊖ 0.5) ⊗ span)) ;;
  usage ← get_number m "usage";
  set_field m "usage" (Num (Math_max lo (Math_min hi usage))) ;;
  usage ← get_number m "usage";
  set_field m "usage" (Num (Math_round usage)).

(** [simulateOtherMetrics]. *)
Definition simulateOtherMetrics : M unit :=
  nudge_usage Gpu 10 20 90 ;;
  usage ← get_number Gpu "usage";
  set_field Gpu "temp" (Num (Math_round (45 ⊕ usage ⊗ 0.5))) ;;
  usage ← get_number Gpu "usage";
  set_field Gpu "memory" (Fixed (4 ⊕ usage ⊗ fl 0.05) 1) ;;
  nudge_usage Proc 8 15 85 ;;
  r ← Math_random;
  if Qlt_le_dec r (fl 0.1) then
    nudge_usage Disk 2 60 95 ;;
    usage ← get_number Disk "usage";
    total ← get_number Disk "total";
    set_field Disk "used" (Num (Math_round (usage ⊘ 100 ⊗ total))) ;;
    total ← get_number Disk "total";
    used ← get_number Disk "used";
    set_field Disk "free" (Num (total ⊖ used))
  else mret tt.

(** [simulateAllMetrics]. *)
Definition simulateAllMetrics : M unit :=
  forEach Object_keys (λ key,
    if decide (key ≠ Disk) then nudge_usage key 10 10 90 else mret tt).

(** *** Render *)

Definition document_getElementById (id : string) : M (option Element) :=
  w ← get_world; mret (elements (page w) !! id).

(** [el.textContent = t], for the element with that [id]. *)
Definition set_textContent (id : string) (t : text) : M unit :=
  modify (λ w,
    set_page
      (set_elements
         (alter (λ el, {| textContent := t; style := style el |}) id
            (elements (page w)))
         (page w)) w).

(** An assignment to a property of [el.style]: it raises when [el.style] is
    [undefined]. *)
Definition assign_style (el : Element) (f : Style → Style) : M Element :=
  match style el with
  | Some st => mret {| textContent := textContent el; style := Some (f st) |}
  | None => throw
  end.

Definition set_style (id : string) (f : Style → Style) : M unit :=
  w ← get_world;
  match elements (page w) !! id with
  | Some el =>
      el' ← assign_style el f;
      modify (set_page (set_elements (<[id := el']> (elements (page w))) (page w)))
  | None => mret tt
  end.

Definition set_animation (a : string) (st : Style) : Style :=
  {| animation := a; width := width st; background := background st |}.
Definition set_width (t : text) (st : Style) : Style :=
  {| animation := animation st; width := t; background := background st |}.
Definition set_background (c : string) (st : Style) : Style :=
  {| animation := animation st; width := width st; background := c |}.

(** [if (el) { k }]. *)
Definition when_present (el : option Element) (k : M unit) : M unit :=
  match el with
  | Some _ => k
  | None => mret tt
  end.

(** [if (el) el.textContent = t], for [el = document.getElementById(id)]. *)
Definition write_detail (id : string) (t : text) : M unit :=
  el ← document_getElementById id;
  when_present el (set_textContent id t).

(** [updateMetricDetails(metric, data)].  The script looks both elements of
    a case up before it writes either; a write does not change which elements
    exist, so each lookup is modelled next to its write. *)
Definition updateMetricDetails (m : metric) (data : Reading) : M unit :=
  match m with
  | Disk =>
      write_detail "disk-used" [Lit "Used: "; Val (field data "used"); Lit " GB"] ;;
      write_detail "disk-free" [Lit "Free: "; Val (field data "free"); Lit " GB"]
  | Gpu =>
      write_detail "gpu-temp" [Lit "Temp: "; Val (field data "temp"); Lit "°C"] ;;
      write_detail "gpu-memory" [Lit "Memory: "; Val (field data "memory"); Lit " GB"]
  | Ram =>
      write_detail "ram-used" [Lit "Used: "; Val (field data "used"); Lit " GB"]
  | Cpu =>
      write_detail "cpu-freq" [Lit "Freq: "; Val (field data "freq"); Lit " GHz"] ;;
      write_detail "cpu-temp" [Lit "Temp: "; Val (field data "temp"); Lit "°C"]
  | Proc => mret tt
  end.

Definition colour_high : string := "#ff4444".
Definition colour_medium : string := "#ffaa00".
Definition colour_normal : string := "var(--primary-red)".

(** [updateStatusIndicator(metric, usage)]. *)
Definition updateStatusIndicator (m : metric) (usage : value) : M unit :=
  w ← get_world;
  match indicators (page w) !! key m with
  | Some indicator =>
      match js_gt usage 80, js_gt usage 60 with
      | Some high, Some medium =>
          indicator' ← assign_style indicator
            (set_background
               (if high then colour_high
                else if medium then colour_medium
                else colour_normal));
          modify (set_page
            (set_indicators (<[key m := indicator']> (indicators (page w)))
               (page w)))
      | _, _ => unmodelled
      end
  | None => mret tt
  end.

(** The body of the loop of [updateUI]. *)
Definition updateCard (m : metric) : M unit :=
  w ← get_world;
  let data := reading m (performanceData w) in
  valueElement ← document_getElementById (key m +:+ "-value");
  when_present valueElement
    (set_textContent (key m +:+ "-value") [Val (field data "usage"); Lit "%"] ;;
     set_style (key m +:+ "-value") (set_animation "valueFlicker 0.5s ease-in-out")) ;;
  fillElement ← document_getElementById (key m +:+ "-fill");
  when_present fillElement
    (set_style (key m +:+ "-fill") (set_width [Val (field data "usage"); Lit "%"])) ;;
  updateMetricDetails m data ;;
  updateStatusIndicator m (field data "usage").

(** [updateUI]. *)
Definition updateUI : M unit := forEach Object_keys updateCard.

(** The [try] block and the [catch] block of [updatePerformanceMetrics]. *)
Definition try_block : M unit :=
  measureCPUUsage ;;
  measureMemoryUsage ;;
  simulateOtherMetrics ;;
  updateUI.

Definition catch_block : M unit :=
  console_log "[v0] Error updating metrics, using simulated data" ;;
  simulateAllMetrics ;;
  updateUI.

(** [updatePerformanceMetrics]: one refresh tick. *)
Definition updatePerformanceMetrics : M unit := try_catch try_block catch_block.

(** *** Entry points for the host *)

(** [updateMetric(metric, value)].  For an inherited name the guard holds
    and the assignment sets a property of a function, which nothing reads;
    the render follows.  For [__proto__] the assignment would set
    [Object.prototype.usage]: that is outside the model. *)
Definition updateMetric (metric : string) (v : value) : M unit :=
  match metric_of_key metric with
  | Some m =>
      x ← to_number v;
      set_field m "usage" (Num (Math_max 0 (Math_min 100 x))) ;;
      updateUI
  | None =>
      if bool_decide (metric ∈ inherited) then to_number v ;; updateUI
      else if bool_decide (metric = "__proto__") then unmodelled
      else mret tt
  end.

(** [Object.assign(target, source)]. *)
Definition Object_assign (target source : Reading) : Reading := source ∪ target.

(** The body of the loop of [window.updateDashboard].  For a name of
    [inherited] the target of [Object.assign] is a function of
    [Object.prototype], which nothing reads; an own key [__proto__] of the
    data, which would change [Object.prototype] itself, is outside the
    model. *)
Definition merge_metric (entry : string * Reading) : M unit :=
  match metric_of_key entry.1 with
  | Some m =>
      modify (λ w,
        let pd := performanceData w in
        set_performanceData
          (set_reading m (Object_assign (reading m pd) entry.2) pd) w)
  | None => mret tt
  end.

(** A method of [window.dashboard] called from a function of [window]. *)
Definition on_dashboard (f : M unit) (win : Window)
    : option (completion unit * Window) :=
  match dashboard win with
  | Some pd =>
      match f {| performanceData := pd; page := globals win |} with
      | Some (c, w) =>
          Some (c, {| dashboard := Some (performanceData w); globals := page w |})
      | None => None
      end
  | None => Some (Normal tt, win)
  end.

(** [window.updatePerformanceMetric(metric, value)]. *)
Definition window_updatePerformanceMetric (metric : string) (v : value)
    : Window → option (completion unit * Window) :=
  on_dashboard (updateMetric metric v).

(** [window.updateDashboard(data)]; [data] maps metric names to (partial)
    readings. *)
Definition window_updateDashboard (data : gmap string Reading)
    : Window → option (completion unit * Window) :=
  on_dashboard (forEach (map_to_list data) merge_metric ;; updateUI).

(** *** Notions used in the statements *)

(** [this.performanceData[m].usage]. *)
Definition usage (m : metric) (pd : MetricSet) : value :=
  field (reading m pd) "usage".

(** The world after [this.performanceData[m].f = v]. *)
Definition write_field (m : metric) (f : string) (v : value) (w : World) : World :=
  set_performanceData
    (set_reading m (<[f := v]> (reading m (performanceData w)))
       (performanceData w)) w.

(** The world after one call of [Math.random()]. *)
Definition drop_random (w : World) : World :=
  set_page (set_randoms (tail (randoms (page w))) (page w)) w.

(** What the three statements of [nudge_usage] leave as usage, from the usage
    [u] and the random number [r]. *)
Definition nudged (span lo hi u r : Q) : Q :=
  Math_round (Math_max lo (Math_min hi (u ⊕ (r ⊖ 0.5) ⊗ span))).

(** A whole-number percentage between 0 and 100. *)
Definition percent (v : value) : Prop :=
  ∃ (q : Q) (z : Z), v = Num q ∧ q == inject_Z z ∧ (0 ≤ z ≤ 100)%Z.

Definition usage_ok (pd : MetricSet) : Prop := ∀ m, percent (usage m pd).

(** A usage the status indicator can be computed from. *)
Definition comparable (v : value) : Prop := is_Some (js_gt v 80).

(** Every element has a [style] object. *)
Definition all_styled (els : gmap string Element) : Prop :=
  ∀ id el, els !! id = Some el → is_Some (style el).

Definition styled (p : Page) : Prop :=
  all_styled (elements p) ∧ all_styled (indicators p).

(** The element [<m>-value], if the page has it, reads [v%]. *)
Definition shows (m : metric) (v : value) (p : Page) : Prop :=
  ∀ el, elements p !! (key m +:+ "-value") = Some el →
        textContent el = [Val v; Lit "%"].

(** The bar [<m>-fill], if the page has it, is [v%] wide. *)
Definition fills (m : metric) (v : value) (p : Page) : Prop :=
  ∀ el st, elements p !! (key m +:+ "-fill") = Some el → style el = Some st →
           width st = [Val v; Lit "%"].

(** The heap that [performance.memory] reports fits [ram.total]. *)
Definition heap_in_range (w : World) : Prop :=
  match memory (page w) with
  | Some memInfo =>
      ∃ total, field (reading Ram (performanceData w)) "total" = Num total ∧
               0 < total ∧ 0 <= usedJSHeapSize memInfo / GB <= total
  | None => True
  end.

(** *** Render in closed form

    What [updateUI] writes when no assignment raises. *)

Definition put_text (id : string) (t : text) (els : gmap string Element)
    : gmap string Element :=
  alter (λ el, {| textContent := t; style := style el |}) id els.

Definition put_style (id : string) (f : Style → Style)
    (els : gmap string Element) : gmap string Element :=
  alter (λ el, {| textContent := textContent el; style := f <$> style el |})
    id els.

Definition with_elements (f : gmap string Element → gmap string Element)
    (w : World) : World :=
  set_page (set_elements (f (elements (page w))) (page w)) w.

Definition with_indicators (f : gmap string Element → gmap string Element)
    (w : World) : World :=
  set_page (set_indicators (f (indicators (page w))) (page w)) w.

Definition paint_details (m : metric) (data : Reading)
    (els : gmap string Element) : gmap string Element :=
  match m with
  | Disk =>
      put_text "disk-free" [Lit "Free: "; Val (field data "free"); Lit " GB"]
        (put_text "disk-used" [Lit "Used: "; Val (field data "used"); Lit " GB"] els)
  | Gpu =>
      put_text "gpu-memory" [Lit "Memory: "; Val (field data "memory"); Lit " GB"]
        (put_text "gpu-temp" [Lit "Temp: "; Val (field data "temp"); Lit "°C"] els)
  | Ram =>
      put_text "ram-used" [Lit "Used: "; Val (field data "used"); Lit " GB"] els
  | Cpu =>
      put_text "cpu-temp" [Lit "Temp: "; Val (field data "temp"); Lit "°C"]
        (put_text "cpu-freq" [Lit "Freq: "; Val (field data "freq"); Lit " GHz"] els)
  | Proc => els
  end.

Definition paint_elements (m : metric) (data : Reading)
    (els : gmap string Element) : gmap string Element :=
  paint_details m data
    (put_style (key m +:+ "-fill") (set_width [Val (field data "usage"); Lit "%"])
       (put_style (key m +:+ "-value")
          (set_animation "valueFlicker 0.5s ease-in-out")
          (put_text (key m +:+ "-value") [Val (field data "usage"); Lit "%"]
             els))).

(** The colour of the status indicator for a usage: the chain of comparisons
    of [updateStatusIndicator]. *)
Definition status_colour (v : value) : option string :=
  match js_gt v 80, js_gt v 60 with
  | Some high, Some medium =>
      Some (if high then colour_high
            else if medium then colour_medium
            else colour_normal)
  | _, _ => None
  end.

Definition paint_indicator (m : metric) (v : value)
    (inds : gmap string Element) : gmap string Element :=
  match status_colour v with
  | Some c => put_style (key m) (set_background c) inds
  | None => inds
  end.

(** The world after the card of [m] is rendered. *)
Definition painted (m : metric) (w : World) : World :=
  let data := reading m (performanceData w) in
  with_indicators (paint_indicator m (field data "usage"))
    (with_elements (paint_elements m data) w).

(** The world after all five cards are rendered. *)
Definition rendered (w : World) : World := foldl (λ w m, painted m w) w Object_keys.



(** [updateMetric] in closed form: the metric set after the assignment. *)
Definition clamped (m : metric) (v : Q) (pd : MetricSet) : MetricSet :=
  set_reading m
    (<["usage" := Num (Math_max 0 (Math_min 100 v))]> (reading m pd)) pd.

(** The world after [console.log(line)]. *)
Definition logged (line : string) (w : World) : World :=
  set_page (set_console (console (page w) ++ [line]) (page w)) w.

(** The world after the log and the simulation of the [catch] block, from
    the usages [ugpu], [uproc], [uram], [ucpu] and the random numbers [r1],
    [r2], [r3], [r4]: the keys are visited in the order of [Object_keys],
    and [disk] is skipped. *)
Definition fallen_back (ugpu uproc uram ucpu r1 r2 r3 r4 : Q) (w : World)
    : World :=
  write_field Cpu "usage" (Num (nudged 10 10 90 ucpu r4)) (drop_random
    (write_field Ram "usage" (Num (nudged 10 10 90 uram r3)) (drop_random
      (write_field Proc "usage" (Num (nudged 10 10 90 uproc r2)) (drop_random
        (write_field Gpu "usage" (Num (nudged 10 10 90 ugpu r1)) (drop_random
          (logged "[v0] Error updating metrics, using simulated data" w)))))))).

(** The world once the busy loop of [measureCPUUsage] and its last clock
    reading are over: [crest] and [rrest] are what is left of the clock and
    of the random numbers. *)
Definition after_busy_loop (crest : list (option Q)) (rrest : list Q)
    (w : World) : World :=
  set_page (set_randoms rrest (set_clock crest (page w))) w.

(** The reading of the CPU is [r]. *)
Definition cpu_is (r : Reading) (w : World) : Prop :=
  reading Cpu (performanceData w) = r.

(** The smoothing of the specification, [round(0.7·P + 0.3·E)], over the
    rationals. *)
Definition smoothed (P E : Q) : Q := Math_round (0.7 * P + 0.3 * E).

(** The smoothing of the script,
    [Math.round(usage * 0.7 + estimatedUsage * 0.3)]. *)
Definition blended (P E : Q) : Q := Math_round (P ⊗ fl 0.7 ⊕ E ⊗ fl 0.3).

(** What a tick keeps: every usage is a whole percentage and the reported
    heap fits [ram.total]. *)
Definition tick_inv (w : World) : Prop :=
  usage_ok (performanceData w) ∧ heap_in_range w.

(** [w'] differs from [w] in the document at most. *)
Definition same_but_document (w w' : World) : Prop :=
  performanceData w' = performanceData w ∧
  console (page w') = console (page w) ∧
  clock (page w') = clock (page w) ∧
  randoms (page w') = randoms (page w) ∧
  memory (page w') = memory (page w).

(** Partial correctness: if [m] ends from a world in [P], normally with [a]
    it ends in [Q a], by raising it ends in [E]. *)
Definition hoare {A} (P : World → Prop) (m : M A) (Q : A → World → Prop)
    (E : World → Prop) : Prop :=
  ∀ w c w', P w → m w = Some (c, w') →
    match c with Normal a => Q a w' | Throw => E w' end.

(** [m] keeps [I], however it ends. *)
Definition preserves {A} (I : World → Prop) (m : M A) : Prop :=
  hoare I m (λ _, I) I.

(** *** A page for examples *)

Definition blank : Element :=
  {| textContent := [];
     style := Some {| animation := EmptyString; width := [];
                      background := EmptyString |} |}.

(** An element without a [style] object. *)
Definition foreign : Element := {| textContent := []; style := None |}.

Definition card_ids : list string :=
  [ "disk-value"; "disk-fill"; "disk-used"; "disk-free";
    "gpu-value"; "gpu-fill"; "gpu-temp"; "gpu-memory";
    "proc-value"; "proc-fill";
    "ram-value"; "ram-fill"; "ram-used";
    "cpu-value"; "cpu-fill"; "cpu-freq"; "cpu-temp" ].

(** A page with every element the render step looks for. *)
Definition example_page (c : list (option Q)) (r : list Q)
    (mem : option MemoryInfo) : Page := {|
  elements := list_to_map ((λ id, (id, blank)) <$> card_ids);
  indicators := list_to_map ((λ m, (key m, blank)) <$> Object_keys);
  console := [];
  clock := c;
  randoms := r;
  memory := mem
|}.

(** The window once the dashboard is constructed and
    [initializeSimulatedData] has run. *)
Definition example_window : Window :=
  {| dashboard := Some initializeSimulatedData;
     globals := example_page [] [] None |}.


(** [{ cpu: { usage: 150 } }] *)
Definition cpu_usage_150 : gmap string Reading :=
  {[ "cpu" := {[ "usage" := Num 150 ]} ]}.

(** The world of a dashboard with the simulated data on the example page. *)
Definition example_world (c : list (option Q)) (r : list Q) : World :=
  {| performanceData := initializeSimulatedData; page := example_page c r None |}.

(** A clock on which the busy loop runs once: the readings are [start],
    one reading within the target time, the reading that ends the loop, and
    the reading of [actualTime]. *)
Definition example_clock : list (option Q) := [Some 0; Some 4; Some 12; Some 12.5].

(** Random numbers: the binary64 numbers written 0.1, 0.2, ... *)
Definition example_randoms : list Q :=
  fl <$> [0.1; 0.2; 0.9; 0.3; 0.5; 0.1; 0.2; 0.3; 0.4].

(** The example page with an element [disk-value] that has no [style]. *)
Definition broken_world : World :=
  let p := example_page example_clock example_randoms None in
  {| performanceData := initializeSimulatedData;
     page := set_elements (<["disk-value" := foreign]> (elements p)) p |}.

(** *** The timer, and what a tick writes *)

(** The fields a refresh tick assigns to, in either of its two branches. *)
Definition tick_writes : list (metric * string) :=
  [ (Cpu, "usage"); (Cpu, "temp"); (Cpu, "freq");
    (Ram, "used"); (Ram, "usage");
    (Gpu, "usage"); (Gpu, "temp"); (Gpu, "memory");
    (Proc, "usage");
    (Disk, "usage"); (Disk, "used"); (Disk, "free") ].

(** The field [f] of the reading of [m] is [v]; [None] when the reading has
    no such field. *)
Definition field_is (m : metric) (f : string) (v : option value) (w : World)
    : Prop :=
  reading m (performanceData w) !! f = v.

(** [startRealTimeUpdates]: the initial update and the updates the interval
    timer starts, [n] in all, with nothing else run in between.  The timer
    goes on when an update raises. *)
Fixpoint ticks (n : nat) (w : World) : option World :=
  match n with
  | O => Some w
  | S n =>
      match updatePerformanceMetrics w with
      | Some (_, w') => ticks n w'
      | None => None
      end
  end.

(** A clock for two updates: on the second the busy loop ends at its first
    test. *)
Definition two_tick_clock : list (option Q) :=
  example_clock ++ [Some 20; Some 31; Some 32].

(** *** The simulation in closed form *)

(** The world after the [gpu] and [proc] statements of
    [simulateOtherMetrics], from the usages [ugpu] and [uproc] and the random
    numbers [r1] and [r2]. *)
Definition simulated_gpu_proc (ugpu uproc r1 r2 : Q) (w : World) : World :=
  let g := nudged 10 20 90 ugpu r1 in
  write_field Proc "usage" (Num (nudged 8 15 85 uproc r2)) (drop_random
    (write_field Gpu "memory" (Fixed (4 ⊕ g ⊗ fl 0.05) 1)
      (write_field Gpu "temp" (Num (Math_round (45 ⊕ g ⊗ 0.5)))
        (write_field Gpu "usage" (Num g) (drop_random w))))).

(** The world after the [disk] statements of [simulateOtherMetrics], from
    the usage [udisk], the total [total] and the random number [r4]. *)
Definition simulated_disk (udisk total r4 : Q) (w : World) : World :=
  let d := nudged 2 60 95 udisk r4 in
  let used := Math_round (d ⊘ 100 ⊗ total) in
  write_field Disk "free" (Num (total ⊖ used))
    (write_field Disk "used" (Num used)
      (write_field Disk "usage" (Num d) (drop_random w))).

(** The reading of [disk] can be nudged: what [simulateOtherMetrics] needs
    when its third random number, [r3], is below 0.1. *)
Definition disk_ready (r3 : Q) (rest : list Q) (w : World) : Prop :=
  r3 < fl 0.1 →
  ∃ udisk total r4 rest',
    usage Disk (performanceData w) = Num udisk ∧
    field (reading Disk (performanceData w)) "total" = Num total ∧
    rest = r4 :: rest'.

(** Where the browser has [performance.memory], [ram.total] is a number
    and the usage computed from the used heap is a finite number: [ram.total]
    is not zero and the quotient stays within the binary64 range. *)
Definition heap_readable (w : World) : Prop :=
  match memory (page w) with
  | Some memInfo =>
      ∃ total q,
        field (reading Ram (performanceData w)) "total" = Num total ∧
        percentage (usedJSHeapSize memInfo / GB) total = Num q
  | None => True
  end.

(** Where the browser has [performance.memory], [ram.total] is a number. *)
Definition heap_total_numeric (w : World) : Prop :=
  match memory (page w) with
  | Some _ => ∃ total, field (reading Ram (performanceData w)) "total" = Num total
  | None => True
  end.

(** The usage of [ram] after [measureMemoryUsage]. *)
Definition measured_ram_usage (w : World) : value :=
  match memory (page w) with
  | Some memInfo =>
      match field (reading Ram (performanceData w)) "total" with
      | Num total => percentage (usedJSHeapSize memInfo / GB) total
      | _ => usage Ram (performanceData w)
      end
  | None => usage Ram (performanceData w)
  end.

(** Every usage is a number. *)
Definition numeric (pd : MetricSet) : Prop := ∀ m, ∃ q, usage m pd = Num q.

(** [w'] has the document, the console and the heap statistics of [w]. *)
Definition same_screen (w w' : World) : Prop :=
  elements (page w') = elements (page w) ∧
  indicators (page w') = indicators (page w) ∧
  console (page w') = console (page w) ∧
  memory (page w') = memory (page w).

(** A world in which the stored usage of [cpu] is 45 and the clock shows the
    busy loop taking exactly the target time, so that the estimate is 0. *)
Definition tie_world : World :=
  {| performanceData :=
       set_reading Cpu (<["usage" := Num 45]> (cpu initializeSimulatedData))
         initializeSimulatedData;
     page := example_page [Some 0; Some 10; Some 10] (fl <$> [0.9; 0.3; 0.5])
               None |}.

(** A page on which the clock raises at once. *)
Definition stopped_clock_world : World := example_world [None] example_randoms.

(** The example world with heap statistics: 8 GB used, 12 GB allocated. *)
Definition heap_world : World :=
  {| performanceData := initializeSimulatedData;
     page := example_page example_clock example_randoms
               (Some {| usedJSHeapSize := 8 * GB; totalJSHeapSize := 12 * GB |}) |}.

(** [w] has the metrics, the document, the console and the heap statistics
    of [w0]; the clock and the random numbers may have advanced. *)
Definition only_oracles_advanced (w0 w : World) : Prop :=
  performanceData w = performanceData w0 ∧ same_screen w0 w.

(** *** What a render may change *)

(** The document of [w] against the document of [w0]: the same elements
    exist, those with an [id] outside [card_ids] are what they were, and so
    are the status indicators of names that are not metrics; a status
    indicator keeps its text. *)
Definition document_frame (w0 w : World) : Prop :=
  (∀ id, is_Some (elements (page w) !! id) ↔ is_Some (elements (page w0) !! id)) ∧
  (∀ id, id ∉ card_ids → elements (page w) !! id = elements (page w0) !! id) ∧
  (∀ k, is_Some (indicators (page w) !! k) ↔ is_Some (indicators (page w0) !! k)) ∧
  (∀ k, k ∉ key <$> Object_keys →
     indicators (page w) !! k = indicators (page w0) !! k) ∧
  (∀ k, textContent <$> (indicators (page w) !! k) =
        textContent <$> (indicators (page w0) !! k)).

(** A page with none of the elements the render step looks for. *)
Definition bare_page (p : Page) : Prop := elements p = ∅ ∧ indicators p = ∅.

(** The colour [updateStatusIndicator] picks for the usage [u]. *)
Definition colour_of (u : Q) : string :=
  if Qlt_le_dec 80 u then colour_high
  else if Qlt_le_dec 60 u then colour_medium
  else colour_normal.

(** *** Render as a list of writes *)

(** After the step from [w] to [w'], the element [id], if the page has it,
    reads [t]. *)
Definition reads (id : string) (t : text) (w w' : World) : Prop :=
  textContent <$> (elements (page w') !! id) =
  (λ _, t) <$> (elements (page w) !! id).

(** After the step from [w] to [w'], the status indicator of [m], if the page
    has it and it has a style, has the background [c]. *)
Definition tinted (m : metric) (c : string) (w w' : World) : Prop :=
  (λ el, background <$> style el) <$> (indicators (page w') !! key m) =
  (λ el, (λ _, c) <$> style el) <$> (indicators (page w) !! key m).

(** The assignments of [updateUI], in the order it makes them, each with the
    [id] of its element. *)
Definition write_text (t : text) (el : Element) : Element :=
  {| textContent := t; style := style el |}.
Definition write_style (f : Style → Style) (el : Element) : Element :=
  {| textContent := textContent el; style := f <$> style el |}.

Abbreviation writes := (list (string * (Element → Element))).

Definition apply_writes (ws : writes) (els : gmap string Element)
    : gmap string Element :=
  foldl (λ els kg, alter kg.2 kg.1 els) els ws.

Definition writes_at (id : string) (ws : writes) (el : Element) : Element :=
  foldl (λ el kg, if decide (kg.1 = id) then kg.2 el else el) el ws.

Definition detail_writes (m : metric) (data : Reading) : writes :=
  match m with
  | Disk =>
      [ ("disk-used",
         write_text [Lit "Used: "; Val (field data "used"); Lit " GB"]);
        ("disk-free",
         write_text [Lit "Free: "; Val (field data "free"); Lit " GB"]) ]
  | Gpu =>
      [ ("gpu-temp",
         write_text [Lit "Temp: "; Val (field data "temp"); Lit "°C"]);
        ("gpu-memory",
         write_text [Lit "Memory: "; Val (field data "memory"); Lit " GB"]) ]
  | Ram =>
      [ ("ram-used",
         write_text [Lit "Used: "; Val (field data "used"); Lit " GB"]) ]
  | Cpu =>
      [ ("cpu-freq",
         write_text [Lit "Freq: "; Val (field data "freq"); Lit " GHz"]);
        ("cpu-temp",
         write_text [Lit "Temp: "; Val (field data "temp"); Lit "°C"]) ]
  | Proc => []
  end.

Definition card_writes (m : metric) (data : Reading) : writes :=
  [ (key m +:+ "-value", write_text [Val (field data "usage"); Lit "%"]);
    (key m +:+ "-value",
     write_style (set_animation "valueFlicker 0.5s ease-in-out"));
    (key m +:+ "-fill",
     write_style (set_width [Val (field data "usage"); Lit "%"])) ]
  ++ detail_writes m data.

Definition render_writes (pd : MetricSet) : writes :=
  Object_keys ≫= λ m, card_writes m (reading m pd).

Definition indicator_write (v : value) (el : Element) : Element :=
  match status_colour v with
  | Some c => write_style (set_background c) el
  | None => el
  end.

Definition indicator_writes (pd : MetricSet) : writes :=
  (λ m, (key m, indicator_write (usage m pd))) <$> Object_keys.


(** *** Start-up *)

(** The literal of [initializePerformanceMonitoring]. *)
Definition initial_data : MetricSet := {|
  disk := {[ "usage" := Num 0; "used" := Num 0; "free" := Num 0; "total" := Num 100 ]};
  gpu := {[ "usage" := Num 0; "temp" := Num 0; "memory" := Num 0 ]};
  proc := {[ "usage" := Num 0; "cores" := Num 0; "threads" := Num 0 ]};
  ram := {[ "usage" := Num 0; "used" := Num 0; "total" := Num 16 ]};
  cpu := {[ "usage" := Num 0; "freq" := Num 0; "temp" := Num 0 ]}
|}.

(** What detection reads from [navigator]: [hardwareConcurrency] ([None]
    when it is [undefined]) and whether [navigator.storage.estimate] is
    there. *)
Record Navigator := {
  hardwareConcurrency : option Q;
  has_storage : bool
}.

(** The object [navigator.storage.estimate()] resolves to; a field is [None]
    when it is [undefined]. *)
Record StorageEstimate := {
  estimate_quota : option Q;
  estimate_usage : option Q
}.

(** [navigator.hardwareConcurrency || 8]: [undefined] and 0 are falsy. *)
Definition cores_or_default (hc : option Q) : Q :=
  match hc with
  | Some n => if Qeq_bool n 0 then 8 else n
  | None => 8
  end.

(** The statements of [detectSystemInfo] before the [await]. *)
Definition detect_navigator (nav : Navigator) : M unit :=
  set_field Proc "cores" (Num (cores_or_default (hardwareConcurrency nav))) ;;
  cores ← get_number Proc "cores";
  set_field Proc "threads" (Num (cores * 2)) ;;
  w ← get_world;
  match memory (page w) with
  | Some memInfo =>
      set_field Ram "total" (Num (Math_round (totalJSHeapSize memInfo / GB))) ;;
      set_field Ram "used" (Num (Math_round (usedJSHeapSize memInfo / GB)))
  | None => mret tt
  end.

(** [estimate.quota && estimate.usage]: both are numbers other than 0. *)
Definition truthy (v : option Q) : bool :=
  match v with
  | Some q => negb (Qeq_bool q 0)
  | None => false
  end.

(** The statements of [detectSystemInfo] between the [await] and the end of
    the [try] block.  With a total that rounds to zero the usage is
    [Infinity] or [NaN]. *)
Definition detect_storage (estimate : StorageEstimate) : M unit :=
  match estimate_quota estimate, estimate_usage estimate with
  | Some q, Some u =>
      if truthy (Some q) && truthy (Some u) then
        set_field Disk "total" (Num (Math_round (q / GB))) ;;
        set_field Disk "used" (Num (Math_round (u / GB))) ;;
        total ← get_number Disk "total";
        used ← get_number Disk "used";
        set_field Disk "free" (Num (total ⊖ used)) ;;
        used ← get_number Disk "used";
        total ← get_number Disk "total";
        set_field Disk "usage" (percentage used total)
      else mret tt
  | _, _ => mret tt
  end.

(** [document.getElementById(id).textContent = t]: without a guard, so a
    missing element raises a [TypeError]. *)
Definition assign_textContent (id : string) (t : text) : M unit :=
  el ← document_getElementById id;
  match el with
  | Some _ => set_textContent id t
  | None => throw
  end.

(** [updateStaticInfo]. *)
Definition updateStaticInfo : M unit :=
  cores ← get_field Proc "cores";
  assign_textContent "proc-cores" [Lit "Cores: "; Val cores] ;;
  threads ← get_field Proc "threads";
  assign_textContent "proc-threads" [Lit "Threads: "; Val threads] ;;
  total ← get_field Ram "total";
  assign_textContent "ram-total" [Lit "Total: "; Val total; Lit " GB"].

(** The call [this.initializeSimulatedData()]. *)
Definition assign_simulated_data : M unit :=
  modify (set_performanceData initializeSimulatedData).

(** The end of [detectSystemInfo], after its [try] statement. *)
Definition finish_detection : M unit :=
  updateStaticInfo ;; assign_simulated_data.

Definition detection_failed : string :=
  "[v0] Could not access system APIs, using simulated data".

(** [detectSystemInfo] up to its first suspension: the whole function when
    there is no [navigator.storage.estimate] to await, the statements before
    the [await] otherwise.  The result tells whether the function is
    suspended.  [nav] is [None] when [window] has no [navigator]. *)
Definition detectSystemInfo_start (nav : option Navigator) : M bool :=
  suspended ←
    try_catch
      (match nav with
       | Some n => detect_navigator n ;; mret (has_storage n)
       | None => mret false
       end)
      (console_log detection_failed ;; mret false);
  if suspended : bool then mret true else finish_detection ;; mret false.

(** [detectSystemInfo] from the [await] on, run when the promise of
    [navigator.storage.estimate()] settles: [None] when it is rejected. *)
Definition detectSystemInfo_resume (estimate : option StorageEstimate) : M unit :=
  try_catch
    (match estimate with
     | Some e => detect_storage e
     | None => throw
     end)
    (console_log detection_failed) ;;
  finish_detection.

(** [initializePerformanceMonitoring], up to the suspension of the
    detection.  [detectSystemInfo] is an [async] function: what it raises
    rejects its promise, which nobody awaits. *)
Definition initializePerformanceMonitoring (nav : option Navigator) : M bool :=
  modify (set_performanceData initial_data) ;;
  try_catch (detectSystemInfo_start nav) (mret false).

(** The constructor, from [initializePerformanceMonitoring] on:
    [startRealTimeUpdates] runs the initial update. *)
Definition construct (nav : option Navigator) : M bool :=
  suspended ← initializePerformanceMonitoring nav;
  updatePerformanceMetrics ;;
  mret suspended.

(** The elements [updateStaticInfo] writes to. *)
Definition static_ids : list string := ["proc-cores"; "proc-threads"; "ram-total"].

Definition has_static_elements (p : Page) : Prop :=
  ∀ id, id ∈ static_ids → is_Some (elements p !! id).

(** The world after [updateStaticInfo], when the three elements are there. *)
Definition static_shown (w : World) : World :=
  let pd := performanceData w in
  with_elements
    (λ els,
       put_text "ram-total" [Lit "Total: "; Val (field (ram pd) "total"); Lit " GB"]
         (put_text "proc-threads" [Lit "Threads: "; Val (field (proc pd) "threads")]
            (put_text "proc-cores" [Lit "Cores: "; Val (field (proc pd) "cores")]
               els))) w.

(** The world after the statements of [detect_navigator]. *)
Definition detected (nav : Navigator) (w : World) : World :=
  let cores := cores_or_default (hardwareConcurrency nav) in
  let w1 := write_field Proc "threads" (Num (cores * 2))
              (write_field Proc "cores" (Num cores) w) in
  match memory (page w) with
  | Some memInfo =>
      write_field Ram "used" (Num (Math_round (usedJSHeapSize memInfo / GB)))
        (write_field Ram "total" (Num (Math_round (totalJSHeapSize memInfo / GB)))
           w1)
  | None => w1
  end.

(** A page with the elements of the cards and the three static elements. *)
Definition full_page (mem : option MemoryInfo) : Page :=
  let p := example_page example_clock example_randoms mem in
  set_elements (list_to_map ((λ id, (id, blank)) <$> static_ids) ∪ elements p) p.

(** A browser with four cores and no storage API; one with the API. *)
Definition plain_browser : Navigator :=
  {| hardwareConcurrency := Some 4; has_storage := false |}.
Definition storage_browser : Navigator :=
  {| hardwareConcurrency := Some 4; has_storage := true |}.

(** The line the listener of [DOMContentLoaded] logs. *)
Definition initialized : string :=
  "[v0] Performance Dashboard initialized with real-time monitoring".

(** The listener of [DOMContentLoaded]: it constructs the dashboard on the
    page [p], assigns it to [window.dashboard] and logs.  When the
    constructor raises, the assignment and the log are not reached.  (The
    field [performanceData] of the new object is not read before
    [initializePerformanceMonitoring] assigns it.) *)
Definition on_DOMContentLoaded (nav : option Navigator) (p : Page)
    : option (completion unit * Window) :=
  match construct nav {| performanceData := initial_data; page := p |} with
  | Some (Normal _, w) =>
      Some (Normal tt,
            {| dashboard := Some (performanceData w);
               globals := set_console (console (page w) ++ [initialized]) (page w) |})
  | Some (Throw, w) => Some (Throw, {| dashboard := None; globals := page w |})
  | None => None
  end.

(** The page of [broken_world]. *)
Definition broken_page : Page := page broken_world.

(** A heap of less than half a gigabyte: its total rounds to 0 GB. *)
Definition small_heap : MemoryInfo :=
  {| usedJSHeapSize := 30000000; totalJSHeapSize := 50000000 |}.

End Monitor.

(** ** Host bridge *)

Module Bridge.

(** The control a listener is registered on, named by the selector the script
    passes to [document.querySelector]: [[data-action="..."]] or
    [[data-mod="..."]]. *)
Inductive control :=
  | DataAction (name : string)
  | DataMod (name : string).

Global Instance control_eq_dec : EqDecision control.
Proof. solve_decision. Defined.

(** A click listener: it posts [message] when [window.chrome.webview] is
    there; otherwise it logs, if it has an [else] branch, or does nothing. *)
Record listener := {
  target : control;
  message : string;
  logs_missing_host : bool
}.

Definition logging (c : control) (msg : string) : listener :=
  {| target := c; message := msg; logs_missing_host := true |}.
Definition silent (c : control) (msg : string) : listener :=
  {| target := c; message := msg; logs_missing_host := false |}.

(** The listeners, in the order the script registers them. *)
Definition listeners : list listener :=
  [ logging (DataAction "full-clean") "full-clean";
    logging (DataAction "clean-ram") "clean-ram";
    silent (DataAction "full-clean") "full-clean";
    silent (DataAction "clean-ram") "clean-ram";
    silent (DataAction "ip-flush") "ip-flush";
    silent (DataAction "reset-firewall") "reset-firewall";
    silent (DataAction "clear-temp") "clear-temp";
    silent (DataAction "kill-emulator") "kill-emulator";
    silent (DataAction "fix-98") "fix-98";
    silent (DataAction "environment-fix") "environment-fix";
    silent (DataMod "super-smooth") "super-smooth";
    silent (DataMod "ultra-hd") "ultra-hd";
    silent (DataMod "hdr") "hdr";
    silent (DataMod "smooth") "smooth";
    silent (DataMod "t-box-speed") "t-box-speed";
    silent (DataAction "park-control") "park-control";
    silent (DataAction "timer-resolution") "timer-resolution";
    silent (DataAction "cru") "cru";
    silent (DataAction "filterkeys") "filterkeys";
    silent (DataAction "optimized-tweak") "optimized-tweak";
    silent (DataAction "debloat") "debloat";
    silent (DataAction "control-panel") "control-panel";
    silent (DataAction "visual-effects") "visual-effects";
    silent (DataAction "msconfig") "msconfig";
    silent (DataAction "windows-update-blocker") "windows-update-blocker";
    silent (DataAction "defender-control") "defender-control";
    silent (DataAction "nx-script") "nx-script";
    silent (DataAction "basic") "basic";
    silent (DataAction "advanced") "advanced";
    silent (DataAction "ultimate") "ultimate";
    silent (DataAction "windows-10-activation") "windows-10-activation";
    silent (DataAction "basicF") "basicF";
    silent (DataAction "advancedF") "advancedF";
    silent (DataAction "ultimateF") "ultimateF";
    silent (DataAction "commend") "commend";
    silent (DataAction "cleanF") "cleanF" ].

(** The controls of the catalog. *)
Definition controls : list control := remove_dups (target <$> listeners).

(** The catalog, spelled out. *)
Definition catalog : list control :=
  [ DataAction "full-clean"; DataAction "clean-ram"; DataAction "ip-flush";
    DataAction "reset-firewall"; DataAction "clear-temp";
    DataAction "kill-emulator"; DataAction "fix-98";
    DataAction "environment-fix"; DataMod "super-smooth"; DataMod "ultra-hd";
    DataMod "hdr"; DataMod "smooth"; DataMod "t-box-speed";
    DataAction "park-control"; DataAction "timer-resolution"; DataAction "cru";
    DataAction "filterkeys"; DataAction "optimized-tweak"; DataAction "debloat";
    DataAction "control-panel"; DataAction "visual-effects";
    DataAction "msconfig"; DataAction "windows-update-blocker";
    DataAction "defender-control"; DataAction "nx-script"; DataAction "basic";
    DataAction "advanced"; DataAction "ultimate";
    DataAction "windows-10-activation"; DataAction "basicF";
    DataAction "advancedF"; DataAction "ultimateF"; DataAction "commend";
    DataAction "cleanF" ].

(** [webview]: the messages posted to [window.chrome.webview] so far, [None]
    when [window.chrome] or [window.chrome.webview] is missing. *)
Record host := {
  webview : option (list string);
  console : list string
}.

Definition run (l : listener) (h : host) : host :=
  match webview h with
  | Some posted =>
      {| webview := Some (posted ++ [message l]); console := console h |}
  | None =>
      if logs_missing_host l then
        {| webview := None;
           console := console h ++ ["WebView host not available"] |}
      else h
  end.

(** A click runs the listeners registered on the control, in the order of
    their registration. *)
Definition click (c : control) (h : host) : host :=
  foldl (λ h l, run l h) h (filter (λ l, target l = c) listeners).

Definition no_host : host := {| webview := None; console := [] |}.

Definition doubly_registered (c : control) : bool :=
  bool_decide (c = DataAction "full-clean" ∨ c = DataAction "clean-ram").

(** The name in the selector of a control. *)
Definition name_of (c : control) : string :=
  match c with DataAction n | DataMod n => n end.

(** The script registers its listeners one after the other, each on the
    result of [document.querySelector], without a guard: where the control is
    missing the call of [addEventListener] raises, and the rest of the script
    is not run.  [add_listeners present ls] gives the listeners that get
    registered and tells whether the end of the list was reached. *)
Fixpoint add_listeners (present : control → bool) (ls : list listener)
    : list listener * bool :=
  match ls with
  | [] => ([], true)
  | l :: ls =>
      if present (target l) then
        let r := add_listeners present ls in (l :: r.1, r.2)
      else ([], false)
  end.

(** The run of the script on a page with the controls [present]: the
    listeners registered, and whether the assignment of
    [window.updateDashboard], which comes last, was reached. *)
Definition run_script (present : control → bool) : list listener * bool :=
  add_listeners present listeners.

(** A click on a page where [registered] are the listeners. *)
Definition click_on (registered : list listener) (c : control) (h : host)
    : host :=
  foldl (λ h l, run l h) h (filter (λ l, target l = c) registered).

Definition host_missing : string := "WebView host not available".

End Bridge.

(** * Properties *)

(** ** Navigation *)

Module NavFacts.
Import Nav.

Section Facts.

Implicit Types (doc : document) (e : element) (t : string) (i b p : nat).

Lemma forEach_loops doc :
  forEach_class page classList_remove_active
    (forEach_class nav_btn classList_remove_active doc) = deactivate <$> doc.
Proof.
  unfold forEach_class. rewrite <- list_fmap_compose.
  apply list_fmap_ext. intros _ [eid dp [] [] a] _; reflexivity.
Qed.

Lemma same_attrs_deactivate e : same_attrs (deactivate e) e.
Proof. destruct e as [eid dp [] [] a]; repeat split. Qed.

Lemma same_attrs_add e : same_attrs (classList_add_active e) e.
Proof. repeat split. Qed.

Lemma same_attrs_trans e1 e2 e3 :
  same_attrs e1 e2 → same_attrs e2 e3 → same_attrs e1 e3.
Proof. unfold same_attrs. intros (?&?&?&?) (?&?&?&?). repeat split; congruence. Qed.

(** A query that reads attributes only finds the same position in two
    documents whose elements agree on their attributes. *)
Lemma find_same_attrs (P : element → Prop) `{!∀ e, Decision (P e)} doc doc' :
  (∀ e e', same_attrs e e' → P e ↔ P e') →
  Forall2 same_attrs doc doc' →
  fst <$> list_find P doc = fst <$> list_find P doc'.
Proof.
  intros HP Hall. induction Hall as [|e e' l l' He _ IH]; [reflexivity|].
  cbn. pose proof (HP _ _ He) as Hiff.
  destruct (decide (P e)), (decide (P e')); try tauto.
  destruct (list_find P l) as [[]|], (list_find P l') as [[]|];
    cbn in *; congruence.
Qed.

Lemma querySelector_same_attrs t doc doc' :
  Forall2 same_attrs doc doc' →
  querySelector_data_page t doc = querySelector_data_page t doc'.
Proof.
  apply find_same_attrs. intros e e' (_&Hd&_). by rewrite Hd.
Qed.

Lemma getElementById_same_attrs t doc doc' :
  Forall2 same_attrs doc doc' →
  getElementById t doc = getElementById t doc'.
Proof.
  apply find_same_attrs. intros e e' (Hi&_). by rewrite Hi.
Qed.

Lemma deactivate_same_attrs doc : Forall2 same_attrs (deactivate <$> doc) doc.
Proof.
  induction doc; constructor; auto using same_attrs_deactivate.
Qed.

(** [switchPage] in closed form: the queries can be read off the document as
    it was before the loops. *)
Lemma switchPage_eq t doc :
  switchPage t doc =
    match querySelector_data_page t doc, getElementById t doc with
    | Some b, Some p =>
        alter classList_add_active p
          (alter classList_add_active b (deactivate <$> doc))
    | _, _ => deactivate <$> doc
    end.
Proof.
  unfold switchPage. rewrite forEach_loops.
  rewrite (querySelector_same_attrs t _ doc), (getElementById_same_attrs t _ doc)
    by apply deactivate_same_attrs.
  reflexivity.
Qed.

Lemma switchPage_same_attrs t doc : Forall2 same_attrs (switchPage t doc) doc.
Proof.
  rewrite switchPage_eq.
  destruct (querySelector_data_page t doc) as [b|],
    (getElementById t doc) as [p|]; try apply deactivate_same_attrs.
  apply Forall2_alter_l; [apply Forall2_alter_l|];
    [apply deactivate_same_attrs|..];
    intros x y _ _ Hxy; exact (same_attrs_trans _ _ _ (same_attrs_add x) Hxy).
Qed.

Lemma deactivate_idemp e : deactivate (deactivate e) = deactivate e.
Proof. destruct e as [eid dp [] [] a]; reflexivity. Qed.


Lemma switchPage_lookup t doc i :
  switchPage t doc !! i =
  repaint (querySelector_data_page t doc) (getElementById t doc) i <$> doc !! i.
Proof.
  rewrite switchPage_eq. unfold repaint.
  destruct (querySelector_data_page t doc) as [b|],
    (getElementById t doc) as [p|]; try apply list_lookup_fmap.
  rewrite !list_lookup_alter, !list_lookup_fmap.
  destruct (decide (p = i)) as [->|Hp], (decide (b = i)) as [->|Hb];
    destruct (doc !! i) as [e|]; cbn; try reflexivity;
    destruct (decide _) as [?|Hn]; try reflexivity;
    exfalso; try apply Hn; intuition congruence.
Qed.




Lemma query_lookup (P : element → Prop) `{!∀ e, Decision (P e)} doc i :
  fst <$> list_find P doc = Some i → ∃ e, doc !! i = Some e ∧ P e.
Proof.
  destruct (list_find P doc) as [[j e]|] eqn:Hf; [|done].
  intros [= ->]. apply list_find_Some in Hf as (?&?&_). eauto.
Qed.

Lemma click_switchPage i e t doc :
  doc !! i = Some e → nav_btn e = true → data_page e = Some t →
  nav_click i doc = switchPage t doc.
Proof. unfold nav_click. by intros -> -> ->. Qed.

End Facts.

(** C2, as the specification states it, fails: the button ["about"] of
    [doc_missing_page] has no page, and clicking it deactivates the button
    and the page of ["home"], which were active. *)
Lemma click_unknown_page_not_noop :
  getElementById "about" doc_missing_page = None ∧
  nav_click 1 doc_missing_page =
    [classList_remove_active home_button; about_button;
     classList_remove_active home_page] ∧
  nav_click 1 doc_missing_page ≠ doc_missing_page.
Proof. split; [reflexivity|]. split; [reflexivity|]. discriminate. Qed.

(** C2, amended: when the identifier matches no element with that
    [data-page] or no element with that [id], [switchPage] removes ["active"]
    from every navigation button and every page and adds it nowhere; every
    other element, and every attribute, stays as it was.  The click is a
    no-op exactly when no button and no page was active before it. *)
Theorem switchPage_unknown_deactivates (t : string) (doc : document) :
  querySelector_data_page t doc = None ∨ getElementById t doc = None →
  (∀ i e, doc !! i = Some e →
     switchPage t doc !! i =
       Some (if nav_btn e || page e then classList_remove_active e else e)) ∧
  length (switchPage t doc) = length doc ∧
  active_buttons (switchPage t doc) = [] ∧
  active_pages (switchPage t doc) = [] ∧
  (switchPage t doc = doc ↔
     ∀ e, e ∈ doc → nav_btn e || page e = true → active e = false).
Proof.
  intros Hunknown.
  assert (switchPage t doc = deactivate <$> doc) as ->.
  { rewrite switchPage_eq.
    destruct Hunknown as [-> | ->]; [done|].
    by destruct (querySelector_data_page t doc). }
  split; [|split; [|split; [|split]]].
  - intros i e Hi. by rewrite list_lookup_fmap, Hi.
  - apply length_fmap.
  - unfold active_buttons.
    destruct (filter _ _) as [|y k] eqn:Hf; [done|exfalso].
    assert (y ∈ y :: k) as Hy by left. rewrite <- Hf in Hy.
    apply list_elem_of_filter in Hy as [Hact Hin].
    apply list_elem_of_fmap in Hin as [[eid dp [] [] a] [-> _]]; done.
  - unfold active_pages.
    destruct (filter _ _) as [|y k] eqn:Hf; [done|exfalso].
    assert (y ∈ y :: k) as Hy by left. rewrite <- Hf in Hy.
    apply list_elem_of_filter in Hy as [Hact Hin].
    apply list_elem_of_fmap in Hin as [[eid dp [] [] a] [-> _]]; done.
  - split.
    + intros Heq e Hin Hcls. rewrite <- Heq in Hin.
      apply list_elem_of_fmap in Hin as [[eid dp [] [] a] [-> _]];
        cbn in *; done.
    + intros Hinactive. rewrite <- (list_fmap_id doc) at 2.
      apply list_fmap_ext. intros _ e Hin%list_elem_of_lookup_2.
      specialize (Hinactive e Hin). unfold deactivate.
      destruct e as [eid dp n pg a]; cbn in *.
      destruct (n || pg); [|done]. by rewrite Hinactive.
Qed.

Lemma switchPage_unknown_deactivates_witness :
  getElementById "about" doc_missing_page = None ∧
  switchPage "about" doc_missing_page !! 0 =
    Some (classList_remove_active home_button) ∧
  active_pages (switchPage "about" doc_missing_page) = [].
Proof.
  assert (getElementById "about" doc_missing_page = None) as Hnone
    by reflexivity.
  destruct (switchPage_unknown_deactivates "about" doc_missing_page
              (or_intror Hnone)) as (Hlookup & _ & _ & Hpages & _).
  split; [exact Hnone|]. split; [|exact Hpages].
  exact (Hlookup 0 home_button eq_refl).
Defined.




(** *** What navigation leaves alone, and how clicks compose *)

Lemma deactivate_found (e e' : element) :
  same_attrs e' e → nav_btn e || page e = true → deactivate e' = deactivate e.
Proof.
  destruct e as [eid dp n pg a], e' as [eid' dp' n' pg' a'].
  intros (?&?&?&?) Hcls; cbn in *; subst. unfold deactivate; cbn.
  by rewrite Hcls.
Qed.

(** X1: [switchPage] changes the ["active"] class only: the document keeps
    its length, and every element its [id], its [data-page] and its
    membership of [".nav-btn"] and [".page"].  For a plain identifier, an
    element that is neither a navigation button nor a page is never
    deactivated, and it is made active exactly when both queries succeed and
    one of them finds it; otherwise it stays as it was. *)
Theorem switchPage_only_active (t : string) (doc : document) :
  length (switchPage t doc) = length doc ∧
  Forall2 same_attrs (switchPage t doc) doc ∧
  (plain t →
   ∀ i e, doc !! i = Some e → nav_btn e = false → page e = false →
     ∃ e', switchPage t doc !! i = Some e' ∧
       ((∃ b p, querySelector_data_page t doc = Some b ∧
                getElementById t doc = Some p ∧ (i = b ∨ i = p)) →
        e' = classList_add_active e) ∧
       (¬ (∃ b p, querySelector_data_page t doc = Some b ∧
                  getElementById t doc = Some p ∧ (i = b ∨ i = p)) →
        e' = e)).
Proof.
  split; [|split].
  - exact (Forall2_length _ _ _ (switchPage_same_attrs t doc)).
  - apply switchPage_same_attrs.
  - intros _ i e Hi Hnav Hpage. rewrite switchPage_lookup, Hi. cbn.
    eexists. split; [reflexivity|].
    assert (deactivate e = e) as Hde by (unfold deactivate; by rewrite Hnav, Hpage).
    unfold repaint.
    destruct (querySelector_data_page t doc) as [b|],
      (getElementById t doc) as [p|]; rewrite ?Hde;
      try (split; [by intros (? & ? & ? & ? & _)|done]).
    case_decide as Hi'.
    + split; [done|]. intros Hno. exfalso. apply Hno. by exists b, p.
    + split; [|done]. intros (b' & p' & [= <-] & [= <-] & Hbp). done.
Qed.

Lemma switchPage_only_active_witness :
  switchPage "home" doc_stray_link !! 0 =
    Some (classList_add_active (Element None (Some "home") false false false)) ∧
  switchPage "about" doc_stray_link !! 0 =
    Some (Element None (Some "home") false false false).
Proof.
  assert (plain "home") as Hhome by done.
  assert (plain "about") as Habout by done.
  destruct (switchPage_only_active "home" doc_stray_link) as (_ & _ & Hhit).
  destruct (Hhit Hhome 0 _ eq_refl eq_refl eq_refl) as (e1 & He1 & Hadd & _).
  destruct (switchPage_only_active "about" doc_stray_link) as (_ & _ & Hmiss).
  destruct (Hmiss Habout 0 _ eq_refl eq_refl eq_refl) as (e2 & He2 & _ & Hstay).
  split.
  - rewrite He1. f_equal. apply Hadd. exists 0, 3. repeat split. by left.
  - rewrite He2. f_equal. apply Hstay. intros (b & p & Hb & Hp & Hbp).
    vm_compute in Hb, Hp. injection Hb as <-. injection Hp as <-.
    destruct Hbp; discriminate.
Defined.

(** X2: for plain identifiers, the view after two page switches is the view
    after the second one alone, provided the elements the first switch finds
    are navigation buttons or pages (so that the second switch deactivates
    them again). *)
Theorem switchPage_last_wins (t t' : string) (doc : document) :
  plain t → plain t' →
  (∀ i e, querySelector_data_page t doc = Some i ∨ getElementById t doc = Some i →
     doc !! i = Some e → nav_btn e || page e = true) →
  switchPage t' (switchPage t doc) = switchPage t' doc.
Proof.
  intros _ _ Hfound. apply list_eq. intros i. rewrite !switchPage_lookup.
  rewrite (querySelector_same_attrs t' _ doc), (getElementById_same_attrs t' _ doc)
    by apply switchPage_same_attrs.
  destruct (doc !! i) as [e|] eqn:Hi; [cbn; f_equal|reflexivity].
  assert (deactivate (repaint (querySelector_data_page t doc)
                        (getElementById t doc) i e) = deactivate e) as Hde.
  { unfold repaint.
    destruct (querySelector_data_page t doc) as [b|] eqn:Hb,
      (getElementById t doc) as [p|] eqn:Hp; try apply deactivate_idemp.
    case_decide as Hi'; [|apply deactivate_idemp].
    apply deactivate_found.
    - exact (same_attrs_trans _ _ _ (same_attrs_add _) (same_attrs_deactivate e)).
    - apply (Hfound i); [|done]. destruct Hi' as [->| ->]; auto. }
  unfold repaint at 1 3.
  destruct (querySelector_data_page t' doc), (getElementById t' doc);
    rewrite ?Hde; reflexivity.
Qed.

Lemma switchPage_last_wins_witness :
  switchPage "home" (switchPage "about" doc_two_pages) =
  switchPage "home" doc_two_pages.
Proof.
  apply (switchPage_last_wins "about" "home" doc_two_pages); [done..|].
  intros i e [Hq|Hq]; vm_compute in Hq; injection Hq as <-;
    intros [= <-]; reflexivity.
Defined.

(** X3: for a plain page name, [switchToPage] behaves as a click on the
    first element that carries the name in [data-page]: it is [switchPage]
    for that name when the element is a navigation button, and does nothing
    when the element is not one (it has no navigation listener) or when no
    element carries the name.  [window.switchToPage] does the same once
    [window.dashboard] is set, and nothing before, whatever the name. *)
Theorem switchToPage_as_click (pageName : string) (doc : document) :
  (plain pageName →
   (∀ b e, querySelector_data_page pageName doc = Some b → doc !! b = Some e →
      switchToPage pageName doc = nav_click b doc ∧
      (nav_btn e = true → switchToPage pageName doc = switchPage pageName doc) ∧
      (nav_btn e = false → switchToPage pageName doc = doc)) ∧
   (querySelector_data_page pageName doc = None →
      switchToPage pageName doc = doc) ∧
   window_switchToPage true pageName doc = switchToPage pageName doc) ∧
  window_switchToPage false pageName doc = doc.
Proof.
  split; [intros _; split; [|split]|]; try reflexivity.
  - intros b e Hq Hb. unfold switchToPage. rewrite Hq.
    split; [reflexivity|].
    pose proof (query_lookup _ _ _ Hq) as (e0 & He0 & Hdp).
    rewrite Hb in He0. injection He0 as <-.
    split; intros Hnav.
    + by apply (click_switchPage b e).
    + unfold nav_click. by rewrite Hb, Hnav.
  - intros Hq. unfold switchToPage. by rewrite Hq.
Qed.

Lemma switchToPage_as_click_witness :
  switchToPage "about" doc_two_pages = switchPage "about" doc_two_pages ∧
  switchToPage "home" doc_stray_link = doc_stray_link.
Proof.
  assert (plain "about") as Habout by done.
  assert (plain "home") as Hhome by done.
  destruct (switchToPage_as_click "about" doc_two_pages) as (Hplain & _).
  destruct (Hplain Habout) as (Hfound & _).
  destruct (Hfound 1 about_button eq_refl eq_refl) as (_ & Hbutton & _).
  destruct (switchToPage_as_click "home" doc_stray_link) as (Hplain' & _).
  destruct (Hplain' Hhome) as (Hfound' & _).
  destruct (Hfound' 0 _ eq_refl eq_refl) as (_ & _ & Hstray).
  split; [exact (Hbutton eq_refl)|exact (Hstray eq_refl)].
Defined.

End NavFacts.

(** ** Metrics *)

Module MonitorFacts.
Import Monitor.

Local Open Scope Q_scope.

(** *** Binary64 rounding

    [fl] is monotone, which carries every bound of the exact arithmetic that
    has binary64 numbers as its ends over to the arithmetic of the script. *)

Section Pow2.

Lemma pow2_pos k : 0 < pow2 k.
Proof. apply Qpower_0_lt. reflexivity. Qed.

Lemma pow2_add a b : pow2 (a + b) == pow2 a * pow2 b.
Proof. apply Qpower_plus. discriminate. Qed.

Lemma pow2_opp a : pow2 (- a) == / pow2 a.
Proof. apply Qpower_opp. Qed.

Lemma pow2_le a b : (a ≤ b)%Z → pow2 a <= pow2 b.
Proof. intros H. apply Qpower_le_compat_l; [exact H|]. discriminate. Qed.

Lemma pow2_lt a b : (a < b)%Z → pow2 a < pow2 b.
Proof. intros H. apply Qpower_lt_compat_l; [exact H|]. reflexivity. Qed.

Lemma pow2_inject a : (0 ≤ a)%Z → pow2 a == inject_Z (2 ^ a).
Proof. intros H. symmetry. apply (Zpower_Qpower 2 a H). Qed.

Lemma pow2_cancel a : pow2 a * pow2 (- a) == 1.
Proof. rewrite <- pow2_add, Z.add_opp_diag_r. reflexivity. Qed.

End Pow2.

Section Log.

Lemma ilog2_spec x : 0 < x → pow2 (ilog2 x) <= x < pow2 (ilog2 x + 1).
Proof.
  destruct x as [n d]. intros Hx.
  assert (0 < n)%Z as Hn.
  { unfold Qlt in Hx. cbn in Hx. lia. }
  unfold ilog2. cbn [Qnum Qden].
  set (a := Z.log2 n). set (b := Z.log2 (Z.pos d)).
  destruct (Z.log2_spec n Hn) as [Ha1 Ha2]. fold a in Ha1, Ha2.
  destruct (Z.log2_spec (Z.pos d) eq_refl) as [Hb1 Hb2]. fold b in Hb1, Hb2.
  assert (0 ≤ a)%Z as Ha0 by apply Z.log2_nonneg.
  assert (0 ≤ b)%Z as Hb0 by apply Z.log2_nonneg.
  assert (n # d == inject_Z n / inject_Z (Z.pos d)) as Hnd.
  { rewrite (Qmake_Qdiv n d). reflexivity. }
  assert (0 < inject_Z (Z.pos d)) as Hd0 by reflexivity.
  assert (pow2 a <= inject_Z n) as Qa1.
  { rewrite pow2_inject by done. by rewrite <- Zle_Qle. }
  assert (inject_Z n < pow2 (a + 1)) as Qa2.
  { rewrite pow2_inject by lia. rewrite <- Zlt_Qlt. unfold Z.succ in Ha2. exact Ha2. }
  assert (pow2 b <= inject_Z (Z.pos d)) as Qb1.
  { rewrite pow2_inject by done. by rewrite <- Zle_Qle. }
  assert (inject_Z (Z.pos d) < pow2 (b + 1)) as Qb2.
  { rewrite pow2_inject by lia. rewrite <- Zlt_Qlt. unfold Z.succ in Hb2. exact Hb2. }
  (* x < pow2 (a - b + 1) and pow2 (a - b - 1) < x *)
  assert (n # d < pow2 (a - b + 1)) as Hup.
  { rewrite Hnd. apply Qlt_shift_div_r; [exact Hd0|].
    replace (a - b + 1)%Z with ((a + 1) + - b)%Z by lia.
    rewrite pow2_add.
    apply Qlt_le_trans with (pow2 (a + 1)); [exact Qa2|].
    rewrite <- (Qmult_1_r (pow2 (a + 1))) at 1.
    rewrite <- Qmult_assoc. apply Qmult_le_l; [apply pow2_pos|].
    rewrite <- (pow2_cancel b), (Qmult_comm (pow2 b)).
    apply Qmult_le_l; [apply pow2_pos|exact Qb1]. }
  assert (pow2 (a - b - 1) < n # d) as Hlo.
  { rewrite Hnd. apply Qlt_shift_div_l; [exact Hd0|].
    replace (a - b - 1)%Z with (a + - (b + 1))%Z by lia.
    rewrite pow2_add.
    apply Qlt_le_trans with (pow2 a); [|exact Qa1].
    rewrite <- (Qmult_1_r (pow2 a)) at 2.
    rewrite <- Qmult_assoc. apply Qmult_lt_l; [apply pow2_pos|].
    rewrite <- (pow2_cancel (b + 1)), (Qmult_comm (pow2 (b + 1))).
    apply Qmult_lt_l; [apply pow2_pos|exact Qb2]. }
  destruct (Qle_bool (pow2 (a - b)) (n # d)) eqn:Hle.
  - apply Qle_bool_iff in Hle. split; [exact Hle|exact Hup].
  - split; [apply Qlt_le_weak; exact Hlo|].
    replace (a - b - 1 + 1)%Z with (a - b)%Z by lia.
    apply Qnot_le_lt. intros H. apply Qle_bool_iff in H. congruence.
Qed.

Lemma ilog2_unique x e : pow2 e <= x < pow2 (e + 1) → ilog2 x = e.
Proof.
  intros [H1 H2].
  assert (0 < x) as Hx by (eapply Qlt_le_trans; [apply (pow2_pos e)|exact H1]).
  destruct (ilog2_spec x Hx) as [H3 H4].
  destruct (Z.lt_trichotomy (ilog2 x) e) as [Hlt|[Heq|Hgt]]; [|exact Heq|].
  - exfalso. assert (pow2 (ilog2 x + 1) <= pow2 e) by (apply pow2_le; lia). lra.
  - exfalso. assert (pow2 (e + 1) <= pow2 (ilog2 x)) by (apply pow2_le; lia). lra.
Qed.

Lemma ilog2_le x y : 0 < x → x <= y → (ilog2 x ≤ ilog2 y)%Z.
Proof.
  intros Hx Hxy. assert (0 < y) as Hy by lra.
  destruct (ilog2_spec x Hx) as [H1 H2]. destruct (ilog2_spec y Hy) as [H3 H4].
  destruct (Z_le_gt_dec (ilog2 x) (ilog2 y)) as [Hle|Hgt]; [exact Hle|].
  exfalso. assert (pow2 (ilog2 y + 1) <= pow2 (ilog2 x)) by (apply pow2_le; lia). lra.
Qed.

End Log.

Section Nearest.

Lemma rne_cases y : rne y = Qfloor y ∨ rne y = (Qfloor y + 1)%Z.
Proof.
  unfold rne. destruct (Qcompare _ _); [destruct (Z.even _)|..]; auto.
Qed.

Lemma rne_inject z : rne (inject_Z z) = z.
Proof.
  unfold rne. rewrite Qfloor_Z.
  assert (inject_Z z - inject_Z z < 1 # 2) as H by lra.
  rewrite Qlt_alt in H. by rewrite H.
Qed.

Lemma rne_comp : Proper (Qeq ==> eq) rne.
Proof.
  intros y y' Hy. unfold rne. rewrite (Qfloor_comp _ _ Hy).
  assert (y - inject_Z (Qfloor y') == y' - inject_Z (Qfloor y')) as H by (rewrite Hy; reflexivity).
  by rewrite (Qcompare_comp _ _ H _ _ (Qeq_refl _)).
Qed.

Lemma rne_le y y' : y <= y' → (rne y ≤ rne y')%Z.
Proof.
  intros Hy.
  pose proof (Qfloor_le y) as Hf1. pose proof (Qlt_floor y) as Hf2.
  pose proof (Qfloor_le y') as Hf1'. pose proof (Qlt_floor y') as Hf2'.
  rewrite inject_Z_plus in Hf2, Hf2'.
  assert (Qfloor y ≤ Qfloor y')%Z as Hff by (by apply Qfloor_resp_le).
  destruct (Z.eq_dec (Qfloor y) (Qfloor y')) as [Heq|Hne].
  - unfold rne. rewrite <- Heq.
    destruct (Qcompare (y - inject_Z (Qfloor y)) (1 # 2)) eqn:Hc;
    destruct (Qcompare (y' - inject_Z (Qfloor y)) (1 # 2)) eqn:Hc';
    first [apply Qeq_alt in Hc|apply Qlt_alt in Hc|apply Qgt_alt in Hc];
    first [apply Qeq_alt in Hc'|apply Qlt_alt in Hc'|apply Qgt_alt in Hc'];
    try destruct (Z.even (Qfloor y)); try lia; exfalso; lra.
  - assert (Qfloor y + 1 ≤ Qfloor y')%Z by lia.
    destruct (rne_cases y) as [-> | ->], (rne_cases y') as [-> | ->]; lia.
Qed.

Lemma rne_ge_inject z y : inject_Z z <= y → (z ≤ rne y)%Z.
Proof. intros H. rewrite <- (rne_inject z). by apply rne_le. Qed.

Lemma rne_le_inject z y : y <= inject_Z z → (rne y ≤ z)%Z.
Proof. intros H. rewrite <- (rne_inject z). by apply rne_le. Qed.

End Nearest.

Section Rounding.

Lemma exponent_spec x :
  0 < x → x < pow2 (exponent x + 1) ∧ (emin ≤ exponent x)%Z ∧
          ((emin < exponent x)%Z → pow2 (exponent x) <= x).
Proof.
  intros Hx. destruct (ilog2_spec x Hx) as [H1 H2]. unfold exponent.
  split; [|split; [lia|]].
  - eapply Qlt_le_trans; [exact H2|]. apply pow2_le. lia.
  - intros H. by replace (Z.max (ilog2 x) emin) with (ilog2 x) by lia.
Qed.

Lemma exponent_le x y : 0 < x → x <= y → (exponent x ≤ exponent y)%Z.
Proof.
  intros Hx Hxy. pose proof (ilog2_le x y Hx Hxy). unfold exponent. lia.
Qed.

Lemma exponent_comp x y : 0 < x → x == y → exponent x = exponent y.
Proof.
  intros Hx Hxy. apply Z.le_antisymm; apply exponent_le; lra.
Qed.

Lemma round_pos_upper x :
  0 < x → round_pos x <= pow2 (exponent x + 1).
Proof.
  intros Hx. destruct (exponent_spec x Hx) as (Hup & _ & _).
  unfold round_pos. set (e := exponent x) in *.
  assert (rne (x * pow2 (52 - e)) ≤ 2 ^ 53)%Z as Hm.
  { apply rne_le_inject. rewrite <- (pow2_inject 53) by done.
    replace 53%Z with ((e + 1) + (52 - e))%Z by lia. rewrite pow2_add.
    apply Qmult_le_compat_r; [lra|]. apply Qlt_le_weak, pow2_pos. }
  replace (e + 1)%Z with (53 + (e - 52))%Z by lia. rewrite pow2_add.
  apply Qmult_le_compat_r; [|apply Qlt_le_weak, pow2_pos].
  rewrite (pow2_inject 53) by done. by rewrite <- Zle_Qle.
Qed.

Lemma round_pos_lower x :
  0 < x → (emin < exponent x)%Z → pow2 (exponent x) <= round_pos x.
Proof.
  intros Hx He. destruct (exponent_spec x Hx) as (_ & _ & Hlo).
  specialize (Hlo He).
  unfold round_pos. set (e := exponent x) in *.
  assert (2 ^ 52 ≤ rne (x * pow2 (52 - e)))%Z as Hm.
  { apply rne_ge_inject. rewrite <- (pow2_inject 52) by done.
    replace 52%Z with (e + (52 - e))%Z at 1 by lia. rewrite pow2_add.
    apply Qmult_le_compat_r; [lra|]. apply Qlt_le_weak, pow2_pos. }
  replace e with (52 + (e - 52))%Z at 1 by lia. rewrite pow2_add.
  apply Qmult_le_compat_r; [|apply Qlt_le_weak, pow2_pos].
  rewrite (pow2_inject 52) by done. by rewrite <- Zle_Qle.
Qed.

Lemma round_pos_nonneg x : 0 < x → 0 <= round_pos x.
Proof.
  intros Hx. unfold round_pos.
  apply Qmult_le_0_compat; [|apply Qlt_le_weak, pow2_pos].
  change 0 with (inject_Z 0). rewrite <- Zle_Qle. apply rne_ge_inject.
  apply Qmult_le_0_compat; [lra|apply Qlt_le_weak, pow2_pos].
Qed.

Lemma round_pos_le x y : 0 < x → x <= y → round_pos x <= round_pos y.
Proof.
  intros Hx Hxy. assert (0 < y) as Hy by lra.
  pose proof (exponent_le x y Hx Hxy) as He.
  destruct (Z.eq_dec (exponent x) (exponent y)) as [Heq|Hne].
  - unfold round_pos. rewrite Heq.
    apply Qmult_le_compat_r; [|apply Qlt_le_weak, pow2_pos].
    rewrite <- Zle_Qle. apply rne_le.
    apply Qmult_le_compat_r; [exact Hxy|apply Qlt_le_weak, pow2_pos].
  - destruct (exponent_spec x Hx) as (_ & Hmin & _).
    apply Qle_trans with (pow2 (exponent x + 1)); [by apply round_pos_upper|].
    apply Qle_trans with (pow2 (exponent y)); [apply pow2_le; lia|].
    apply round_pos_lower; [exact Hy|lia].
Qed.

Lemma round_pos_comp x y : 0 < x → x == y → round_pos x == round_pos y.
Proof.
  intros Hx Hxy. unfold round_pos. rewrite (exponent_comp x y Hx Hxy).
  rewrite (rne_comp (x * pow2 (52 - exponent y)) (y * pow2 (52 - exponent y)));
    [reflexivity|].
  by rewrite Hxy.
Qed.

Lemma fl_pos x : 0 < x → fl x == round_pos x.
Proof.
  intros Hx. unfold fl. rewrite (proj1 (Qgt_alt x 0) Hx).
  rewrite Qred_correct.
  apply round_pos_comp; [by rewrite Qred_correct|apply Qred_correct].
Qed.

Lemma fl_neg x : x < 0 → fl x == - round_pos (- x).
Proof.
  intros Hx. unfold fl. rewrite (proj1 (Qlt_alt x 0) Hx).
  rewrite Qred_correct.
  apply Qopp_comp, round_pos_comp; [rewrite Qred_correct; lra|apply Qred_correct].
Qed.

Lemma fl_zero x : x == 0 → fl x = 0.
Proof. intros Hx. unfold fl. by rewrite (proj1 (Qeq_alt x 0) Hx). Qed.

(** Equal numbers round to the same fraction. *)
Lemma fl_comp x y : x == y → fl x = fl y.
Proof.
  intros Hxy. unfold fl. rewrite (Qcompare_comp x y Hxy 0 0 (Qeq_refl 0)).
  rewrite (Qred_complete x y Hxy).
  by rewrite (Qred_complete (- x) (- y)) by (by rewrite Hxy).
Qed.

Lemma fl_nonneg x : 0 <= x → 0 <= fl x.
Proof.
  intros Hx. destruct (Qlt_le_dec 0 x) as [Hpos|Hle].
  - rewrite fl_pos by done. by apply round_pos_nonneg.
  - rewrite (fl_zero x) by lra. lra.
Qed.

Lemma fl_nonpos x : x <= 0 → fl x <= 0.
Proof.
  intros Hx. destruct (Qlt_le_dec x 0) as [Hneg|Hle].
  - rewrite fl_neg by done.
    assert (0 <= round_pos (- x)) by (apply round_pos_nonneg; lra). lra.
  - rewrite (fl_zero x) by lra. lra.
Qed.

(** Rounding is monotone. *)
Lemma fl_le x y : x <= y → fl x <= fl y.
Proof.
  intros Hxy. destruct (Qlt_le_dec 0 x) as [Hx|Hx].
  - rewrite (fl_pos x), (fl_pos y) by lra. by apply round_pos_le.
  - destruct (Qlt_le_dec 0 y) as [Hy|Hy].
    + apply Qle_trans with 0; [by apply fl_nonpos|apply fl_nonneg; lra].
    + destruct (Qlt_le_dec y 0) as [Hy'|Hy'].
      * rewrite (fl_neg x), (fl_neg y) by lra.
        apply Qopp_le_compat, round_pos_le; lra.
      * rewrite (fl_zero y) by lra. by apply fl_nonpos.
Qed.

End Rounding.

Section Exact.

Lemma ilog2_inject z : (0 < z)%Z → ilog2 (inject_Z z) = Z.log2 z.
Proof.
  intros Hz. apply ilog2_unique.
  destruct (Z.log2_spec z Hz) as [H1 H2].
  pose proof (Z.log2_nonneg z).
  rewrite (pow2_inject (Z.log2 z)), (pow2_inject (Z.log2 z + 1)) by lia.
  rewrite <- Zle_Qle, <- Zlt_Qlt. unfold Z.succ in H2. done.
Qed.

Lemma round_pos_inject z :
  (0 < z < 2 ^ 53)%Z → round_pos (inject_Z z) == inject_Z z.
Proof.
  intros [Hz Hlt]. unfold round_pos, exponent. rewrite ilog2_inject by done.
  pose proof (Z.log2_nonneg z) as H0.
  assert (Z.log2 z < 53)%Z as H53 by (apply Z.log2_lt_pow2; lia).
  replace (Z.max (Z.log2 z) emin) with (Z.log2 z) by (unfold emin; lia).
  set (e := Z.log2 z) in *.
  rewrite (rne_comp (inject_Z z * pow2 (52 - e)) (inject_Z (z * 2 ^ (52 - e)))).
  - rewrite rne_inject, inject_Z_mult, <- (pow2_inject (52 - e)) by lia.
    rewrite <- Qmult_assoc, <- pow2_add.
    replace (52 - e + (e - 52))%Z with 0%Z by lia. change (pow2 0) with 1. ring.
  - by rewrite inject_Z_mult, <- (pow2_inject (52 - e)) by lia.
Qed.

(** A whole number below [2^53] in size is a binary64 number. *)
Lemma fl_inject_Z z : (Z.abs z < 2 ^ 53)%Z → fl (inject_Z z) = inject_Z z.
Proof.
  intros Hz.
  assert (∀ q z', q == inject_Z z' → Qred q = inject_Z z') as Hred.
  { intros q z' Hq. rewrite (Qred_complete _ _ Hq). apply Qcanon.Qred_identity.
    cbn. apply Z.gcd_1_r. }
  destruct (Z.lt_trichotomy z 0) as [Hneg|[->|Hpos]].
  - unfold fl.
    assert (inject_Z z < 0) as Hlt by (change 0 with (inject_Z 0); rewrite <- Zlt_Qlt; lia).
    rewrite (proj1 (Qlt_alt _ _) Hlt).
    rewrite (Hred _ (- z)%Z).
    + replace z with (- - z)%Z at 2 by lia. by rewrite (inject_Z_opp (- z)).
    + rewrite (round_pos_comp _ (inject_Z (- z))).
      * apply round_pos_inject. lia.
      * rewrite Qred_correct. lra.
      * rewrite Qred_correct, inject_Z_opp. reflexivity.
  - reflexivity.
  - unfold fl.
    assert (0 < inject_Z z) as Hlt by (change 0 with (inject_Z 0); rewrite <- Zlt_Qlt; lia).
    rewrite (proj1 (Qgt_alt _ _) Hlt).
    apply Hred. rewrite (round_pos_comp _ (inject_Z z)).
    + apply round_pos_inject. lia.
    + by rewrite Qred_correct.
    + apply Qred_correct.
Qed.

Lemma rne_error y : Qabs (inject_Z (rne y) - y) <= 1 # 2.
Proof.
  pose proof (Qfloor_le y) as Hf1. pose proof (Qlt_floor y) as Hf2.
  rewrite inject_Z_plus in Hf2. change (inject_Z 1) with 1 in Hf2.
  apply Qabs_Qle_condition. unfold rne.
  destruct (Qcompare (y - inject_Z (Qfloor y)) (1 # 2)) eqn:Hc;
    first [apply Qeq_alt in Hc|apply Qlt_alt in Hc|apply Qgt_alt in Hc];
    try destruct (Z.even (Qfloor y));
    rewrite ?inject_Z_plus; change (inject_Z 1) with 1; lra.
Qed.

(** The rounding error is at most half a unit in the last place. *)
Lemma fl_error x e :
  0 <= x < pow2 (e + 1) → (emin ≤ e)%Z → Qabs (fl x - x) <= pow2 (e - 53).
Proof.
  intros [Hx0 Hxe] He.
  destruct (Qlt_le_dec 0 x) as [Hx|Hx]; cycle 1.
  { rewrite (fl_zero x) by lra. assert (x == 0) as -> by lra.
    apply Qlt_le_weak, pow2_pos. }
  rewrite fl_pos by done. unfold round_pos.
  destruct (exponent_spec x Hx) as (Hup & Hmin & Hlo).
  assert (exponent x ≤ e)%Z as Hle.
  { destruct (Z_le_gt_dec (exponent x) e) as [H|H]; [done|exfalso].
    assert (pow2 (e + 1) <= pow2 (exponent x)) by (apply pow2_le; lia).
    assert (pow2 (exponent x) <= x) by (apply Hlo; lia). lra. }
  set (k := exponent x) in *.
  pose proof (rne_error (x * pow2 (52 - k))) as Herr.
  set (m := inject_Z (rne (x * pow2 (52 - k)))) in *.
  assert (pow2 (52 - k) * pow2 (k - 52) == 1) as H1.
  { rewrite <- pow2_add. by replace (52 - k + (k - 52))%Z with 0%Z by lia. }
  assert (m * pow2 (k - 52) - x == (m - x * pow2 (52 - k)) * pow2 (k - 52)) as ->.
  { rewrite <- (Qmult_1_r x) at 1. rewrite <- H1. ring. }
  rewrite Qabs_Qmult, (Qabs_pos (pow2 (k - 52)))
    by apply Qlt_le_weak, pow2_pos.
  apply Qle_trans with ((1 # 2) * pow2 (k - 52)).
  { apply Qmult_le_compat_r; [exact Herr|apply Qlt_le_weak, pow2_pos]. }
  assert ((1 # 2) * pow2 (k - 52) == pow2 (k - 53)) as ->.
  { replace (k - 53)%Z with (-1 + (k - 52))%Z by lia. by rewrite pow2_add. }
  apply pow2_le. lia.
Qed.

End Exact.

(** *** The metric set *)

Section MetricSet.

Implicit Types (m : metric) (pd : MetricSet) (r : Reading) (w : World).

Lemma reading_set_eq m r pd : reading m (set_reading m r pd) = r.
Proof. by destruct m. Qed.

Lemma reading_set_ne m m' r pd :
  m ≠ m' → reading m' (set_reading m r pd) = reading m' pd.
Proof. by destruct m, m'. Qed.

Lemma set_reading_set m r r' pd :
  set_reading m r' (set_reading m r pd) = set_reading m r' pd.
Proof. by destruct m. Qed.

Lemma metric_of_key_key m : metric_of_key (key m) = Some m.
Proof. by destruct m. Qed.



Lemma field_insert_eq r f v : field (<[f := v]> r) f = v.
Proof. unfold field. by rewrite lookup_insert_eq. Qed.

Lemma field_insert_ne r f f' v : f ≠ f' → field (<[f := v]> r) f' = field r f'.
Proof. intros. unfold field. by rewrite lookup_insert_ne. Qed.

Lemma reading_write_eq m f v w :
  reading m (performanceData (write_field m f v w)) =
  <[f := v]> (reading m (performanceData w)).
Proof. apply reading_set_eq. Qed.

Lemma reading_write_ne m m' f v w :
  m ≠ m' →
  reading m' (performanceData (write_field m f v w)) =
  reading m' (performanceData w).
Proof. apply reading_set_ne. Qed.

Lemma usage_write_eq m v w :
  usage m (performanceData (write_field m "usage" v w)) = v.
Proof. unfold usage. by rewrite reading_write_eq, field_insert_eq. Qed.

Lemma usage_write_field m m' f v w :
  f ≠ "usage" ∨ m ≠ m' →
  usage m' (performanceData (write_field m f v w)) = usage m' (performanceData w).
Proof.
  intros Hne. unfold usage. destruct (decide (m = m')) as [<-|Hm].
  - destruct Hne as [Hf|]; [|done].
    by rewrite reading_write_eq, field_insert_ne.
  - by rewrite reading_write_ne.
Qed.

Lemma write_write m f v v' w :
  write_field m f v' (write_field m f v w) = write_field m f v' w.
Proof.
  unfold write_field. destruct w as [pd p]; cbn.
  by rewrite reading_set_eq, set_reading_set, insert_insert_eq.
Qed.

Lemma page_write m f v w : page (write_field m f v w) = page w.
Proof. reflexivity. Qed.

End MetricSet.

(** *** Rules for computations *)

Section Rules.

Context {A B : Type}.
Implicit Types (w : World) (P I : World → Prop) (E : World → Prop).

Lemma bind_unfold (m : M A) (k : A → M B) w :
  (m ≫= k) w =
    match m w with
    | Some (Normal a, w') => k a w'
    | Some (Throw, w') => Some (Throw, w')
    | None => None
    end.
Proof. reflexivity. Qed.

Lemma ret_run (a : A) w : (mret a : M A) w = Some (Normal a, w).
Proof. reflexivity. Qed.

Lemma hoare_bind P (m : M A) (k : A → M B) (Q1 : A → World → Prop)
    (Q : B → World → Prop) E :
  hoare P m Q1 E → (∀ a, hoare (Q1 a) (k a) Q E) → hoare P (m ≫= k) Q E.
Proof.
  intros Hm Hk w c w' HP. rewrite bind_unfold.
  destruct (m w) as [[[a|] w1]|] eqn:Hmw; [| |done].
  - apply (Hk a). exact (Hm w (Normal a) w1 HP Hmw).
  - intros [= <- <-]. exact (Hm w Throw w1 HP Hmw).
Qed.

Lemma hoare_throw P (Q : A → World → Prop) : hoare P throw Q P.
Proof. intros w c w' HP [= <- <-]. done. Qed.

Lemma hoare_unmodelled P (Q : A → World → Prop) E : hoare P unmodelled Q E.
Proof. intros w c w' _ [=]. Qed.

End Rules.

Section MoreRules.

Implicit Types (w : World) (P I : World → Prop).

Lemma preserves_bind {A B} I (m : M A) (k : A → M B) :
  preserves I m → (∀ a, preserves I (k a)) → preserves I (m ≫= k).
Proof. intros Hm Hk. exact (hoare_bind I m k _ _ I Hm Hk). Qed.

Lemma preserves_ret {A} I (a : A) : preserves I (mret a).
Proof. intros w c w' HI [= <- <-]. done. Qed.

Lemma preserves_unmodelled {A} I : preserves I (@unmodelled A).
Proof. apply hoare_unmodelled. Qed.

Lemma preserves_get_world I : preserves I get_world.
Proof. intros w c w' HI [= <- <-]. done. Qed.

Lemma preserves_modify I (f : World → World) :
  (∀ w, I w → I (f w)) → preserves I (modify f).
Proof. intros Hf w c w' HI [= <- <-]. auto. Qed.

Lemma preserves_forEach {A} I (l : list A) (f : A → M unit) :
  (∀ x, x ∈ l → preserves I (f x)) → preserves I (forEach l f).
Proof.
  induction l as [|x l IH]; intros Hf; cbn [forEach].
  - apply preserves_ret.
  - apply preserves_bind; [apply Hf; left|].
    intros _. apply IH. intros y Hy. apply Hf. by right.
Qed.

Lemma preserves_while I fuel (cond : M bool) (body : M unit) :
  preserves I cond → preserves I body → preserves I (while fuel cond body).
Proof.
  intros Hc Hb. induction fuel as [|fuel IH]; cbn [while].
  - apply preserves_unmodelled.
  - apply preserves_bind; [done|]. intros [].
    + apply preserves_bind; auto.
    + apply preserves_ret.
Qed.

Lemma preserves_try_catch {A} I (body handler : M A) :
  preserves I body → preserves I handler → preserves I (try_catch body handler).
Proof.
  intros Hb Hh w c w' HI. unfold try_catch.
  destruct (body w) as [[[a|] w1]|] eqn:Hbody; [| |done].
  - intros [= <- <-]. exact (Hb w (Normal a) w1 HI Hbody).
  - apply Hh. exact (Hb w Throw w1 HI Hbody).
Qed.

Lemma preserves_when_present I el (k : M unit) :
  preserves I k → preserves I (when_present el k).
Proof. intros Hk. destruct el; [done|apply preserves_ret]. Qed.

End MoreRules.

(** *** Reading and writing the metric set *)

Section Fields.

Implicit Types (m : metric) (w : World) (q u r : Q).

Lemma get_number_eq m f w :
  get_number m f w =
    match field (reading m (performanceData w)) f with
    | Num q => Some (Normal q, w)
    | _ => None
    end.
Proof.
  unfold get_number, get_field. rewrite !bind_unfold. cbn.
  by destruct (field _ _).
Qed.

Lemma get_number_run m f w q :
  field (reading m (performanceData w)) f = Num q →
  get_number m f w = Some (Normal q, w).
Proof. intros Hf. by rewrite get_number_eq, Hf. Qed.

Lemma get_usage_run m w q :
  usage m (performanceData w) = Num q →
  get_number m "usage" w = Some (Normal q, w).
Proof. apply get_number_run. Qed.

Lemma set_field_run m f v w :
  set_field m f v w = Some (Normal tt, write_field m f v w).
Proof. reflexivity. Qed.

Lemma Math_random_eq w :
  Math_random w =
    match randoms (page w) with
    | [] => None
    | r :: _ => Some (Normal r, drop_random w)
    end.
Proof. unfold Math_random, drop_random. by destruct (randoms (page w)). Qed.

(** [nudge_usage] in closed form. *)
Lemma nudge_usage_eq m span lo hi w :
  nudge_usage m span lo hi w =
    match usage m (performanceData w), randoms (page w) with
    | Num u, r :: _ =>
        Some (Normal tt,
              write_field m "usage" (Num (nudged span lo hi u r)) (drop_random w))
    | _, _ => None
    end.
Proof.
  unfold nudge_usage. rewrite bind_unfold, get_number_eq. fold (usage m (performanceData w)).
  destruct (usage m (performanceData w)) as [|u| | | |] eqn:Hu; try reflexivity.
  rewrite bind_unfold, Math_random_eq.
  destruct (randoms (page w)) as [|r rest] eqn:Hr; [reflexivity|].
  rewrite bind_unfold, set_field_run.
  rewrite bind_unfold, (get_usage_run _ _ _ (usage_write_eq _ _ _)).
  rewrite bind_unfold, set_field_run, write_write.
  rewrite bind_unfold, (get_usage_run _ _ _ (usage_write_eq _ _ _)).
  rewrite set_field_run, write_write. reflexivity.
Qed.

(** [measureMemoryUsage] in closed form. *)
Lemma measureMemoryUsage_eq w :
  measureMemoryUsage w =
    match memory (page w) with
    | Some memInfo =>
        let usedGB := usedJSHeapSize memInfo / GB in
        match field (reading Ram (performanceData w)) "total" with
        | Num total =>
            Some (Normal tt,
                  write_field Ram "usage" (percentage usedGB total)
                    (write_field Ram "used" (Fixed usedGB 1) w))
        | _ => None
        end
    | None => Some (Normal tt, w)
    end.
Proof.
  unfold measureMemoryUsage. rewrite bind_unfold. cbn [get_world].
  destruct (memory (page w)) as [memInfo|]; [|reflexivity].
  rewrite bind_unfold, set_field_run, bind_unfold, get_number_eq.
  rewrite reading_write_eq, field_insert_ne by done.
  by destruct (field _ _) as [|total| | | |].
Qed.

End Fields.

(** *** Arithmetic of the tick *)

Section Arithmetic.

Implicit Types (x y u r lo hi : Q) (z : Z).

Lemma Math_round_between (zlo zhi : Z) x :
  inject_Z zlo <= x <= inject_Z zhi →
  ∃ z, Math_round x = inject_Z z ∧ (zlo ≤ z ≤ zhi)%Z.
Proof.
  intros [Hlo Hhi]. exists (Qfloor (x + (1 # 2))). split; [reflexivity|]. split.
  - rewrite <- (Qfloor_Z zlo). apply Qfloor_resp_le. lra.
  - apply Z.lt_succ_r. rewrite Zlt_Qlt.
    eapply Qle_lt_trans; [apply Qfloor_le|].
    unfold Z.succ. rewrite inject_Z_plus. change (inject_Z 1) with 1. lra.
Qed.

Lemma Math_round_Qeq x y : x == y → Math_round x = Math_round y.
Proof. intros Hxy. unfold Math_round. by rewrite Hxy. Qed.

Lemma clamp_between lo hi x :
  lo <= hi → lo <= Math_max lo (Math_min hi x) <= hi.
Proof.
  intros Hle. unfold Math_max, Math_min. split; [apply Q.le_max_l|].
  apply Q.max_lub; [done|apply Q.le_min_l].
Qed.

Lemma percent_Num_round (zlo zhi : Z) x :
  (0 ≤ zlo)%Z → (zhi ≤ 100)%Z → inject_Z zlo <= x <= inject_Z zhi →
  percent (Num (Math_round x)).
Proof.
  intros ?? Hx. destruct (Math_round_between zlo zhi x Hx) as (z & Hz & ?).
  rewrite Hz. exists (inject_Z z), z. split; [done|]. split; [reflexivity|lia].
Qed.

Lemma percent_between v :
  percent v → ∃ q, v = Num q ∧ 0 <= q <= 100.
Proof.
  intros (q & z & -> & Hq & Hz). exists q. split; [done|]. rewrite Hq.
  change 0 with (inject_Z 0). change 100 with (inject_Z 100).
  rewrite <- !Zle_Qle. lia.
Qed.

Lemma percent_nudged (zlo zhi : Z) span u r :
  (0 ≤ zlo ≤ zhi)%Z → (zhi ≤ 100)%Z →
  percent (Num (nudged span (inject_Z zlo) (inject_Z zhi) u r)).
Proof.
  intros [??] ?. apply (percent_Num_round zlo zhi); [done..|].
  apply clamp_between. rewrite <- Zle_Qle. lia.
Qed.

Lemma estimatedUsage_between t : 0 <= estimatedUsage t <= 100.
Proof.
  unfold estimatedUsage. destruct (Qeq_bool t 0); [lra|].
  apply clamp_between. lra.
Qed.

(** A bound between two binary64 numbers survives the rounding. *)
Lemma fl_between a b x : fl a = a → fl b = b → a <= x <= b → a <= fl x <= b.
Proof.
  intros Ha Hb [Hax Hxb]. split.
  - rewrite <- Ha. by apply fl_le.
  - rewrite <- Hb. by apply fl_le.
Qed.

Lemma js_mul_between a b c x :
  0 <= c → a <= x <= b → a ⊗ c <= x ⊗ c <= b ⊗ c.
Proof.
  intros Hc [Hax Hxb]. unfold js_mul.
  split; apply fl_le; by apply Qmult_le_compat_r.
Qed.

Lemma overflows_small x : Qabs x < pow2 1024 → overflows x = false.
Proof.
  intros Hx. unfold overflows. destruct (Qle_bool _ _) eqn:Hle; [|done].
  apply Qle_bool_iff in Hle. lra.
Qed.

Lemma overflows_percent x : 0 <= x <= 100 → overflows x = false.
Proof.
  intros [H0 H1]. apply overflows_small. rewrite Qabs_pos by done.
  apply Qle_lt_trans with 100; [done|]. vm_compute. reflexivity.
Qed.

(** The smoothing of [measureCPUUsage] of two numbers in [0,100] lies in
    [0,100]. *)
Lemma blended_between P E :
  0 <= P <= 100 → 0 <= E <= 100 → 0 <= P ⊗ fl 0.7 ⊕ E ⊗ fl 0.3 <= 100.
Proof.
  intros HP HE.
  assert (0 <= fl 0.7) as H7 by (vm_compute; discriminate).
  assert (0 <= fl 0.3) as H3 by (vm_compute; discriminate).
  pose proof (js_mul_between 0 100 (fl 0.7) P H7 HP) as HPc.
  pose proof (js_mul_between 0 100 (fl 0.3) E H3 HE) as HEc.
  replace (0 ⊗ fl 0.7) with 0 in HPc by (vm_compute; reflexivity).
  replace (100 ⊗ fl 0.7) with 70 in HPc by (vm_compute; reflexivity).
  replace (0 ⊗ fl 0.3) with 0 in HEc by (vm_compute; reflexivity).
  replace (100 ⊗ fl 0.3) with 30 in HEc by (vm_compute; reflexivity).
  unfold js_add. apply fl_between; [vm_compute; reflexivity..|].
  set (a := P ⊗ fl 0.7) in *. set (b := E ⊗ fl 0.3) in *. lra.
Qed.

Lemma percent_smoothed P t :
  0 <= P <= 100 → percent (Num (blended P (estimatedUsage t))).
Proof.
  intros HP. pose proof (estimatedUsage_between t) as HE.
  apply (percent_Num_round 0 100); [done..|].
  change (inject_Z 0) with 0. change (inject_Z 100) with 100.
  by apply blended_between.
Qed.

(** The quotient of [measureMemoryUsage] for a heap that fits the total. *)
Lemma quotient_between used total :
  0 < total → 0 <= used <= total → 0 <= used ⊘ total ⊗ 100 <= 100.
Proof.
  intros Ht [Hu0 Hut].
  assert (0 <= used / total).
  { apply Qle_shift_div_l; [done|]. lra. }
  assert (used / total <= 1).
  { apply Qle_shift_div_r; [done|]. lra. }
  assert (0 <= used ⊘ total <= 1) as Hq.
  { unfold js_div. apply fl_between; [vm_compute; reflexivity..|done]. }
  unfold js_mul. apply fl_between; [vm_compute; reflexivity..|].
  set (q := used ⊘ total) in *. lra.
Qed.

Lemma percentage_in_range used total :
  0 < total → 0 <= used <= total →
  percentage used total = Num (Math_round (used ⊘ total ⊗ 100)).
Proof.
  intros Ht Hu. pose proof (quotient_between used total Ht Hu) as Hq.
  unfold percentage. destruct (Qeq_bool total 0) eqn:Hz.
  { apply Qeq_bool_eq in Hz. lra. }
  cbv zeta. by rewrite overflows_percent.
Qed.

Lemma Qfloor_unique (n : Z) (y : Q) :
  inject_Z n <= y < inject_Z (n + 1) → Qfloor y = n.
Proof.
  intros [Hlo Hhi]. apply Z.le_antisymm.
  - apply Z.lt_succ_r. rewrite Zlt_Qlt.
    eapply Qle_lt_trans; [apply Qfloor_le|exact Hhi].
  - rewrite <- (Qfloor_Z n). by apply Qfloor_resp_le.
Qed.

(** Two numbers that differ by at most [eps] round to the same whole number
    unless a half lies within [eps] of them. *)
Lemma Math_round_near (x x' eps : Q) :
  Qabs (x' - x) <= eps →
  (∀ k : Z, eps < Qabs (x - (inject_Z k + (1 # 2)))) →
  Math_round x' = Math_round x.
Proof.
  intros Herr Hfar. unfold Math_round. f_equal.
  set (n := Qfloor (x + (1 # 2))).
  pose proof (Qfloor_le (x + (1 # 2))) as Hlo.
  pose proof (Qlt_floor (x + (1 # 2))) as Hhi. fold n in Hlo, Hhi.
  apply Qabs_Qle_condition in Herr as [He1 He2].
  pose proof (Hfar (n - 1)%Z) as Hk1. pose proof (Hfar n) as Hk2.
  assert (inject_Z (n - 1) = inject_Z n - 1) as Hn1.
  { unfold Z.sub. by rewrite inject_Z_plus. }
  rewrite Hn1 in Hk1. rewrite inject_Z_plus in Hhi.
  change (inject_Z 1) with 1 in Hhi.
  rewrite Qabs_pos in Hk1 by lra.
  rewrite Qabs_neg in Hk2 by lra.
  apply Qfloor_unique. rewrite inject_Z_plus. change (inject_Z 1) with 1.
  split; lra.
Qed.

Lemma fl_error_128 x : 0 <= x < 128 → Qabs (fl x - x) <= 1 # 140737488355328.
Proof.
  intros Hx. apply (fl_error x 6); [|done].
  by change (pow2 (6 + 1)) with 128.
Qed.

(** The smoothing of the script against the smoothing over the rationals. *)
Lemma blended_error P E :
  0 <= P <= 100 → 0 <= E <= 100 →
  Qabs (P ⊗ fl 0.7 ⊕ E ⊗ fl 0.3 - (0.7 * P + 0.3 * E)) <= 1 # 10000000000000.
Proof.
  intros HP HE. unfold js_add, js_mul.
  replace (fl 0.7) with (3152519739159347 # 4503599627370496)
    by (vm_compute; reflexivity).
  replace (fl 0.3) with (5404319552844595 # 18014398509481984)
    by (vm_compute; reflexivity).
  assert (0 <= P * (3152519739159347 # 4503599627370496) <= 71) as Hx1 by lra.
  assert (0 <= E * (5404319552844595 # 18014398509481984) <= 31) as Hx2 by lra.
  pose proof (fl_error_128 _ ltac:(split; [apply Hx1|lra])) as H1.
  pose proof (fl_error_128 _ ltac:(split; [apply Hx2|lra])) as H2.
  apply Qabs_Qle_condition in H1, H2.
  pose proof (fl_nonneg _ (proj1 Hx1)) as Ha0.
  pose proof (fl_nonneg _ (proj1 Hx2)) as Hb0.
  remember (fl (P * (3152519739159347 # 4503599627370496))) as a eqn:Ha.
  remember (fl (E * (5404319552844595 # 18014398509481984))) as b eqn:Hb.
  clear Ha Hb.
  assert (0 <= a + b < 128) as Hab by lra.
  pose proof (fl_error_128 (a + b) Hab) as H3.
  apply Qabs_Qle_condition in H3.
  apply Qabs_Qle_condition. lra.
Qed.

(** The fields derived from a usage stay within the ends of their
    formulas. *)
Lemma cpu_temp_between u : 0 <= u <= 100 → 35 <= 35 ⊕ u ⊗ fl 0.4 <= 75.
Proof.
  intros Hu.
  assert (0 <= fl 0.4) as Hc by (vm_compute; discriminate).
  pose proof (js_mul_between 0 100 (fl 0.4) u Hc Hu) as Hm.
  replace (0 ⊗ fl 0.4) with 0 in Hm by (vm_compute; reflexivity).
  replace (100 ⊗ fl 0.4) with 40 in Hm by (vm_compute; reflexivity).
  unfold js_add. apply fl_between; [vm_compute; reflexivity..|].
  set (a := u ⊗ fl 0.4) in *. lra.
Qed.

Lemma cpu_freq_between u :
  0 <= u <= 100 → fl 2.8 <= fl 2.8 ⊕ u ⊗ fl 0.01 <= fl 3.8.
Proof.
  intros Hu.
  assert (0 <= fl 0.01) as Hc by (vm_compute; discriminate).
  pose proof (js_mul_between 0 100 (fl 0.01) u Hc Hu) as Hm.
  replace (0 ⊗ fl 0.01) with 0 in Hm by (vm_compute; reflexivity).
  replace (100 ⊗ fl 0.01) with 1 in Hm by (vm_compute; reflexivity).
  unfold js_add. apply fl_between; [vm_compute; reflexivity..|].
  set (a := u ⊗ fl 0.01) in *.
  replace (fl 3.8) with (fl 2.8 + 1) by (vm_compute; reflexivity). lra.
Qed.

Lemma gpu_temp_between g : 20 <= g <= 90 → 55 <= 45 ⊕ g ⊗ 0.5 <= 90.
Proof.
  intros Hg.
  assert (0 <= 0.5) as Hc by (vm_compute; discriminate).
  pose proof (js_mul_between 20 90 0.5 g Hc Hg) as Hm.
  replace (20 ⊗ 0.5) with 10 in Hm by (vm_compute; reflexivity).
  replace (90 ⊗ 0.5) with 45 in Hm by (vm_compute; reflexivity).
  unfold js_add. apply fl_between; [vm_compute; reflexivity..|].
  set (a := g ⊗ 0.5) in *. lra.
Qed.

Lemma gpu_memory_between g :
  20 <= g <= 90 → 5 <= 4 ⊕ g ⊗ fl 0.05 <= 17 # 2.
Proof.
  intros Hg.
  assert (0 <= fl 0.05) as Hc by (vm_compute; discriminate).
  pose proof (js_mul_between 20 90 (fl 0.05) g Hc Hg) as Hm.
  replace (20 ⊗ fl 0.05) with 1 in Hm by (vm_compute; reflexivity).
  replace (90 ⊗ fl 0.05) with (9 # 2) in Hm by (vm_compute; reflexivity).
  unfold js_add. apply fl_between; [vm_compute; reflexivity..|].
  set (a := g ⊗ fl 0.05) in *. lra.
Qed.

(** [round(usage / 100 * total)] for a usage in [0,100] and a whole total:
    a whole number no larger in size than the total. *)
Lemma disk_used_between d total (T : Z) :
  0 <= d <= 100 → total == inject_Z T → (Z.abs T < 2 ^ 53)%Z →
  ∃ u : Z, Math_round (d ⊘ 100 ⊗ total) = inject_Z u ∧ (Z.abs u ≤ Z.abs T)%Z.
Proof.
  intros Hd HT Hsmall.
  assert (0 <= d / 100 <= 1) as Hq.
  { split; [apply Qle_shift_div_l|apply Qle_shift_div_r]; lra. }
  assert (0 <= d ⊘ 100 <= 1) as Hq'.
  { unfold js_div. apply fl_between; [vm_compute; reflexivity..|done]. }
  set (q := d ⊘ 100) in *.
  assert (inject_Z (- Z.abs T) <= q * total <= inject_Z (Z.abs T)) as Hp.
  { rewrite HT. destruct (Z.abs_spec T) as [[H0 ->]|[H0 ->]].
    - assert (0 <= inject_Z T)
        by (change 0 with (inject_Z 0); rewrite <- Zle_Qle; lia).
      rewrite inject_Z_opp. set (t := inject_Z T) in *. nra.
    - assert (inject_Z T <= 0)
        by (change 0 with (inject_Z 0); rewrite <- Zle_Qle; lia).
      rewrite Z.opp_involutive, inject_Z_opp. set (t := inject_Z T) in *. nra. }
  destruct (Math_round_between (- Z.abs T) (Z.abs T) (q ⊗ total))
    as (u & Hu & Hub).
  { unfold js_mul. apply fl_between; [apply fl_inject_Z; lia..|done]. }
  exists u. split; [done|lia].
Qed.

Lemma percent_heap used total :
  0 < total → 0 <= used <= total → percent (percentage used total).
Proof.
  intros Ht Hu. rewrite percentage_in_range by done.
  apply (percent_Num_round 0 100); [done..|].
  change (inject_Z 0) with 0. change (inject_Z 100) with 100.
  by apply quotient_between.
Qed.




End Arithmetic.

(** *** Render keeps everything but the document *)

Section RenderFrame.

Implicit Types (w : World) (m : metric).

Lemma same_but_document_refl w : same_but_document w w.
Proof. repeat split. Qed.

Lemma preserves_getElementById I id : preserves I (document_getElementById id).
Proof.
  apply preserves_bind; [apply preserves_get_world|].
  intros ?. apply preserves_ret.
Qed.

Lemma same_set_textContent (w0 : World) id t :
  preserves (same_but_document w0) (set_textContent id t).
Proof. apply preserves_modify. by intros w (?&?&?&?&?). Qed.

Lemma same_set_style (w0 : World) id f :
  preserves (same_but_document w0) (set_style id f).
Proof.
  intros w c w' (?&?&?&?&?). unfold set_style, assign_style.
  rewrite bind_unfold. cbn [get_world].
  destruct (elements (page w) !! id) as [el|]; [|by intros [= <- <-]].
  destruct (style el); by intros [= <- <-].
Qed.

Lemma same_write_detail (w0 : World) id t :
  preserves (same_but_document w0) (write_detail id t).
Proof.
  apply preserves_bind; [apply preserves_getElementById|]. intros el.
  apply preserves_when_present, same_set_textContent.
Qed.

Lemma same_updateMetricDetails (w0 : World) m data :
  preserves (same_but_document w0) (updateMetricDetails m data).
Proof.
  destruct m; cbn [updateMetricDetails];
    repeat first
      [ apply preserves_ret | apply same_write_detail
      | apply preserves_bind; [|intros ?] ].
Qed.

Lemma same_updateStatusIndicator (w0 : World) m v :
  preserves (same_but_document w0) (updateStatusIndicator m v).
Proof.
  intros w c w' (?&?&?&?&?). unfold updateStatusIndicator, assign_style.
  rewrite bind_unfold. cbn [get_world].
  destruct (indicators (page w) !! key m) as [el|]; [|by intros [= <- <-]].
  destruct (js_gt v 80), (js_gt v 60); try done.
  destruct (style el); by intros [= <- <-].
Qed.

Lemma same_updateCard (w0 : World) m : preserves (same_but_document w0) (updateCard m).
Proof.
  unfold updateCard.
  apply preserves_bind; [apply preserves_get_world|]. intros w. cbn zeta.
  apply preserves_bind; [apply preserves_getElementById|]. intros el.
  apply preserves_bind.
  { apply preserves_when_present, preserves_bind;
      [apply same_set_textContent|intros ?; apply same_set_style]. }
  intros _. apply preserves_bind; [apply preserves_getElementById|]. intros el'.
  apply preserves_bind; [apply preserves_when_present, same_set_style|].
  intros _. apply preserves_bind; [apply same_updateMetricDetails|].
  intros _. apply same_updateStatusIndicator.
Qed.

Lemma same_updateUI (w0 : World) : preserves (same_but_document w0) updateUI.
Proof. apply preserves_forEach. intros m _. apply same_updateCard. Qed.

(** However [updateUI] ends, it has changed the document only. *)
Lemma updateUI_same w c w' :
  updateUI w = Some (c, w') → same_but_document w w'.
Proof.
  intros Hrun.
  pose proof (same_updateUI w w c w' (same_but_document_refl w) Hrun) as H.
  by destruct c.
Qed.

End RenderFrame.

(** *** Render on a page whose elements all have a style *)

Section RenderStyled.

Implicit Types (w : World) (m : metric) (els inds : gmap string Element).

Lemma with_elements_id w : with_elements (λ els, els) w = w.
Proof. by destruct w as [pd []]. Qed.

Lemma put_text_absent id t els : els !! id = None → put_text id t els = els.
Proof. apply alter_id'. Qed.

Lemma put_style_absent id f els : els !! id = None → put_style id f els = els.
Proof. apply alter_id'. Qed.

Lemma put_style_insert id f els el st :
  els !! id = Some el → style el = Some st →
  <[id := {| textContent := textContent el; style := Some (f st) |}]> els =
  put_style id f els.
Proof.
  intros Hel Hst. apply map_eq. intros id'. unfold put_style.
  rewrite lookup_alter. destruct (decide (id = id')) as [<-|Hne].
  - by rewrite lookup_insert_eq, Hel; cbn; rewrite Hst.
  - by rewrite lookup_insert_ne.
Qed.

Lemma all_styled_alter (g : Element → Element) id els :
  (∀ el, is_Some (style el) → is_Some (style (g el))) →
  all_styled els → all_styled (alter g id els).
Proof.
  intros Hg Hels id' el'. rewrite lookup_alter. case_decide; [|apply Hels].
  destruct (els !! id) as [el|] eqn:Hel; [|done].
  intros [= <-]. apply Hg. by apply (Hels id).
Qed.

Lemma all_styled_put_text id t els :
  all_styled els → all_styled (put_text id t els).
Proof. apply all_styled_alter. by intros el. Qed.

Lemma all_styled_put_style id f els :
  all_styled els → all_styled (put_style id f els).
Proof.
  apply all_styled_alter. intros el [st Hst].
  exists (f st). cbn. by rewrite Hst.
Qed.

Lemma all_styled_paint_details m data els :
  all_styled els → all_styled (paint_details m data els).
Proof. intros Hs. destruct m; cbn; auto using all_styled_put_text. Qed.

Lemma all_styled_paint_elements m data els :
  all_styled els → all_styled (paint_elements m data els).
Proof.
  intros Hs. unfold paint_elements.
  auto using all_styled_paint_details, all_styled_put_text, all_styled_put_style.
Qed.

Lemma all_styled_paint_indicator m v inds :
  all_styled inds → all_styled (paint_indicator m v inds).
Proof.
  intros Hs. unfold paint_indicator.
  destruct (status_colour v); auto using all_styled_put_style.
Qed.

Lemma styled_with_elements f w :
  (∀ els, all_styled els → all_styled (f els)) →
  styled (page w) → styled (page (with_elements f w)).
Proof. intros Hf [Hels Hinds]. split; [by apply Hf|done]. Qed.

Lemma styled_with_indicators f w :
  (∀ inds, all_styled inds → all_styled (f inds)) →
  styled (page w) → styled (page (with_indicators f w)).
Proof. intros Hf [Hels Hinds]. split; [done|by apply Hf]. Qed.

Lemma set_textContent_run id t w :
  set_textContent id t w = Some (Normal tt, with_elements (put_text id t) w).
Proof. reflexivity. Qed.

Lemma set_style_run id f w :
  styled (page w) →
  set_style id f w = Some (Normal tt, with_elements (put_style id f) w).
Proof.
  intros [Hels _]. unfold set_style, assign_style.
  rewrite bind_unfold. cbn [get_world].
  destruct (elements (page w) !! id) as [el|] eqn:Hel.
  - destruct (Hels _ _ Hel) as [st Hst]. rewrite Hst.
    rewrite bind_unfold. cbn [mret M_ret]. unfold modify.
    do 2 f_equal. unfold with_elements.
    by rewrite (put_style_insert id f _ el st).
  - cbn [mret M_ret]. do 2 f_equal. unfold with_elements.
    rewrite put_style_absent by done. by destruct w as [pd []].
Qed.

Lemma getElementById_run id w :
  document_getElementById id w = Some (Normal (elements (page w) !! id), w).
Proof. reflexivity. Qed.

Lemma write_detail_run id t w :
  write_detail id t w = Some (Normal tt, with_elements (put_text id t) w).
Proof.
  unfold write_detail. rewrite bind_unfold, getElementById_run.
  destruct (elements (page w) !! id) eqn:Hel; [reflexivity|].
  cbn [when_present mret M_ret]. do 2 f_equal. unfold with_elements.
  rewrite put_text_absent by done. by destruct w as [pd []].
Qed.

Lemma updateMetricDetails_run m data w :
  updateMetricDetails m data w =
  Some (Normal tt, with_elements (paint_details m data) w).
Proof.
  destruct m; cbn [updateMetricDetails paint_details];
    rewrite ?bind_unfold, ?write_detail_run; try reflexivity.
  by rewrite with_elements_id.
Qed.

Lemma updateStatusIndicator_run m v w :
  styled (page w) → comparable v →
  updateStatusIndicator m v w =
  Some (Normal tt, with_indicators (paint_indicator m v) w).
Proof.
  intros [_ Hinds] [high Hhigh]. unfold updateStatusIndicator, paint_indicator,
    status_colour, assign_style.
  rewrite bind_unfold. cbn [get_world]. rewrite Hhigh.
  assert (∃ medium, js_gt v 60 = Some medium) as [medium ->].
  { destruct v; try done; eauto. }
  destruct (indicators (page w) !! key m) as [el|] eqn:Hel.
  - destruct (Hinds _ _ Hel) as [st Hst]. rewrite Hst.
    rewrite bind_unfold. cbn [mret M_ret]. unfold modify.
    do 2 f_equal. unfold with_indicators.
    by rewrite (put_style_insert (key m) _ _ el st).
  - cbn [mret M_ret]. do 2 f_equal. unfold with_indicators.
    rewrite put_style_absent by done. by destruct w as [pd []].
Qed.

(** [updateCard] on a styled page. *)
Lemma updateCard_run m w :
  styled (page w) → comparable (usage m (performanceData w)) →
  updateCard m w = Some (Normal tt, painted m w).
Proof.
  intros Hstyled Hcmp. unfold updateCard.
  rewrite bind_unfold. cbn [get_world]. cbv beta iota zeta.
  set (data := reading m (performanceData w)).
  set (shown := [Val (field data "usage"); Lit "%"]).
  set (vid := key m +:+ "-value"). set (fid := key m +:+ "-fill").
  set (w1 := with_elements (put_text vid shown) w).
  set (w2 := with_elements (put_style vid (set_animation "valueFlicker 0.5s ease-in-out")) w1).
  set (w3 := with_elements (put_style fid (set_width shown)) w2).
  assert (styled (page w1)) as Hs1
    by (apply styled_with_elements; auto using all_styled_put_text).
  assert (styled (page w2)) as Hs2
    by (apply styled_with_elements; auto using all_styled_put_style).
  assert (styled (page w3)) as Hs3
    by (apply styled_with_elements; auto using all_styled_put_style).
  assert (when_present (elements (page w) !! vid)
            (set_textContent vid shown ;;
             set_style vid (set_animation "valueFlicker 0.5s ease-in-out")) w
          = Some (Normal tt, w2)) as Hvalue.
  { destruct (elements (page w) !! vid) eqn:Hel; cbn [when_present].
    - rewrite bind_unfold, set_textContent_run. cbv beta iota.
      by rewrite set_style_run.
    - cbn [mret M_ret]. do 2 f_equal. unfold w2, w1, with_elements. cbn.
      rewrite (put_text_absent vid) by done.
      rewrite (put_style_absent vid) by done.
      by destruct w as [pd []]. }
  assert (when_present (elements (page w2) !! fid)
            (set_style fid (set_width shown)) w2 = Some (Normal tt, w3)) as Hfill.
  { destruct (elements (page w2) !! fid) eqn:Hel; cbn [when_present].
    - by rewrite set_style_run.
    - cbn [mret M_ret]. do 2 f_equal. unfold w3, with_elements.
      rewrite put_style_absent by done. by destruct w2 as [pd []]. }
  rewrite bind_unfold, getElementById_run. cbv beta iota.
  rewrite bind_unfold, Hvalue. cbv beta iota.
  rewrite bind_unfold, getElementById_run. cbv beta iota.
  rewrite bind_unfold, Hfill. cbv beta iota.
  rewrite bind_unfold, updateMetricDetails_run. cbv beta iota.
  rewrite updateStatusIndicator_run;
    [reflexivity | | exact Hcmp].
  apply styled_with_elements; auto using all_styled_paint_details.
Qed.

Lemma styled_painted m w : styled (page w) → styled (page (painted m w)).
Proof.
  intros Hs. unfold painted. cbv zeta.
  apply styled_with_indicators; [auto using all_styled_paint_indicator|].
  apply styled_with_elements; auto using all_styled_paint_elements.
Qed.

Lemma performanceData_painted m w :
  performanceData (painted m w) = performanceData w.
Proof. reflexivity. Qed.

(** [updateUI] on a styled page: no assignment raises, and the document is
    the one of [rendered]. *)
Lemma updateUI_run w :
  styled (page w) → (∀ m, comparable (usage m (performanceData w))) →
  updateUI w = Some (Normal tt, rendered w).
Proof.
  intros Hs Hcmp. unfold updateUI, rendered, Object_keys. cbn [forEach foldl].
  repeat (rewrite bind_unfold, updateCard_run;
          [cbv beta iota | auto using styled_painted ..]).
  reflexivity.
Qed.

Lemma text_put_text id t els id' :
  textContent <$> (put_text id t els !! id') =
  if decide (id = id') then (λ _, t) <$> (els !! id')
  else textContent <$> (els !! id').
Proof.
  unfold put_text. rewrite lookup_alter. case_decide; [subst|done].
  by destruct (els !! id').
Qed.

Lemma text_put_style id f els id' :
  textContent <$> (put_style id f els !! id') = textContent <$> (els !! id').
Proof.
  unfold put_style. rewrite lookup_alter. case_decide; [subst|done].
  by destruct (els !! id').
Qed.

Lemma const_put_text {B} (b : B) id t els id' :
  (λ _, b) <$> (put_text id t els !! id') = (λ _, b) <$> (els !! id').
Proof.
  unfold put_text. rewrite lookup_alter. case_decide; [subst|done].
  by destruct (els !! id').
Qed.

Lemma const_put_style {B} (b : B) id f els id' :
  (λ _, b) <$> (put_style id f els !! id') = (λ _, b) <$> (els !! id').
Proof.
  unfold put_style. rewrite lookup_alter. case_decide; [subst|done].
  by destruct (els !! id').
Qed.

(** Computes the identifiers [key m +:+ suffix] of a goal. *)
Ltac compute_ids :=
  cbn [key];
  repeat match goal with
  | |- context [String.append ?a ?b] =>
      let r := eval vm_compute in (String.append a b) in
      change (String.append a b) with r
  end.

Lemma elements_painted m w :
  elements (page (painted m w)) =
  paint_elements m (reading m (performanceData w)) (elements (page w)).
Proof. reflexivity. Qed.

Lemma rendered_unfold w :
  rendered w =
  painted Cpu (painted Ram (painted Proc (painted Gpu (painted Disk w)))).
Proof. reflexivity. Qed.

(** The elements of [rendered w], as the writes of the five cards. *)
Lemma elements_rendered w :
  let pd := performanceData w in
  elements (page (rendered w)) =
  paint_elements Cpu (reading Cpu pd)
    (paint_elements Ram (reading Ram pd)
      (paint_elements Proc (reading Proc pd)
        (paint_elements Gpu (reading Gpu pd)
          (paint_elements Disk (reading Disk pd) (elements (page w)))))).
Proof.
  cbv zeta. rewrite rendered_unfold.
  by rewrite !elements_painted, !performanceData_painted.
Qed.

(** After a render the element [<m>-value], if there is one, reads the usage
    of [m]. *)
Lemma rendered_text w m :
  textContent <$> (elements (page (rendered w)) !! (key m +:+ "-value")) =
  (λ _, [Val (usage m (performanceData w)); Lit "%"]) <$>
    (elements (page w) !! (key m +:+ "-value")).
Proof.
  rewrite elements_rendered. cbv zeta. unfold paint_elements, paint_details, usage.
  destruct m; compute_ids;
    repeat first
      [ rewrite text_put_style
      | rewrite text_put_text;
        destruct (decide _) as [Heq|Hne];
        [ try discriminate Heq
        | try (exfalso; apply Hne; reflexivity); clear Hne ] ];
    repeat (rewrite const_put_text || rewrite const_put_style);
    reflexivity.
Qed.

Lemma rendered_shows w m :
  shows m (usage m (performanceData w)) (page (rendered w)).
Proof.
  intros el Hel. pose proof (rendered_text w m) as Htext.
  rewrite Hel in Htext.
  destruct (elements (page w) !! (key m +:+ "-value")); [|discriminate Htext].
  by injection Htext.
Qed.

Lemma width_put_text id t els id' :
  (λ el, width <$> style el) <$> (put_text id t els !! id') =
  (λ el, width <$> style el) <$> (els !! id').
Proof.
  unfold put_text. rewrite lookup_alter. case_decide; [subst|done].
  by destruct (els !! id').
Qed.

Lemma width_put_animation id a els id' :
  (λ el, width <$> style el) <$> (put_style id (set_animation a) els !! id') =
  (λ el, width <$> style el) <$> (els !! id').
Proof.
  unfold put_style. rewrite lookup_alter. case_decide; [subst|done].
  destruct (els !! id') as [[t [st|]]|]; reflexivity.
Qed.

Lemma width_put_width id t els id' :
  (λ el, width <$> style el) <$> (put_style id (set_width t) els !! id') =
  if decide (id = id') then (λ el, (λ _, t) <$> style el) <$> (els !! id')
  else (λ el, width <$> style el) <$> (els !! id').
Proof.
  unfold put_style. rewrite lookup_alter. case_decide; [subst|done].
  destruct (els !! id') as [[t' [st|]]|]; reflexivity.
Qed.

Lemma has_style_put_text {B} (b : B) id t els id' :
  (λ el, (λ _, b) <$> style el) <$> (put_text id t els !! id') =
  (λ el, (λ _, b) <$> style el) <$> (els !! id').
Proof.
  unfold put_text. rewrite lookup_alter. case_decide; [subst|done].
  by destruct (els !! id').
Qed.

Lemma has_style_put_style {B} (b : B) id f els id' :
  (λ el, (λ _, b) <$> style el) <$> (put_style id f els !! id') =
  (λ el, (λ _, b) <$> style el) <$> (els !! id').
Proof.
  unfold put_style. rewrite lookup_alter. case_decide; [subst|done].
  destruct (els !! id') as [[t' [st|]]|]; reflexivity.
Qed.

(** After a render the bar [<m>-fill], if there is one, is as wide as the
    usage of [m]. *)
Lemma rendered_width w m :
  (λ el, width <$> style el) <$>
    (elements (page (rendered w)) !! (key m +:+ "-fill")) =
  (λ el, (λ _, [Val (usage m (performanceData w)); Lit "%"]) <$> style el) <$>
    (elements (page w) !! (key m +:+ "-fill")).
Proof.
  rewrite elements_rendered. cbv zeta. unfold paint_elements, paint_details, usage.
  destruct m; compute_ids;
    repeat first
      [ rewrite width_put_text
      | rewrite width_put_animation
      | rewrite width_put_width;
        destruct (decide _) as [Heq|Hne];
        [ try discriminate Heq
        | try (exfalso; apply Hne; reflexivity); clear Hne ] ];
    repeat (rewrite has_style_put_text || rewrite has_style_put_style);
    reflexivity.
Qed.

Lemma rendered_fills w m :
  fills m (usage m (performanceData w)) (page (rendered w)).
Proof.
  intros el st Hel Hst. pose proof (rendered_width w m) as Hwidth.
  rewrite Hel in Hwidth. cbn [fmap option_fmap option_map] in Hwidth.
  rewrite Hst in Hwidth.
  destruct (elements (page w) !! (key m +:+ "-fill")) as [el0|];
    [|discriminate Hwidth].
  cbn [fmap option_fmap option_map] in Hwidth.
  destruct (style el0); [|discriminate Hwidth].
  by injection Hwidth.
Qed.

Lemma performanceData_rendered w :
  performanceData (rendered w) = performanceData w.
Proof. reflexivity. Qed.

End RenderStyled.

(** *** The tick keeps usages whole percentages *)

Section TickInvariant.

Implicit Types (w : World) (m : metric).

Lemma tick_inv_ext w w' :
  performanceData w' = performanceData w →
  memory (page w') = memory (page w) →
  tick_inv w → tick_inv w'.
Proof.
  unfold tick_inv, heap_in_range. intros -> ->. done.
Qed.

Lemma tick_inv_write_other m f v w :
  f ≠ "usage" → m ≠ Ram ∨ f ≠ "total" →
  tick_inv w → tick_inv (write_field m f v w).
Proof.
  intros Hf Htotal [Hok Hheap]. split.
  - intros m'. rewrite usage_write_field by auto. apply Hok.
  - unfold heap_in_range in *. rewrite page_write.
    destruct (memory (page w)); [|done].
    destruct (decide (m = Ram)) as [->|Hm].
    + destruct Htotal as [|Hne]; [done|].
      by rewrite reading_write_eq, field_insert_ne.
    + by rewrite reading_write_ne.
Qed.

Lemma tick_inv_write_usage m v w :
  percent v → tick_inv w → tick_inv (write_field m "usage" v w).
Proof.
  intros Hv [Hok Hheap]. split.
  - intros m'. destruct (decide (m = m')) as [<-|Hm].
    + by rewrite usage_write_eq.
    + rewrite usage_write_field by auto. apply Hok.
  - unfold heap_in_range in *. rewrite page_write.
    destruct (memory (page w)); [|done].
    destruct (decide (m = Ram)) as [->|Hm].
    + by rewrite reading_write_eq, field_insert_ne.
    + by rewrite reading_write_ne.
Qed.

Lemma tick_inv_performance_now : preserves tick_inv performance_now.
Proof.
  intros w c w' Hinv. unfold performance_now.
  destruct (clock (page w)) as [|[t|] rest]; [done|..];
    intros [= <- <-]; revert Hinv; by apply tick_inv_ext.
Qed.

Lemma tick_inv_Math_random : preserves tick_inv Math_random.
Proof.
  intros w c w' Hinv. rewrite Math_random_eq.
  destruct (randoms (page w)); [done|].
  intros [= <- <-]. revert Hinv. by apply tick_inv_ext.
Qed.

Lemma tick_inv_console_log line : preserves tick_inv (console_log line).
Proof. apply preserves_modify. intros w. by apply tick_inv_ext. Qed.

Lemma tick_inv_get_number m f :
  hoare tick_inv (get_number m f)
    (λ q w, tick_inv w ∧ field (reading m (performanceData w)) f = Num q)
    tick_inv.
Proof.
  intros w c w' Hinv. rewrite get_number_eq.
  destruct (field _ _) eqn:Hf; try done. by intros [= <- <-].
Qed.

Lemma tick_inv_set_other m f v :
  f ≠ "usage" → m ≠ Ram ∨ f ≠ "total" → preserves tick_inv (set_field m f v).
Proof.
  intros ?? w c w' Hinv. rewrite set_field_run. intros [= <- <-].
  by apply tick_inv_write_other.
Qed.

Lemma tick_inv_nudge_usage m span (zlo zhi : Z) :
  (0 ≤ zlo ≤ zhi)%Z → (zhi ≤ 100)%Z →
  preserves tick_inv (nudge_usage m span (inject_Z zlo) (inject_Z zhi)).
Proof.
  intros ?? w c w' Hinv. rewrite nudge_usage_eq.
  destruct (usage m _); try done. destruct (randoms (page w)) eqn:Hr; [done|].
  intros [= <- <-]. apply tick_inv_write_usage; [by apply percent_nudged|].
  revert Hinv. by apply tick_inv_ext.
Qed.

(** Reading a number and going on keeps the invariant, when going on does. *)
Lemma tick_inv_read {B} m f (k : Q → M B) :
  (∀ q, preserves tick_inv (k q)) → preserves tick_inv (get_number m f ≫= k).
Proof.
  intros Hk. eapply hoare_bind; [apply tick_inv_get_number|].
  intros q w c w' [Hinv _]. by apply Hk.
Qed.

Lemma tick_inv_measureCPUUsage : preserves tick_inv measureCPUUsage.
Proof.
  unfold measureCPUUsage.
  apply preserves_bind; [apply tick_inv_performance_now|]. intros start.
  apply preserves_bind; [apply preserves_get_world|]. intros w0.
  apply preserves_bind.
  { apply preserves_while.
    - apply preserves_bind; [apply tick_inv_performance_now|].
      intros ?. apply preserves_ret.
    - repeat (apply preserves_bind; [apply tick_inv_Math_random|intros ?]).
      apply preserves_ret. }
  intros _. apply preserves_bind; [apply tick_inv_performance_now|]. intros now.
  cbn zeta. eapply hoare_bind; [apply tick_inv_get_number|]. intros P.
  apply (hoare_bind _ _ _ (λ _, tick_inv)).
  { intros w c w' [Hinv HP]. rewrite set_field_run. intros [= <- <-].
    apply tick_inv_write_usage; [|done].
    destruct Hinv as [Hok _]. specialize (Hok Cpu).
    apply percent_between in Hok as (q & Hq & Hbounds).
    unfold usage in Hq. rewrite HP in Hq. injection Hq as <-.
    by apply (percent_smoothed P (now ⊖ start)). }
  intros _. apply tick_inv_read. intros u.
  apply preserves_bind; [apply tick_inv_set_other; auto|]. intros _.
  apply tick_inv_read. intros u'. apply tick_inv_set_other; auto.
Qed.

Lemma tick_inv_measureMemoryUsage : preserves tick_inv measureMemoryUsage.
Proof.
  intros w c w' Hinv. rewrite measureMemoryUsage_eq.
  pose proof Hinv as [_ Hheap]. unfold heap_in_range in Hheap.
  destruct (memory (page w)) as [memInfo|] eqn:Hmem.
  - destruct Hheap as (total & -> & Hpos & Hused). cbn zeta.
    intros [= <- <-].
    apply tick_inv_write_usage; [by apply percent_heap|].
    by apply tick_inv_write_other; auto.
  - by intros [= <- <-].
Qed.

Lemma tick_inv_simulateOtherMetrics : preserves tick_inv simulateOtherMetrics.
Proof.
  unfold simulateOtherMetrics.
  apply preserves_bind; [apply (tick_inv_nudge_usage Gpu 10 20 90); lia|].
  intros _. apply tick_inv_read. intros u.
  apply preserves_bind; [apply tick_inv_set_other; auto|]. intros _.
  apply tick_inv_read. intros u'.
  apply preserves_bind; [apply tick_inv_set_other; auto|]. intros _.
  apply preserves_bind; [apply (tick_inv_nudge_usage Proc 8 15 85); lia|].
  intros _. apply preserves_bind; [apply tick_inv_Math_random|]. intros r.
  destruct (Qlt_le_dec r (fl 0.1)); [|apply preserves_ret].
  apply preserves_bind; [apply (tick_inv_nudge_usage Disk 2 60 95); lia|].
  intros _. apply tick_inv_read. intros u1. apply tick_inv_read. intros total.
  apply preserves_bind; [apply tick_inv_set_other; auto|]. intros _.
  apply tick_inv_read. intros total'. apply tick_inv_read. intros used.
  apply tick_inv_set_other; auto.
Qed.

Lemma tick_inv_simulateAllMetrics : preserves tick_inv simulateAllMetrics.
Proof.
  apply preserves_forEach. intros m _. case_decide; [|apply preserves_ret].
  apply (tick_inv_nudge_usage m 10 10 90); lia.
Qed.

Lemma tick_inv_updateUI : preserves tick_inv updateUI.
Proof.
  intros w c w' Hinv Hrun.
  apply updateUI_same in Hrun as (Hpd & _ & _ & _ & Hmem).
  assert (tick_inv w') by (by apply (tick_inv_ext w)).
  by destruct c.
Qed.

Lemma tick_inv_updatePerformanceMetrics :
  preserves tick_inv updatePerformanceMetrics.
Proof.
  apply preserves_try_catch.
  - apply preserves_bind; [apply tick_inv_measureCPUUsage|intros _].
    apply preserves_bind; [apply tick_inv_measureMemoryUsage|intros _].
    apply preserves_bind; [apply tick_inv_simulateOtherMetrics|intros _].
    apply tick_inv_updateUI.
  - apply preserves_bind; [apply tick_inv_console_log|intros _].
    apply preserves_bind; [apply tick_inv_simulateAllMetrics|intros _].
    apply tick_inv_updateUI.
Qed.

End TickInvariant.

(** *** The CPU estimate *)

Section CpuEstimate.

Implicit Types (w : World) (early : list Q) (crest : list (option Q)).

Lemma loop_test_run start t crest w :
  clock (page w) = Some t :: crest →
  loop_test start w =
    Some (Normal (if Qlt_le_dec (t ⊖ start) targetTime then true else false),
          set_page (set_clock crest (page w)) w).
Proof.
  intros Hclock. unfold loop_test. rewrite bind_unfold.
  unfold performance_now. by rewrite Hclock.
Qed.

Lemma loop_body_run a b rrest w :
  randoms (page w) = a :: b :: rrest →
  loop_body w = Some (Normal tt, set_page (set_randoms rrest (page w)) w).
Proof.
  intros Hrandoms. unfold loop_body. rewrite bind_unfold.
  unfold Math_random at 1. rewrite Hrandoms. cbv beta iota.
  rewrite bind_unfold. unfold Math_random. reflexivity.
Qed.

(** The busy loop runs once for every clock reading that is still within
    the target time, draws two random numbers each time, and stops at the
    first reading that is not. *)
Lemma busy_loop_run early : ∀ fuel w start t_exit crest rs rrest,
  clock (page w) = (Some <$> early) ++ Some t_exit :: crest →
  Forall (λ t, t ⊖ start < targetTime) early →
  targetTime <= t_exit ⊖ start →
  randoms (page w) = rs ++ rrest →
  length rs = (2 * length early)%nat →
  (length early < fuel)%nat →
  while fuel (loop_test start) loop_body w =
    Some (Normal tt, after_busy_loop crest rrest w).
Proof.
  induction early as [|t early IH];
    intros fuel w start t_exit crest rs rrest
      Hclock Hearly Hexit Hrandoms Hlen Hfuel;
    (destruct fuel as [|fuel]; [cbn in Hfuel; lia|]); cbn [while].
  - destruct rs; [|done]. cbn in Hclock, Hrandoms.
    rewrite bind_unfold, (loop_test_run start t_exit crest) by done.
    cbv beta iota.
    destruct (Qlt_le_dec (t_exit ⊖ start) targetTime) as [Hlt|_]; [lra|].
    cbn [mret M_ret]. do 2 f_equal. unfold after_busy_loop.
    destruct w as [pd [els inds con clk rnd mem]]. cbn in *. by subst.
  - destruct rs as [|a [|b rs]]; try (cbn in Hlen; lia).
    apply Forall_cons in Hearly as [Ht Hearly]. cbn in Hclock, Hrandoms.
    rewrite bind_unfold,
      (loop_test_run start t ((Some <$> early) ++ Some t_exit :: crest))
      by done.
    cbv beta iota.
    destruct (Qlt_le_dec (t ⊖ start) targetTime) as [_|Hge]; [|lra].
    rewrite bind_unfold, (loop_body_run a b (rs ++ rrest)) by done.
    cbv beta iota.
    rewrite (IH fuel _ start t_exit crest rs rrest); try done.
    + cbn in Hlen. lia.
    + cbn in Hfuel. lia.
Qed.

(** [measureCPUUsage] on a clock that lets the busy loop end. *)
Lemma measureCPUUsage_run w start early t_exit t_end crest rs rrest P :
  clock (page w) =
    Some start :: (Some <$> early) ++ Some t_exit :: Some t_end :: crest →
  Forall (λ t, t ⊖ start < targetTime) early →
  targetTime <= t_exit ⊖ start →
  randoms (page w) = rs ++ rrest →
  length rs = (2 * length early)%nat →
  usage Cpu (performanceData w) = Num P →
  let U := blended P (estimatedUsage (t_end ⊖ start)) in
  measureCPUUsage w =
    Some (Normal tt,
      write_field Cpu "freq" (Fixed (fl 2.8 ⊕ U ⊗ fl 0.01) 1)
        (write_field Cpu "temp" (Num (Math_round (35 ⊕ U ⊗ fl 0.4)))
           (write_field Cpu "usage" (Num U) (after_busy_loop crest rrest w)))).
Proof.
  intros Hclock Hearly Hexit Hrandoms Hlen HP U.
  destruct w as [pd [els inds con clk rnd mem]]. cbn in Hclock, Hrandoms, HP.
  subst clk rnd. unfold measureCPUUsage.
  rewrite bind_unfold. cbn [performance_now page clock]. cbv beta iota.
  rewrite bind_unfold. cbn [get_world]. cbv beta iota.
  rewrite bind_unfold.
  rewrite (busy_loop_run early _ _ start t_exit (Some t_end :: crest) rs rrest);
    try done; cycle 1.
  { cbn. rewrite length_app, length_fmap. cbn. lia. }
  cbv beta iota. rewrite bind_unfold.
  cbn [performance_now page clock after_busy_loop set_page set_clock set_randoms].
  cbv beta iota zeta.
  rewrite bind_unfold, (get_usage_run Cpu _ P) by exact HP. cbv beta iota.
  rewrite bind_unfold, set_field_run. cbv beta iota.
  rewrite bind_unfold, (get_usage_run Cpu _ U) by apply usage_write_eq.
  cbv beta iota.
  rewrite bind_unfold, set_field_run. cbv beta iota.
  rewrite bind_unfold, (get_usage_run Cpu _ U)
    by (rewrite usage_write_field by auto; apply usage_write_eq).
  cbv beta iota. rewrite set_field_run. reflexivity.
Qed.

End CpuEstimate.

(** *** What the rest of the tick leaves alone *)

Section CpuFrame.

Implicit Types (w : World) (m : metric).

Lemma cpu_is_ext r w w' :
  performanceData w' = performanceData w → cpu_is r w → cpu_is r w'.
Proof. unfold cpu_is. by intros ->. Qed.

Lemma cpu_is_set_field r m f v :
  m ≠ Cpu → preserves (cpu_is r) (set_field m f v).
Proof.
  intros Hm w c w' Hr. rewrite set_field_run. intros [= <- <-].
  unfold cpu_is. by rewrite reading_write_ne.
Qed.

Lemma cpu_is_get_number {B} r m f (k : Q → M B) :
  (∀ q, preserves (cpu_is r) (k q)) → preserves (cpu_is r) (get_number m f ≫= k).
Proof.
  intros Hk w c w' Hr. rewrite bind_unfold, get_number_eq.
  destruct (field _ _); try done. by apply Hk.
Qed.

Lemma cpu_is_Math_random r : preserves (cpu_is r) Math_random.
Proof.
  intros w c w' Hr. rewrite Math_random_eq.
  destruct (randoms (page w)); [done|]. by intros [= <- <-].
Qed.

Lemma cpu_is_nudge_usage r m span lo hi :
  m ≠ Cpu → preserves (cpu_is r) (nudge_usage m span lo hi).
Proof.
  intros Hm w c w' Hr. rewrite nudge_usage_eq.
  destruct (usage m _); try done. destruct (randoms (page w)); [done|].
  intros [= <- <-]. unfold cpu_is. by rewrite reading_write_ne.
Qed.

Lemma cpu_is_measureMemoryUsage r : preserves (cpu_is r) measureMemoryUsage.
Proof.
  intros w c w' Hr. rewrite measureMemoryUsage_eq.
  destruct (memory (page w)); [|by intros [= <- <-]]. cbv zeta.
  destruct (field _ _); try done.
  intros [= <- <-]. unfold cpu_is. by rewrite !reading_write_ne.
Qed.

Lemma cpu_is_simulateOtherMetrics r : preserves (cpu_is r) simulateOtherMetrics.
Proof.
  unfold simulateOtherMetrics.
  apply preserves_bind; [by apply cpu_is_nudge_usage|]. intros _.
  apply cpu_is_get_number. intros u.
  apply preserves_bind; [by apply cpu_is_set_field|]. intros _.
  apply cpu_is_get_number. intros u'.
  apply preserves_bind; [by apply cpu_is_set_field|]. intros _.
  apply preserves_bind; [by apply cpu_is_nudge_usage|]. intros _.
  apply preserves_bind; [apply cpu_is_Math_random|]. intros r0.
  destruct (Qlt_le_dec r0 (fl 0.1)); [|apply preserves_ret].
  apply preserves_bind; [by apply cpu_is_nudge_usage|]. intros _.
  apply cpu_is_get_number. intros u1. apply cpu_is_get_number. intros total.
  apply preserves_bind; [by apply cpu_is_set_field|]. intros _.
  apply cpu_is_get_number. intros total'. apply cpu_is_get_number. intros used.
  by apply cpu_is_set_field.
Qed.

Lemma cpu_is_updateUI r : preserves (cpu_is r) updateUI.
Proof.
  intros w c w' Hr Hrun. apply updateUI_same in Hrun as (Hpd & _).
  assert (cpu_is r w') by (by apply (cpu_is_ext r w)).
  by destruct c.
Qed.

End CpuFrame.

(** *** The entry points *)

Section EntryPoints.

Implicit Types (w : World) (m : metric) (pd : MetricSet) (win : Window).







Lemma on_dashboard_run (f : M unit) win pd :
  dashboard win = Some pd →
  on_dashboard f win =
    match f {| performanceData := pd; page := globals win |} with
    | Some (c, w) =>
        Some (c, {| dashboard := Some (performanceData w); globals := page w |})
    | None => None
    end.
Proof. unfold on_dashboard. by intros ->. Qed.

Lemma all_styled_decide (els : gmap string Element) :
  bool_decide (map_Forall (λ _ el, is_Some (style el)) els) = true →
  all_styled els.
Proof. intros H%bool_decide_eq_true_1. exact H. Qed.

Lemma styled_example_page c r mem : styled (example_page c r mem).
Proof. split; apply all_styled_decide; vm_compute; reflexivity. Qed.

Lemma comparable_Num q : comparable (Num q).
Proof. unfold comparable. cbn. eauto. Qed.


End EntryPoints.

(** *** The claims about render and the entry points *)

Lemma updateMetric_run (m : metric) (v : Q) (w : World) :
  updateMetric (key m) (Num v) w =
  updateUI (write_field m "usage" (Num (Math_max 0 (Math_min 100 v))) w).
Proof.
  unfold updateMetric. rewrite metric_of_key_key.
  rewrite bind_unfold. cbn [to_number]. rewrite ret_run. cbv beta iota.
  by rewrite bind_unfold, set_field_run.
Qed.

Lemma on_dashboard_updateUI (win win' : Window) (pd : MetricSet) c :
  on_dashboard updateUI {| dashboard := Some pd; globals := globals win |} =
    Some (c, win') →
  dashboard win' = Some pd.
Proof.
  rewrite (on_dashboard_run _ _ pd) by done. cbn [globals].
  destruct (updateUI _) as [[c' w']|] eqn:Hrun; [|done].
  apply updateUI_same in Hrun as (Hpd & _). by intros [= <- <-]; rewrite Hpd.
Qed.

Lemma on_dashboard_rendered (win : Window) (pd : MetricSet) :
  styled (globals win) → (∀ m, comparable (usage m pd)) →
  on_dashboard updateUI {| dashboard := Some pd; globals := globals win |} =
    Some (Normal tt,
      {| dashboard := Some pd;
         globals :=
           page (rendered {| performanceData := pd; page := globals win |}) |}).
Proof.
  intros Hstyled Hcmp. rewrite (on_dashboard_run _ _ pd) by done.
  cbn [globals]. by rewrite updateUI_run.
Qed.

(** C3: the colour written to the status indicator of a metric with usage
    [u] is the high colour when [u > 80], the medium colour when
    [60 < u <= 80] and the normal colour when [u <= 60]; so 80 is medium and
    60 is normal.  (This holds for every number [u], inside [0,100] or
    not.) *)
Theorem status_indicator_colour (m : metric) (u : Q) (w : World)
    (indicator : Element) (st : Style) :
  indicators (page w) !! key m = Some indicator → style indicator = Some st →
  ∃ colour,
    updateStatusIndicator m (Num u) w =
      Some (Normal tt,
        with_indicators
          (insert (key m)
             {| textContent := textContent indicator;
                style := Some (set_background colour st) |}) w) ∧
    (80 < u → colour = colour_high) ∧
    (60 < u <= 80 → colour = colour_medium) ∧
    (u <= 60 → colour = colour_normal).
Proof.
  intros Hind Hst.
  exists (if Qlt_le_dec 80 u then colour_high
          else if Qlt_le_dec 60 u then colour_medium else colour_normal).
  split.
  - unfold updateStatusIndicator, assign_style. rewrite bind_unfold.
    cbn [get_world]. cbv beta iota. rewrite Hind. cbn [js_gt]. rewrite Hst.
    rewrite bind_unfold, ret_run. cbv beta iota.
    by destruct (Qlt_le_dec 80 u), (Qlt_le_dec 60 u).
  - destruct (Qlt_le_dec 80 u), (Qlt_le_dec 60 u);
      repeat split; intros; try reflexivity; lra.
Qed.

Lemma status_indicator_colour_witness :
  ∃ colour,
    updateStatusIndicator Cpu (Num 80) (example_world [] []) =
      Some (Normal tt,
        with_indicators
          (insert "cpu"
             {| textContent := [];
                style := Some {| animation := EmptyString; width := [];
                                 background := colour |} |})
          (example_world [] [])) ∧
    colour = colour_medium.
Proof.
  destruct (status_indicator_colour Cpu 80 (example_world [] []) blank
              {| animation := EmptyString; width := [];
                 background := EmptyString |}
              eq_refl eq_refl) as (colour & Hrun & _ & Hmedium & _).
  exists colour. split; [exact Hrun|]. apply Hmedium. lra.
Defined.

(** C4: for a metric [m] and a number [v], [window.updatePerformanceMetric]
    stores [max(0, min(100, v))] as the usage of [m], leaves the other
    metrics alone, and then renders; however the render ends, that value is
    what stays stored.  On a page whose elements all have a style the call
    ends normally, and the value element and the bar of [m] show the stored
    value. *)
Theorem updatePerformanceMetric_clamps (m : metric) (v : Q) (win : Window)
    (pd : MetricSet) :
  dashboard win = Some pd →
  let stored := clamped m v pd in
  let w := {| performanceData := stored; page := globals win |} in
  usage m stored = Num (Math_max 0 (Math_min 100 v)) ∧
  (∀ m', m' ≠ m → reading m' stored = reading m' pd) ∧
  window_updatePerformanceMetric (key m) (Num v) win =
    on_dashboard updateUI {| dashboard := Some stored; globals := globals win |} ∧
  (∀ c win', window_updatePerformanceMetric (key m) (Num v) win = Some (c, win') →
     dashboard win' = Some stored) ∧
  (styled (globals win) → (∀ m', comparable (usage m' pd)) →
     window_updatePerformanceMetric (key m) (Num v) win =
       Some (Normal tt,
         {| dashboard := Some stored; globals := page (rendered w) |}) ∧
     shows m (Num (Math_max 0 (Math_min 100 v))) (page (rendered w)) ∧
     fills m (Num (Math_max 0 (Math_min 100 v))) (page (rendered w))).
Proof.
  intros Hdash stored w.
  assert (usage m stored = Num (Math_max 0 (Math_min 100 v))) as Husage.
  { unfold usage, stored, clamped. by rewrite reading_set_eq, field_insert_eq. }
  assert (window_updatePerformanceMetric (key m) (Num v) win =
    on_dashboard updateUI {| dashboard := Some stored; globals := globals win |})
    as Hcall.
  { unfold window_updatePerformanceMetric.
    rewrite (on_dashboard_run _ win pd), (on_dashboard_run _ _ stored) by done.
    by rewrite updateMetric_run. }
  split; [exact Husage|]. split.
  { intros m' Hne. unfold stored, clamped. by rewrite reading_set_ne. }
  split; [exact Hcall|]. split.
  { intros c win'. rewrite Hcall. apply on_dashboard_updateUI. }
  intros Hstyled Hcmp. rewrite Hcall. split.
  - apply on_dashboard_rendered; [done|]. intros m'.
    destruct (decide (m' = m)) as [->|Hne].
    + rewrite Husage. apply comparable_Num.
    + unfold usage, stored, clamped. rewrite reading_set_ne by done. apply Hcmp.
  - rewrite <- Husage. split; [apply rendered_shows|apply rendered_fills].
Qed.

Lemma updatePerformanceMetric_clamps_witness :
  (∃ win', window_updatePerformanceMetric "cpu" (Num 150) example_window =
             Some (Normal tt, win') ∧
           usage Cpu <$> dashboard win' = Some (Num 100)) ∧
  (∃ win', window_updatePerformanceMetric "cpu" (Num (-30)) example_window =
             Some (Normal tt, win') ∧
           usage Cpu <$> dashboard win' = Some (Num 0)).
Proof.
  assert (∀ m', comparable (usage m' initializeSimulatedData)) as Hcmp
    by (intros []; apply comparable_Num).
  split.
  - destruct (updatePerformanceMetric_clamps Cpu 150 example_window
                initializeSimulatedData eq_refl)
      as (Husage & _ & _ & _ & Hrender).
    destruct (Hrender (styled_example_page _ _ _) Hcmp) as (Hrun & _).
    eexists. split; [exact Hrun|]. cbn [dashboard fmap option_fmap option_map].
    by rewrite Husage.
  - destruct (updatePerformanceMetric_clamps Cpu (-30) example_window
                initializeSimulatedData eq_refl)
      as (Husage & _ & _ & _ & Hrender).
    destruct (Hrender (styled_example_page _ _ _) Hcmp) as (Hrun & _).
    eexists. split; [exact Hrun|]. cbn [dashboard fmap option_fmap option_map].
    by rewrite Husage.
Defined.



(** *** The claims about the tick *)

Lemma cpu_is_rest_of_try r :
  preserves (cpu_is r) (measureMemoryUsage ;; simulateOtherMetrics ;; updateUI).
Proof.
  apply preserves_bind; [apply cpu_is_measureMemoryUsage|intros _].
  apply preserves_bind; [apply cpu_is_simulateOtherMetrics|intros _].
  apply cpu_is_updateUI.
Qed.

Lemma nudge_usage_run (m : metric) (span lo hi u r : Q) (rest : list Q)
    (w : World) :
  usage m (performanceData w) = Num u → randoms (page w) = r :: rest →
  nudge_usage m span lo hi w =
    Some (Normal tt,
      write_field m "usage" (Num (nudged span lo hi u r)) (drop_random w)).
Proof. intros Hu Hr. by rewrite nudge_usage_eq, Hu, Hr. Qed.

Lemma randoms_drop_random (w : World) :
  randoms (page (drop_random w)) = tail (randoms (page w)).
Proof. reflexivity. Qed.

(** [simulateAllMetrics] visits [gpu], [proc], [ram] and [cpu], in that
    order. *)
Lemma simulateAllMetrics_unfold (w : World) :
  simulateAllMetrics w =
    (nudge_usage Gpu 10 10 90 ;; nudge_usage Proc 10 10 90 ;;
     nudge_usage Ram 10 10 90 ;; nudge_usage Cpu 10 10 90 ;; mret tt) w.
Proof. reflexivity. Qed.

(** The [catch] block in closed form. *)
Lemma catch_block_run (w : World) (ugpu uproc uram ucpu r1 r2 r3 r4 : Q)
    (rest : list Q) :
  usage Gpu (performanceData w) = Num ugpu →
  usage Proc (performanceData w) = Num uproc →
  usage Ram (performanceData w) = Num uram →
  usage Cpu (performanceData w) = Num ucpu →
  randoms (page w) = r1 :: r2 :: r3 :: r4 :: rest →
  catch_block w = updateUI (fallen_back ugpu uproc uram ucpu r1 r2 r3 r4 w).
Proof.
  intros Hgpu Hproc Hram Hcpu Hrandoms. unfold catch_block.
  rewrite bind_unfold.
  change (console_log "[v0] Error updating metrics, using simulated data" w)
    with (Some (Normal tt,
            logged "[v0] Error updating metrics, using simulated data" w)).
  cbv beta iota. set (w0 := logged _ w).
  rewrite bind_unfold, simulateAllMetrics_unfold. rewrite bind_unfold.
  rewrite (nudge_usage_run Gpu 10 10 90 ugpu r1 (r2 :: r3 :: r4 :: rest))
    by done.
  cbv beta iota. set (w1 := write_field Gpu _ _ _).
  rewrite bind_unfold.
  rewrite (nudge_usage_run Proc 10 10 90 uproc r2 (r3 :: r4 :: rest));
    [|by unfold w1; rewrite usage_write_field by auto
     |by unfold w1; rewrite page_write, randoms_drop_random; unfold w0;
        cbn [logged page set_page set_console randoms]; rewrite Hrandoms].
  cbv beta iota. set (w2 := write_field Proc _ _ _).
  rewrite bind_unfold.
  rewrite (nudge_usage_run Ram 10 10 90 uram r3 (r4 :: rest));
    [|by unfold w2, w1; rewrite !usage_write_field by auto
     |by unfold w2, w1;
        repeat (rewrite page_write || rewrite randoms_drop_random); unfold w0;
        cbn [logged page set_page set_console randoms]; rewrite Hrandoms].
  cbv beta iota. set (w3 := write_field Ram _ _ _).
  rewrite bind_unfold.
  rewrite (nudge_usage_run Cpu 10 10 90 ucpu r4 rest);
    [|by unfold w3, w2, w1; rewrite !usage_write_field by auto
     |by unfold w3, w2, w1;
        repeat (rewrite page_write || rewrite randoms_drop_random); unfold w0;
        cbn [logged page set_page set_console randoms]; rewrite Hrandoms].
  cbv beta iota. rewrite ret_run. cbv beta iota. reflexivity.
Qed.

Lemma performanceData_drop_random (w : World) :
  performanceData (drop_random w) = performanceData w.
Proof. reflexivity. Qed.

(** Reads a usage off the writes of [fallen_back]. *)
Ltac read_usage :=
  repeat first
    [ rewrite performanceData_drop_random
    | rewrite usage_write_field by (right; discriminate)
    | rewrite reading_write_ne by discriminate ];
  try apply usage_write_eq.

Lemma nudged_between (zlo zhi : Z) (span u r : Q) :
  (zlo ≤ zhi)%Z →
  ∃ z : Z, nudged span (inject_Z zlo) (inject_Z zhi) u r = inject_Z z ∧
           (zlo ≤ z ≤ zhi)%Z.
Proof.
  intros Hle. apply Math_round_between, clamp_between.
  by rewrite <- Zle_Qle.
Qed.

(** C7, as the specification states it, fails: on [broken_world] the element
    [disk-value] has no [style], so the render of the [try] block raises; the
    [catch] block logs and simulates, and its own render raises again.  The
    error leaves the tick, and the element [proc-value] still has its
    initial, empty text although the usage of [proc] is now 27. *)
Lemma tick_render_error_escapes :
  ∃ w1 w',
    try_block broken_world = Some (Throw, w1) ∧
    updatePerformanceMetrics broken_world = Some (Throw, w') ∧
    console (page w') = ["[v0] Error updating metrics, using simulated data"] ∧
    usage Proc (performanceData w') = Num 27 ∧
    textContent <$> (elements (page w') !! "proc-value") = Some [].
Proof.
  eexists. eexists. split; [vm_compute; reflexivity|].
  split; [vm_compute; reflexivity|]. vm_compute. auto.
Qed.

(** C7, amended: when a step of the [try] block raises and leaves the world
    [w1] (the updates made before the error stay), the tick logs the error,
    nudges the usage of [gpu], [proc], [ram] and [cpu], in that order, by
    [(random - 0.5) * 10], clamps it to [10,90] and rounds it, leaves [disk]
    alone, and renders.  The metrics so simulated are what the tick leaves
    stored however the render ends.  When every element of the page has a
    style the tick ends normally, with every value element showing the new
    usage.  (An error raised by the render of the [catch] block is not
    caught.) *)
Theorem tick_falls_back (w w1 : World) (ugpu uproc uram ucpu r1 r2 r3 r4 : Q)
    (rest : list Q) :
  try_block w = Some (Throw, w1) →
  usage Gpu (performanceData w1) = Num ugpu →
  usage Proc (performanceData w1) = Num uproc →
  usage Ram (performanceData w1) = Num uram →
  usage Cpu (performanceData w1) = Num ucpu →
  randoms (page w1) = r1 :: r2 :: r3 :: r4 :: rest →
  let w2 := fallen_back ugpu uproc uram ucpu r1 r2 r3 r4 w1 in
  updatePerformanceMetrics w = updateUI w2 ∧
  usage Gpu (performanceData w2) = Num (nudged 10 10 90 ugpu r1) ∧
  usage Proc (performanceData w2) = Num (nudged 10 10 90 uproc r2) ∧
  usage Ram (performanceData w2) = Num (nudged 10 10 90 uram r3) ∧
  usage Cpu (performanceData w2) = Num (nudged 10 10 90 ucpu r4) ∧
  (∀ u r, ∃ z : Z, nudged 10 10 90 u r = inject_Z z ∧ (10 ≤ z ≤ 90)%Z) ∧
  reading Disk (performanceData w2) = reading Disk (performanceData w1) ∧
  console (page w2) =
    console (page w1) ++ ["[v0] Error updating metrics, using simulated data"] ∧
  (∀ c w3, updatePerformanceMetrics w = Some (c, w3) →
     performanceData w3 = performanceData w2) ∧
  (styled (page w1) → comparable (usage Disk (performanceData w1)) →
     updatePerformanceMetrics w = Some (Normal tt, rendered w2) ∧
     ∀ m, shows m (usage m (performanceData w2)) (page (rendered w2))).
Proof.
  intros Htry Hgpu Hproc Hram Hcpu Hrandoms w2.
  assert (updatePerformanceMetrics w = updateUI w2) as Htick.
  { unfold updatePerformanceMetrics, try_catch. rewrite Htry.
    by apply (catch_block_run w1 ugpu uproc uram ucpu r1 r2 r3 r4 rest). }
  assert (usage Gpu (performanceData w2) = Num (nudged 10 10 90 ugpu r1)) as Hgpu2.
  { unfold w2, fallen_back. read_usage. }
  assert (usage Proc (performanceData w2) = Num (nudged 10 10 90 uproc r2)) as Hproc2.
  { unfold w2, fallen_back. read_usage. }
  assert (usage Ram (performanceData w2) = Num (nudged 10 10 90 uram r3)) as Hram2.
  { unfold w2, fallen_back. read_usage. }
  assert (usage Cpu (performanceData w2) = Num (nudged 10 10 90 ucpu r4)) as Hcpu2.
  { unfold w2, fallen_back. read_usage. }
  assert (reading Disk (performanceData w2) = reading Disk (performanceData w1))
    as Hdisk.
  { unfold w2, fallen_back. read_usage. reflexivity. }
  repeat (split; [done|]).
  split; [intros u r; by apply (nudged_between 10 90)|].
  split; [exact Hdisk|]. split; [reflexivity|]. split.
  { intros c w3. rewrite Htick. intros Hrun.
    by apply updateUI_same in Hrun as (Hpd & _). }
  intros [Hels Hinds] Hcmp. rewrite Htick. split; [|intros m; apply rendered_shows].
  apply updateUI_run.
  - split; [exact Hels|exact Hinds].
  - intros []; rewrite ?Hgpu2, ?Hproc2, ?Hram2, ?Hcpu2;
      try apply comparable_Num.
    unfold usage. by rewrite Hdisk.
Qed.

Lemma tick_falls_back_witness :
  let w1 := example_world [] (take 4 example_randoms) in
  let w2 :=
    fallen_back 45 32 67 28 (fl 0.1) (fl 0.2) (fl 0.9) (fl 0.3) w1 in
  updatePerformanceMetrics (example_world [None] (take 4 example_randoms)) =
    Some (Normal tt, rendered w2) ∧
  usage Gpu (performanceData w2) = Num (nudged 10 10 90 45 (fl 0.1)).
Proof.
  intros w1 w2.
  destruct (tick_falls_back (example_world [None] (take 4 example_randoms)) w1
              45 32 67 28 (fl 0.1) (fl 0.2) (fl 0.9) (fl 0.3) []
              eq_refl eq_refl eq_refl eq_refl eq_refl eq_refl)
    as (_ & Hgpu & _ & _ & _ & _ & _ & _ & _ & Hrender).
  split; [|exact Hgpu].
  apply Hrender; [apply styled_example_page|apply comparable_Num].
Defined.

(** C1, as the specification states it, fails: [window.updateDashboard]
    stores the usage it is given without clamping it, and
    [window.updatePerformanceMetric] clamps without rounding; the render
    shows what is stored.  From the simulated data, whose usages are whole
    percentages, [updateDashboard({ cpu: { usage: 150 } })] leaves 150 stored
    and shown, and [updatePerformanceMetric("cpu", 50.5)] leaves 50.5. *)
Lemma usage_not_always_whole_percent :
  usage_ok initializeSimulatedData ∧
  (∃ win',
     window_updateDashboard cpu_usage_150 example_window =
       Some (Normal tt, win') ∧
     usage Cpu <$> dashboard win' = Some (Num 150) ∧
     textContent <$> (elements (globals win') !! "cpu-value") =
       Some [Val (Num 150); Lit "%"]) ∧
  ¬ percent (Num 150) ∧
  (∃ win',
     window_updatePerformanceMetric "cpu" (Num 50.5) example_window =
       Some (Normal tt, win') ∧
     usage Cpu <$> dashboard win' = Some (Num 50.5) ∧
     textContent <$> (elements (globals win') !! "cpu-value") =
       Some [Val (Num 50.5); Lit "%"]) ∧
  ¬ percent (Num 50.5).
Proof.
  split.
  { intros []; eexists _, _; (split; [reflexivity|]);
      (split; [reflexivity|]); lia. }
  split.
  { eexists. split; [vm_compute; reflexivity|]. vm_compute. auto. }
  split.
  { intros (q & z & [= <-] & Hq & Hz). unfold Qeq in Hq. cbn in Hq. lia. }
  split.
  { eexists. split; [vm_compute; reflexivity|]. vm_compute. auto. }
  intros (q & z & [= <-] & Hq & Hz). unfold Qeq in Hq. cbn in Hq. lia.
Qed.



(** *** What a tick writes *)

Section TickFrame.

Implicit Types (w : World) (m : metric) (f : string) (v : option value).

Lemma field_is_ext m f v w w' :
  performanceData w' = performanceData w → field_is m f v w → field_is m f v w'.
Proof. unfold field_is. by intros ->. Qed.

Lemma field_is_write m f v m' f' (v' : value) w :
  (m', f') ≠ (m, f) → field_is m f v w → field_is m f v (write_field m' f' v' w).
Proof.
  intros Hne. unfold field_is. destruct (decide (m' = m)) as [->|Hm].
  - rewrite reading_write_eq, lookup_insert_ne; [done|congruence].
  - by rewrite reading_write_ne.
Qed.

Lemma field_is_set_field m f v m' f' (v' : value) :
  (m', f') ≠ (m, f) → preserves (field_is m f v) (set_field m' f' v').
Proof.
  intros Hne w c w' Hv. rewrite set_field_run. intros [= <- <-].
  by apply field_is_write.
Qed.

Lemma field_is_get_number {B} m f v m' f' (k : Q → M B) :
  (∀ q, preserves (field_is m f v) (k q)) →
  preserves (field_is m f v) (get_number m' f' ≫= k).
Proof.
  intros Hk w c w' Hv. rewrite bind_unfold, get_number_eq.
  destruct (field _ _); try done. by apply Hk.
Qed.

Lemma field_is_Math_random m f v : preserves (field_is m f v) Math_random.
Proof.
  intros w c w' Hv. rewrite Math_random_eq.
  destruct (randoms (page w)); [done|]. by intros [= <- <-].
Qed.

Lemma field_is_performance_now m f v : preserves (field_is m f v) performance_now.
Proof.
  intros w c w' Hv. unfold performance_now.
  destruct (clock (page w)) as [|[t|] rest]; [done|..]; by intros [= <- <-].
Qed.

Lemma field_is_nudge_usage m f v m' span lo hi :
  (m', "usage") ≠ (m, f) → preserves (field_is m f v) (nudge_usage m' span lo hi).
Proof.
  intros Hne w c w' Hv. rewrite nudge_usage_eq.
  destruct (usage m' _); try done. destruct (randoms (page w)); [done|].
  intros [= <- <-]. by apply field_is_write.
Qed.

Lemma not_written m f m' f' :
  (m, f) ∉ tick_writes → bool_decide ((m', f') ∈ tick_writes) = true →
  (m', f') ≠ (m, f).
Proof.
  intros Hnot Hin%bool_decide_eq_true_1 Heq. apply Hnot. by rewrite <- Heq.
Qed.

Context (m : metric) (f : string) (v : option value).
Hypothesis Hnot : (m, f) ∉ tick_writes.

Lemma field_is_measureCPUUsage : preserves (field_is m f v) measureCPUUsage.
Proof using Hnot.
  unfold measureCPUUsage.
  apply preserves_bind; [apply field_is_performance_now|]. intros start.
  apply preserves_bind; [apply preserves_get_world|]. intros w0.
  apply preserves_bind.
  { apply preserves_while.
    - apply preserves_bind; [apply field_is_performance_now|].
      intros ?. apply preserves_ret.
    - repeat (apply preserves_bind; [apply field_is_Math_random|intros ?]).
      apply preserves_ret. }
  intros _. apply preserves_bind; [apply field_is_performance_now|]. intros now.
  cbn zeta. apply field_is_get_number. intros P.
  apply preserves_bind; [by apply field_is_set_field, (not_written m f)|].
  intros _. apply field_is_get_number. intros u.
  apply preserves_bind; [by apply field_is_set_field, (not_written m f)|].
  intros _. apply field_is_get_number. intros u'.
  by apply field_is_set_field, (not_written m f).
Qed.

Lemma field_is_measureMemoryUsage : preserves (field_is m f v) measureMemoryUsage.
Proof using Hnot.
  intros w c w' Hv. rewrite measureMemoryUsage_eq.
  destruct (memory (page w)); [|by intros [= <- <-]]. cbv zeta.
  destruct (field _ _); try done.
  intros [= <- <-].
  do 2 (apply field_is_write; [by apply (not_written m f)|]). done.
Qed.

Lemma field_is_simulateOtherMetrics :
  preserves (field_is m f v) simulateOtherMetrics.
Proof using Hnot.
  unfold simulateOtherMetrics.
  apply preserves_bind; [by apply field_is_nudge_usage, (not_written m f)|].
  intros _. apply field_is_get_number. intros u.
  apply preserves_bind; [by apply field_is_set_field, (not_written m f)|].
  intros _. apply field_is_get_number. intros u'.
  apply preserves_bind; [by apply field_is_set_field, (not_written m f)|].
  intros _.
  apply preserves_bind; [by apply field_is_nudge_usage, (not_written m f)|].
  intros _. apply preserves_bind; [apply field_is_Math_random|]. intros r0.
  destruct (Qlt_le_dec r0 (fl 0.1)); [|apply preserves_ret].
  apply preserves_bind; [by apply field_is_nudge_usage, (not_written m f)|].
  intros _. apply field_is_get_number. intros u1.
  apply field_is_get_number. intros total.
  apply preserves_bind; [by apply field_is_set_field, (not_written m f)|].
  intros _. apply field_is_get_number. intros total'.
  apply field_is_get_number. intros used.
  by apply field_is_set_field, (not_written m f).
Qed.

Lemma field_is_simulateAllMetrics :
  preserves (field_is m f v) simulateAllMetrics.
Proof using Hnot.
  apply preserves_forEach. intros m' _. case_decide as Hm'; [|apply preserves_ret].
  apply field_is_nudge_usage, (not_written m f); [done|]. by destruct m'.
Qed.

Lemma field_is_updateUI : preserves (field_is m f v) updateUI.
Proof.
  intros w c w' Hv Hrun. apply updateUI_same in Hrun as (Hpd & _).
  assert (field_is m f v w') by (by apply (field_is_ext m f v w)).
  by destruct c.
Qed.

Lemma field_is_updatePerformanceMetrics :
  preserves (field_is m f v) updatePerformanceMetrics.
Proof using Hnot.
  apply preserves_try_catch.
  - apply preserves_bind; [apply field_is_measureCPUUsage|intros _].
    apply preserves_bind; [apply field_is_measureMemoryUsage|intros _].
    apply preserves_bind; [apply field_is_simulateOtherMetrics|intros _].
    apply field_is_updateUI.
  - apply preserves_bind; [|intros _].
    { apply preserves_modify. intros w. by apply field_is_ext. }
    apply preserves_bind; [apply field_is_simulateAllMetrics|intros _].
    apply field_is_updateUI.
Qed.

End TickFrame.

(** X4: a refresh tick, however it ends, assigns to the twelve fields of
    [tick_writes] only: every other field of every reading, present or not,
    is after the tick what it was before.  So [ram.total], [disk.total],
    [proc.cores] and [proc.threads] are never changed by a tick, and no tick
    adds a field. *)
Theorem tick_writes_only (w w' : World) (c : completion unit) (m : metric)
    (f : string) :
  updatePerformanceMetrics w = Some (c, w') → (m, f) ∉ tick_writes →
  reading m (performanceData w') !! f = reading m (performanceData w) !! f.
Proof.
  intros Hrun Hnot.
  pose proof (field_is_updatePerformanceMetrics m f
                (reading m (performanceData w) !! f) Hnot w c w' eq_refl Hrun)
    as H.
  by destruct c.
Qed.

Lemma tick_writes_only_witness :
  ∃ w', updatePerformanceMetrics (example_world example_clock example_randoms) =
          Some (Normal tt, w') ∧
        reading Ram (performanceData w') !! "total" = Some (Num 16).
Proof.
  eexists. split; [vm_compute; reflexivity|].
  refine (tick_writes_only (example_world example_clock example_randoms) _
            (Normal tt) Ram "total" _ _).
  - vm_compute. reflexivity.
  - apply (bool_decide_eq_false_1 _). vm_compute. reflexivity.
Defined.

(** X5: after any number of updates of the timer, whichever of them raised,
    every usage is still a whole percentage in [0,100] (given that the heap
    [performance.memory] reports fits [ram.total]), and the fields outside
    [tick_writes] are what they were at the start. *)
Theorem ticks_keep (n : nat) (w w' : World) :
  ticks n w = Some w' →
  (tick_inv w → tick_inv w') ∧
  (∀ m f, (m, f) ∉ tick_writes →
     reading m (performanceData w') !! f = reading m (performanceData w) !! f).
Proof.
  revert w. induction n as [|n IH]; intros w; cbn [ticks].
  - by intros [= <-].
  - destruct (updatePerformanceMetrics w) as [[c w1]|] eqn:Hrun; [|done].
    intros Hrest. destruct (IH w1 Hrest) as (Hinv & Hframe). split.
    + intros Hw. apply Hinv.
      pose proof (tick_inv_updatePerformanceMetrics w c w1 Hw Hrun) as H.
      by destruct c.
    + intros m f Hnot. rewrite (Hframe m f Hnot).
      pose proof (field_is_updatePerformanceMetrics m f
                    (reading m (performanceData w) !! f) Hnot w c w1 eq_refl Hrun)
        as H.
      by destruct c.
Qed.

Lemma ticks_keep_witness :
  ∃ w', ticks 2 (example_world two_tick_clock example_randoms) = Some w' ∧
        tick_inv w' ∧
        reading Proc (performanceData w') !! "cores" = Some (Num 8).
Proof.
  assert (tick_inv (example_world two_tick_clock example_randoms)) as Hinv.
  { split; [|exact I].
    intros []; eexists _, _; (split; [reflexivity|]);
      (split; [reflexivity|]); lia. }
  eexists. split; [vm_compute; reflexivity|].
  match goal with
  | |- tick_inv ?w' ∧ _ =>
      destruct (ticks_keep 2 (example_world two_tick_clock example_randoms) w')
        as [Hkeep Hframe]; [vm_compute; reflexivity|]
  end.
  split; [exact (Hkeep Hinv)|].
  rewrite Hframe; [reflexivity|].
  apply (bool_decide_eq_false_1 _). vm_compute. reflexivity.
Defined.

(** *** The simulation of a tick *)

Lemma usage_drop_random (m : metric) (w : World) :
  usage m (performanceData (drop_random w)) = usage m (performanceData w).
Proof. reflexivity. Qed.

(** Reads a field off a chain of writes and random draws. *)
Ltac read_writes :=
  repeat first
    [ rewrite usage_drop_random
    | rewrite performanceData_drop_random
    | rewrite page_write
    | rewrite randoms_drop_random
    | rewrite usage_write_eq
    | rewrite usage_write_field
        by (first [left; discriminate | right; discriminate])
    | rewrite reading_write_ne by discriminate ].

Section Simulation.

Implicit Types (w : World) (m : metric).

(** [simulateOtherMetrics] in closed form. *)
Lemma simulateOtherMetrics_run w ugpu uproc r1 r2 r3 rest :
  usage Gpu (performanceData w) = Num ugpu →
  usage Proc (performanceData w) = Num uproc →
  randoms (page w) = r1 :: r2 :: r3 :: rest →
  simulateOtherMetrics w =
    let w1 := drop_random (simulated_gpu_proc ugpu uproc r1 r2 w) in
    if Qlt_le_dec r3 (fl 0.1) then
      match usage Disk (performanceData w),
            field (reading Disk (performanceData w)) "total", rest with
      | Num udisk, Num total, r4 :: _ =>
          Some (Normal tt, simulated_disk udisk total r4 w1)
      | _, _, _ => None
      end
    else Some (Normal tt, w1).
Proof.
  intros Hgpu Hproc Hrandoms. unfold simulateOtherMetrics.
  rewrite bind_unfold, (nudge_usage_run Gpu 10 20 90 ugpu r1 (r2 :: r3 :: rest))
    by done.
  cbv beta iota. set (g := nudged 10 20 90 ugpu r1).
  set (w1 := write_field Gpu "usage" (Num g) (drop_random w)).
  rewrite bind_unfold, (get_usage_run Gpu w1 g) by apply usage_write_eq.
  cbv beta iota. rewrite bind_unfold, set_field_run. cbv beta iota.
  set (w2 := write_field Gpu "temp" _ w1).
  rewrite bind_unfold, (get_usage_run Gpu w2 g)
    by (unfold w2, w1; read_writes; reflexivity).
  cbv beta iota. rewrite bind_unfold, set_field_run. cbv beta iota.
  set (w3 := write_field Gpu "memory" _ w2).
  rewrite bind_unfold, (nudge_usage_run Proc 8 15 85 uproc r2 (r3 :: rest));
    [|by unfold w3, w2, w1; read_writes
     |by unfold w3, w2, w1; read_writes; rewrite Hrandoms].
  cbv beta iota.
  change (write_field Proc "usage" _ (drop_random w3))
    with (simulated_gpu_proc ugpu uproc r1 r2 w).
  set (w4 := simulated_gpu_proc ugpu uproc r1 r2 w).
  assert (randoms (page w4) = r3 :: rest) as Hr4.
  { unfold w4, simulated_gpu_proc. cbv zeta. read_writes. by rewrite Hrandoms. }
  assert (∀ m, m ≠ Gpu → m ≠ Proc →
            reading m (performanceData w4) = reading m (performanceData w))
    as Hother.
  { intros m ??. unfold w4, simulated_gpu_proc. cbv zeta.
    rewrite reading_write_ne, performanceData_drop_random by done.
    by rewrite !reading_write_ne, performanceData_drop_random by done. }
  rewrite bind_unfold, Math_random_eq, Hr4. cbv beta iota zeta.
  destruct (Qlt_le_dec r3 (fl 0.1)); [|reflexivity].
  set (w5 := drop_random w4).
  assert (usage Disk (performanceData w5) = usage Disk (performanceData w))
    as Hdisk by (unfold w5, usage; by rewrite performanceData_drop_random, Hother).
  assert (field (reading Disk (performanceData w5)) "total" =
          field (reading Disk (performanceData w)) "total")
    as Htotal by (unfold w5; by rewrite performanceData_drop_random, Hother).
  assert (randoms (page w5) = rest) as Hr5
    by (unfold w5; by rewrite randoms_drop_random, Hr4).
  rewrite bind_unfold, nudge_usage_eq, Hdisk, Hr5.
  destruct (usage Disk (performanceData w)) as [|udisk| | | |];
    try reflexivity.
  destruct rest as [|r4 rest'].
  { by destruct (field _ _). }
  cbv beta iota. set (d := nudged 2 60 95 udisk r4).
  set (w6 := write_field Disk "usage" (Num d) (drop_random w5)).
  rewrite bind_unfold, (get_usage_run Disk w6 d) by apply usage_write_eq.
  cbv beta iota. rewrite bind_unfold, get_number_eq.
  assert (field (reading Disk (performanceData w6)) "total" =
          field (reading Disk (performanceData w)) "total") as Htotal6.
  { unfold w6. rewrite reading_write_eq, field_insert_ne by done.
    by rewrite performanceData_drop_random. }
  rewrite Htotal6.
  destruct (field (reading Disk (performanceData w)) "total")
    as [|total| | | |]; try reflexivity.
  rewrite bind_unfold, set_field_run. cbv beta iota.
  set (w7 := write_field Disk "used" _ w6).
  rewrite bind_unfold, (get_number_run Disk "total" w7 total); cycle 1.
  { unfold w7. rewrite reading_write_eq, field_insert_ne by done. exact Htotal6. }
  cbv beta iota.
  rewrite bind_unfold,
    (get_number_run Disk "used" w7 (Math_round (d ⊘ 100 ⊗ total))); cycle 1.
  { unfold w7. by rewrite reading_write_eq, field_insert_eq. }
  cbv beta iota. rewrite set_field_run. reflexivity.
Qed.

(** X6: [simulateOtherMetrics] leaves the usage of [gpu] a whole number in
    [20,90] and the usage of [proc] a whole number in [15,85], whatever they
    were; [gpu.temp] is [Math.round(45 + usage * 0.5)], a whole number in
    [55,90], and [gpu.memory] is [(4 + usage * 0.05).toFixed(1)] of a number
    in [5,8.5], both computed in binary64 from the new usage.  The readings
    of [ram] and [cpu] are untouched, and so is the reading of [disk] when
    the third random number is not below 0.1. *)
Theorem simulateOtherMetrics_bands (w : World) (ugpu uproc r1 r2 r3 : Q)
    (rest : list Q) :
  usage Gpu (performanceData w) = Num ugpu →
  usage Proc (performanceData w) = Num uproc →
  randoms (page w) = r1 :: r2 :: r3 :: rest →
  disk_ready r3 rest w →
  ∃ (w' : World) (g t p : Z),
    simulateOtherMetrics w = Some (Normal tt, w') ∧
    usage Gpu (performanceData w') = Num (inject_Z g) ∧ (20 ≤ g ≤ 90)%Z ∧
    inject_Z g = nudged 10 20 90 ugpu r1 ∧
    field (reading Gpu (performanceData w')) "temp" = Num (inject_Z t) ∧
    inject_Z t = Math_round (45 ⊕ inject_Z g ⊗ 0.5) ∧ (55 ≤ t ≤ 90)%Z ∧
    field (reading Gpu (performanceData w')) "memory" =
      Fixed (4 ⊕ inject_Z g ⊗ fl 0.05) 1 ∧
    5 <= 4 ⊕ inject_Z g ⊗ fl 0.05 <= 17 # 2 ∧
    usage Proc (performanceData w') = Num (inject_Z p) ∧ (15 ≤ p ≤ 85)%Z ∧
    inject_Z p = nudged 8 15 85 uproc r2 ∧
    reading Ram (performanceData w') = reading Ram (performanceData w) ∧
    reading Cpu (performanceData w') = reading Cpu (performanceData w) ∧
    (fl 0.1 <= r3 →
       reading Disk (performanceData w') = reading Disk (performanceData w) ∧
       randoms (page w') = rest).
Proof.
  intros Hgpu Hproc Hrandoms Hdisk.
  pose proof (simulateOtherMetrics_run w ugpu uproc r1 r2 r3 rest
                Hgpu Hproc Hrandoms) as Hrun. cbv zeta in Hrun.
  destruct (nudged_between 20 90 10 ugpu r1) as (g & Hg & Hgb); [lia|].
  destruct (nudged_between 15 85 8 uproc r2) as (p & Hp & Hpb); [lia|].
  assert (20 <= inject_Z g <= 90) as Hgq.
  { change 20 with (inject_Z 20). change 90 with (inject_Z 90).
    rewrite <- !Zle_Qle. lia. }
  destruct (Math_round_between 55 90 (45 ⊕ inject_Z g ⊗ 0.5)) as (t & Ht & Htb).
  { by apply gpu_temp_between. }
  change (inject_Z 20) with 20 in Hg. change (inject_Z 90) with 90 in Hg.
  change (inject_Z 15) with 15 in Hp. change (inject_Z 85) with 85 in Hp.
  set (w1 := simulated_gpu_proc ugpu uproc r1 r2 w) in Hrun.
  assert (usage Gpu (performanceData w1) = Num (inject_Z g)) as Hg1.
  { unfold w1, simulated_gpu_proc. cbv zeta. read_writes. by rewrite Hg. }
  assert (field (reading Gpu (performanceData w1)) "temp" = Num (inject_Z t))
    as Ht1.
  { unfold w1, simulated_gpu_proc. cbv zeta. read_writes.
    rewrite reading_write_eq, field_insert_ne by done.
    by rewrite reading_write_eq, field_insert_eq, Hg, Ht. }
  assert (field (reading Gpu (performanceData w1)) "memory" =
          Fixed (4 ⊕ inject_Z g ⊗ fl 0.05) 1) as Hm1.
  { unfold w1, simulated_gpu_proc. cbv zeta. read_writes.
    by rewrite reading_write_eq, field_insert_eq, Hg. }
  assert (usage Proc (performanceData w1) = Num (inject_Z p)) as Hp1.
  { unfold w1, simulated_gpu_proc. cbv zeta. read_writes. by rewrite Hp. }
  assert (∀ m, m ≠ Gpu → m ≠ Proc →
            reading m (performanceData w1) = reading m (performanceData w))
    as Hother.
  { intros m ??. unfold w1, simulated_gpu_proc. cbv zeta.
    rewrite reading_write_ne, performanceData_drop_random by done.
    by rewrite !reading_write_ne, performanceData_drop_random by done. }
  assert (randoms (page (drop_random w1)) = rest) as Hrest.
  { unfold w1, simulated_gpu_proc. cbv zeta. read_writes. by rewrite Hrandoms. }
  pose proof (gpu_memory_between (inject_Z g) Hgq) as Hmem.
  destruct (Qlt_le_dec r3 (fl 0.1)) as [Hlt|Hge].
  - destruct (Hdisk Hlt) as (udisk & total & r4 & rest' & Hu & Htot & ->).
    rewrite Hu, Htot in Hrun.
    eexists _, g, t, p. split; [exact Hrun|].
    unfold simulated_disk. cbv zeta.
    split; [by read_writes|]. split; [lia|]. split; [by rewrite Hg|].
    split; [by rewrite !reading_write_ne, performanceData_drop_random by done|].
    split; [by rewrite Ht|]. split; [lia|].
    split; [by rewrite !reading_write_ne, performanceData_drop_random by done|].
    split; [exact Hmem|].
    split; [by read_writes|]. split; [lia|]. split; [by rewrite Hp|].
    split; [rewrite !reading_write_ne, !performanceData_drop_random by done;
            by apply Hother|].
    split; [rewrite !reading_write_ne, !performanceData_drop_random by done;
            by apply Hother|].
    intros Hge. lra.
  - eexists _, g, t, p. split; [exact Hrun|].
    rewrite !usage_drop_random, !performanceData_drop_random.
    split; [done|]. split; [lia|]. split; [by rewrite Hg|]. split; [done|].
    split; [by rewrite Ht|]. split; [lia|]. split; [done|].
    split; [exact Hmem|].
    split; [done|]. split; [lia|]. split; [by rewrite Hp|].
    split; [by apply Hother|]. split; [by apply Hother|].
    intros _. split; [by apply Hother|done].
Qed.

Lemma simulateOtherMetrics_bands_witness :
  ∃ (w' : World) (g t p : Z),
    simulateOtherMetrics (example_world [] [fl 0.9; fl 0.3; 0.5]) =
      Some (Normal tt, w') ∧
    usage Gpu (performanceData w') = Num (inject_Z g) ∧ (20 ≤ g ≤ 90)%Z ∧
    field (reading Gpu (performanceData w')) "temp" = Num (inject_Z t) ∧
    (55 ≤ t ≤ 90)%Z ∧
    usage Proc (performanceData w') = Num (inject_Z p) ∧ (15 ≤ p ≤ 85)%Z.
Proof.
  assert (disk_ready 0.5 [] (example_world [] [fl 0.9; fl 0.3; 0.5])) as Hdisk.
  { intros Hlt. exfalso. revert Hlt. vm_compute. discriminate. }
  destruct (simulateOtherMetrics_bands
              (example_world [] [fl 0.9; fl 0.3; 0.5])
              45 32 (fl 0.9) (fl 0.3) 0.5 [] eq_refl eq_refl eq_refl Hdisk)
    as (w' & g & t & p & Hrun & Hg & Hgb & _ & Ht & _ & Htb & _ & _ & Hp &
        Hpb & _).
  exists w', g, t, p. repeat (split; [assumption|]). assumption.
Defined.

(** X7: when the third random number is below 0.1, [simulateOtherMetrics]
    also nudges the usage of [disk], by at most 1 either way before the clamp
    to [60,95] and the rounding, and recomputes [disk.used] as
    [Math.round((usage / 100) * total)] and [disk.free] as [total - used],
    in binary64; the total is unchanged.  When the total is a whole number
    (below [2^52] in size), [used] is a whole number no larger in size and
    used and free add up to the total.  Four random numbers are drawn. *)
Theorem simulateOtherMetrics_disk (w : World)
    (ugpu uproc udisk total r1 r2 r3 r4 : Q) (rest : list Q) :
  usage Gpu (performanceData w) = Num ugpu →
  usage Proc (performanceData w) = Num uproc →
  usage Disk (performanceData w) = Num udisk →
  field (reading Disk (performanceData w)) "total" = Num total →
  randoms (page w) = r1 :: r2 :: r3 :: r4 :: rest →
  r3 < fl 0.1 →
  ∃ (w' : World) (d : Z) (used : Q),
    simulateOtherMetrics w = Some (Normal tt, w') ∧
    usage Disk (performanceData w') = Num (inject_Z d) ∧ (60 ≤ d ≤ 95)%Z ∧
    inject_Z d = nudged 2 60 95 udisk r4 ∧
    field (reading Disk (performanceData w')) "used" = Num used ∧
    used = Math_round (inject_Z d ⊘ 100 ⊗ total) ∧
    field (reading Disk (performanceData w')) "free" = Num (total ⊖ used) ∧
    (∀ T : Z, total == inject_Z T → (Z.abs T < 2 ^ 52)%Z →
       (∃ u : Z, used = inject_Z u ∧ (Z.abs u ≤ Z.abs T)%Z) ∧
       used + (total ⊖ used) == total) ∧
    field (reading Disk (performanceData w')) "total" = Num total ∧
    randoms (page w') = rest.
Proof.
  intros Hgpu Hproc Hdisk Htotal Hrandoms Hlt.
  pose proof (simulateOtherMetrics_run w ugpu uproc r1 r2 r3 (r4 :: rest)
                Hgpu Hproc Hrandoms) as Hrun. cbv zeta in Hrun.
  rewrite Hdisk, Htotal in Hrun.
  destruct (Qlt_le_dec r3 (fl 0.1)) as [_|Hge]; [|lra].
  destruct (nudged_between 60 95 2 udisk r4) as (d & Hd & Hdb); [lia|].
  change (inject_Z 60) with 60 in Hd. change (inject_Z 95) with 95 in Hd.
  set (w1 := simulated_gpu_proc ugpu uproc r1 r2 w) in Hrun.
  assert (randoms (page (drop_random w1)) = r4 :: rest) as Hrest.
  { unfold w1, simulated_gpu_proc. cbv zeta. read_writes. by rewrite Hrandoms. }
  assert (field (reading Disk (performanceData (drop_random w1))) "total" =
          Num total) as Htotal1.
  { unfold w1, simulated_gpu_proc. cbv zeta.
    rewrite performanceData_drop_random, reading_write_ne,
      performanceData_drop_random by done.
    by rewrite !reading_write_ne, performanceData_drop_random by done. }
  exists (simulated_disk udisk total r4 (drop_random w1)), d,
    (Math_round (inject_Z d ⊘ 100 ⊗ total)).
  split; [exact Hrun|]. unfold simulated_disk. cbv zeta. rewrite Hd.
  split; [by read_writes|]. split; [lia|]. split; [done|].
  split.
  { rewrite reading_write_eq, field_insert_ne by done.
    by rewrite reading_write_eq, field_insert_eq. }
  split; [done|].
  split; [by rewrite reading_write_eq, field_insert_eq|].
  split.
  { intros T HT Hsmall.
    destruct (disk_used_between (inject_Z d) total T) as (u & Hu & Hub);
      [|done|lia|].
    { change 0 with (inject_Z 0). change 100 with (inject_Z 100).
      rewrite <- !Zle_Qle. lia. }
    split; [exists u; split; assumption|]. rewrite Hu. unfold js_sub.
    assert (inject_Z (T - u) = inject_Z T - inject_Z u) as Hminus.
    { unfold Z.sub. by rewrite inject_Z_plus, inject_Z_opp. }
    rewrite (fl_comp _ (inject_Z (T - u)))
      by (rewrite HT, Hminus; reflexivity).
    rewrite fl_inject_Z by lia. rewrite HT, Hminus. ring. }
  split.
  { rewrite reading_write_eq, field_insert_ne by done.
    rewrite reading_write_eq, field_insert_ne by done.
    rewrite reading_write_eq, field_insert_ne by done.
    by rewrite performanceData_drop_random. }
  by rewrite !page_write, randoms_drop_random, Hrest.
Qed.

Lemma simulateOtherMetrics_disk_witness :
  ∃ (w' : World) (d : Z) (used : Q),
    simulateOtherMetrics
        (example_world [] [fl 0.9; fl 0.3; fl 0.05; fl 0.8]) =
      Some (Normal tt, w') ∧
    usage Disk (performanceData w') = Num (inject_Z d) ∧ (60 ≤ d ≤ 95)%Z ∧
    field (reading Disk (performanceData w')) "used" = Num used ∧
    field (reading Disk (performanceData w')) "free" = Num (300 ⊖ used) ∧
    used + (300 ⊖ used) == 300.
Proof.
  assert (fl 0.05 < fl 0.1) as Hlt by (vm_compute; reflexivity).
  destruct (simulateOtherMetrics_disk
              (example_world [] [fl 0.9; fl 0.3; fl 0.05; fl 0.8])
              45 32 78 300 (fl 0.9) (fl 0.3) (fl 0.05) (fl 0.8) []
              eq_refl eq_refl eq_refl eq_refl eq_refl Hlt)
    as (w' & d & used & Hrun & Hd & Hdb & _ & Hu & _ & Hfree & Hsum & _).
  exists w', d, used. repeat (split; [assumption|]).
  apply (Hsum 300%Z); [reflexivity|lia].
Defined.

End Simulation.

(** *** A tick on which nothing raises *)

Section TickRuns.

Implicit Types (w : World) (m : metric).

Lemma same_screen_refl w : same_screen w w.
Proof. repeat split. Qed.

Lemma same_screen_trans w1 w2 w3 :
  same_screen w1 w2 → same_screen w2 w3 → same_screen w1 w3.
Proof.
  unfold same_screen. intros (?&?&?&?) (?&?&?&?). repeat split; congruence.
Qed.

Lemma styled_same_screen w w' :
  same_screen w w' → styled (page w) → styled (page w').
Proof. unfold styled. by intros (-> & -> & _). Qed.

(** What [measureCPUUsage] leaves when the busy loop ends. *)
Lemma measureCPUUsage_result w (crest : list (option Q)) (rrest : list Q) (U : Q) :
  let w' :=
    write_field Cpu "freq" (Fixed (fl 2.8 ⊕ U ⊗ fl 0.01) 1)
      (write_field Cpu "temp" (Num (Math_round (35 ⊕ U ⊗ fl 0.4)))
         (write_field Cpu "usage" (Num U) (after_busy_loop crest rrest w))) in
  usage Cpu (performanceData w') = Num U ∧
  field (reading Cpu (performanceData w')) "temp" =
    Num (Math_round (35 ⊕ U ⊗ fl 0.4)) ∧
  field (reading Cpu (performanceData w')) "freq" = Fixed (fl 2.8 ⊕ U ⊗ fl 0.01) 1 ∧
  (∀ m, m ≠ Cpu → reading m (performanceData w') = reading m (performanceData w)) ∧
  clock (page w') = crest ∧ randoms (page w') = rrest ∧ same_screen w w'.
Proof.
  cbv zeta. split; [|split; [|split; [|split; [|split; [|split]]]]].
  - rewrite !usage_write_field by (left; discriminate). apply usage_write_eq.
  - rewrite reading_write_eq, field_insert_ne by done.
    by rewrite reading_write_eq, field_insert_eq.
  - by rewrite reading_write_eq, field_insert_eq.
  - intros m Hm. by rewrite !reading_write_ne by done.
  - reflexivity.
  - reflexivity.
  - repeat split.
Qed.

(** [measureMemoryUsage] ends normally, with a number as usage, when the
    heap can be read. *)
Lemma measureMemoryUsage_result w :
  heap_total_numeric w →
  ∃ w', measureMemoryUsage w = Some (Normal tt, w') ∧ page w' = page w ∧
        (∀ m, m ≠ Ram →
           reading m (performanceData w') = reading m (performanceData w)) ∧
        usage Ram (performanceData w') = measured_ram_usage w.
Proof.
  intros Hheap. rewrite measureMemoryUsage_eq.
  unfold heap_total_numeric in Hheap. unfold measured_ram_usage.
  destruct (memory (page w)) as [memInfo|]; [|by exists w].
  destruct Hheap as (total & Htotal). cbv zeta. rewrite Htotal.
  eexists. split; [reflexivity|]. split; [reflexivity|]. split.
  - intros m Hm. by rewrite !reading_write_ne by done.
  - apply usage_write_eq.
Qed.

Lemma comparable_percentage x y : comparable (percentage x y).
Proof.
  unfold comparable, percentage.
  destruct (Qeq_bool y 0); [destruct (Qeq_bool x 0); by eexists|].
  destruct (overflows _); by eexists.
Qed.

Lemma comparable_measured_ram_usage w :
  comparable (usage Ram (performanceData w)) → comparable (measured_ram_usage w).
Proof.
  intros Hcmp. unfold measured_ram_usage.
  destruct (memory (page w)); [|done].
  destruct (field _ _); try done. apply comparable_percentage.
Qed.

Lemma heap_readable_measured w :
  heap_readable w → (∃ q, usage Ram (performanceData w) = Num q) →
  heap_total_numeric w ∧ ∃ q, measured_ram_usage w = Num q.
Proof.
  unfold heap_readable, heap_total_numeric, measured_ram_usage.
  destruct (memory (page w)) as [memInfo|]; [|done].
  intros (total & q & Htotal & Hq) _. rewrite Htotal. eauto.
Qed.

Lemma simulateOtherMetrics_ends w (ugpu uproc r1 r2 r3 : Q) (rest : list Q) :
  usage Gpu (performanceData w) = Num ugpu →
  usage Proc (performanceData w) = Num uproc →
  randoms (page w) = r1 :: r2 :: r3 :: rest →
  disk_ready r3 rest w →
  ∃ w', simulateOtherMetrics w = Some (Normal tt, w') ∧ same_screen w w' ∧
        clock (page w') = clock (page w) ∧
        (∀ m, (∃ q, usage m (performanceData w) = Num q) →
              ∃ q, usage m (performanceData w') = Num q) ∧
        usage Ram (performanceData w') = usage Ram (performanceData w).
Proof.
  intros Hgpu Hproc Hrandoms Hdisk.
  pose proof (simulateOtherMetrics_run w ugpu uproc r1 r2 r3 rest
                Hgpu Hproc Hrandoms) as Hrun. cbv zeta in Hrun.
  assert (∀ m, (∃ q, usage m (performanceData w) = Num q) →
               ∃ q, usage m (performanceData
                               (simulated_gpu_proc ugpu uproc r1 r2 w)) = Num q)
    as Hnum.
  { intros m Hn. unfold simulated_gpu_proc. cbv zeta.
    destruct m; read_writes; eauto. }
  assert (usage Ram (performanceData (simulated_gpu_proc ugpu uproc r1 r2 w)) =
          usage Ram (performanceData w)) as Hram.
  { unfold simulated_gpu_proc. cbv zeta. by read_writes. }
  destruct (Qlt_le_dec r3 (fl 0.1)) as [Hlt|Hge].
  - destruct (Hdisk Hlt) as (udisk & total & r4 & rest' & Hu & Htot & ->).
    rewrite Hu, Htot in Hrun.
    eexists. split; [exact Hrun|]. split; [repeat split|]. split; [reflexivity|].
    split.
    + intros m Hn. specialize (Hnum m Hn). unfold simulated_disk. cbv zeta.
      destruct m; read_writes; eauto.
    + unfold simulated_disk. cbv zeta. read_writes. exact Hram.
  - eexists. split; [exact Hrun|]. split; [repeat split|]. split; [reflexivity|].
    split.
    + intros m Hn. rewrite usage_drop_random. by apply Hnum.
    + rewrite usage_drop_random. exact Hram.
Qed.

Lemma advanced_performance_now (w0 : World) :
  preserves (only_oracles_advanced w0) performance_now.
Proof.
  intros w c w' (Hpd & Hels & Hinds & Hcon & Hmem). unfold performance_now.
  destruct (clock (page w)) as [|[t|] rest]; [done|..];
    intros [= <- <-]; repeat split; assumption.
Qed.

Lemma advanced_Math_random (w0 : World) :
  preserves (only_oracles_advanced w0) Math_random.
Proof.
  intros w c w' (Hpd & Hels & Hinds & Hcon & Hmem). rewrite Math_random_eq.
  destruct (randoms (page w)); [done|].
  intros [= <- <-]; repeat split; assumption.
Qed.

(** X8: when the busy loop ends and the prior usage of [cpu] lies in
    [0,100], [measureCPUUsage] leaves a whole usage in [0,100], sets
    [cpu.temp] to [Math.round(35 + usage * 0.4)], a whole number in [35,75],
    and [cpu.freq] to [(2.8 + usage * 0.01).toFixed(1)] of a number between
    the binary64 numbers 2.8 and 3.8, both computed in binary64 from the new
    usage.  It reads the clock once for [start], once per test of the loop
    and once for the actual time, draws two random numbers per iteration,
    and leaves the other readings, the document and the console alone. *)
Theorem measureCPUUsage_derived (w : World) (start t_exit t_end P : Q)
    (early : list Q) (crest : list (option Q)) (rs rrest : list Q) :
  clock (page w) =
    Some start :: (Some <$> early) ++ Some t_exit :: Some t_end :: crest →
  Forall (λ t, t ⊖ start < targetTime) early →
  targetTime <= t_exit ⊖ start →
  randoms (page w) = rs ++ rrest →
  length rs = (2 * length early)%nat →
  usage Cpu (performanceData w) = Num P →
  0 <= P <= 100 →
  ∃ (w' : World) (u t : Z),
    measureCPUUsage w = Some (Normal tt, w') ∧
    usage Cpu (performanceData w') = Num (inject_Z u) ∧ (0 ≤ u ≤ 100)%Z ∧
    inject_Z u = blended P (estimatedUsage (t_end ⊖ start)) ∧
    field (reading Cpu (performanceData w')) "temp" = Num (inject_Z t) ∧
    inject_Z t = Math_round (35 ⊕ inject_Z u ⊗ fl 0.4) ∧ (35 ≤ t ≤ 75)%Z ∧
    field (reading Cpu (performanceData w')) "freq" =
      Fixed (fl 2.8 ⊕ inject_Z u ⊗ fl 0.01) 1 ∧
    fl 2.8 <= fl 2.8 ⊕ inject_Z u ⊗ fl 0.01 <= fl 3.8 ∧
    (∀ m, m ≠ Cpu →
       reading m (performanceData w') = reading m (performanceData w)) ∧
    clock (page w') = crest ∧ randoms (page w') = rrest ∧ same_screen w w'.
Proof.
  intros Hclock Hearly Hexit Hrandoms Hlen HP Hbounds.
  pose proof (measureCPUUsage_run w start early t_exit t_end crest rs rrest P
                Hclock Hearly Hexit Hrandoms Hlen HP) as Hrun.
  cbv zeta in Hrun.
  set (U := blended P (estimatedUsage (t_end ⊖ start))) in *.
  destruct (Math_round_between 0 100
              (P ⊗ fl 0.7 ⊕ estimatedUsage (t_end ⊖ start) ⊗ fl 0.3))
    as (u & Hu & Hub).
  { change (inject_Z 0) with 0. change (inject_Z 100) with 100.
    apply blended_between; [done|apply estimatedUsage_between]. }
  change (Math_round _) with U in Hu.
  assert (0 <= inject_Z u <= 100) as Huq.
  { change 0 with (inject_Z 0). change 100 with (inject_Z 100).
    rewrite <- !Zle_Qle. lia. }
  destruct (Math_round_between 35 75 (35 ⊕ inject_Z u ⊗ fl 0.4))
    as (t & Ht & Htb).
  { by apply cpu_temp_between. }
  destruct (measureCPUUsage_result w crest rrest U)
    as (Hu' & Ht' & Hf' & Hother & Hc' & Hr' & Hscreen).
  eexists _, u, t. split; [exact Hrun|].
  split; [rewrite <- Hu; exact Hu'|]. split; [lia|]. split; [by rewrite Hu|].
  split; [rewrite <- Ht, <- Hu; exact Ht'|]. split; [by rewrite Ht|].
  split; [lia|]. split; [rewrite <- Hu; exact Hf'|].
  split; [by apply cpu_freq_between|].
  split; [exact Hother|]. split; [exact Hc'|]. split; [exact Hr'|exact Hscreen].
Qed.

Lemma measureCPUUsage_derived_witness :
  ∃ (w' : World) (u t : Z),
    measureCPUUsage (example_world example_clock example_randoms) =
      Some (Normal tt, w') ∧
    usage Cpu (performanceData w') = Num (inject_Z u) ∧ (0 ≤ u ≤ 100)%Z ∧
    field (reading Cpu (performanceData w')) "temp" = Num (inject_Z t) ∧
    (35 ≤ t ≤ 75)%Z ∧
    clock (page w') = [] ∧
    randoms (page w') = drop 2 example_randoms.
Proof.
  assert (Forall (λ t, t ⊖ 0 < targetTime) [4]) as Hearly
    by (repeat constructor; vm_compute; reflexivity).
  assert (targetTime <= 12 ⊖ 0) as Hexit by (vm_compute; discriminate).
  assert (0 <= 28 <= 100) as Hbounds by (split; vm_compute; discriminate).
  destruct (measureCPUUsage_derived (example_world example_clock example_randoms)
              0 12 12.5 28 [4] [] (take 2 example_randoms)
              (drop 2 example_randoms)
              eq_refl Hearly Hexit eq_refl eq_refl eq_refl Hbounds)
    as (w' & u & t & Hrun & Hu & Hub & _ & Ht & _ & Htb & _ & _ & _ & Hc &
        Hr & _).
  exists w', u, t. repeat (split; [assumption|]). assumption.
Defined.

(** X9: when [measureCPUUsage] raises (a call of [performance.now()]
    raised), it has assigned nothing: the metrics are untouched, and so are
    the document and the console.  The assignments all come after the last
    reading of the clock, and none of them raises. *)
Theorem measureCPUUsage_raise_keeps_data (w w' : World) :
  measureCPUUsage w = Some (Throw, w') →
  performanceData w' = performanceData w ∧ same_screen w w'.
Proof.
  intros Hrun.
  assert (hoare (only_oracles_advanced w) measureCPUUsage (λ _ _, True)
            (only_oracles_advanced w)) as Hhoare.
  { unfold measureCPUUsage.
    eapply hoare_bind; [apply advanced_performance_now|]. intros start.
    eapply hoare_bind; [apply preserves_get_world|]. intros w0.
    eapply hoare_bind.
    { apply preserves_while.
      - apply preserves_bind; [apply advanced_performance_now|].
        intros ?. apply preserves_ret.
      - repeat (apply preserves_bind; [apply advanced_Math_random|intros ?]).
        apply preserves_ret. }
    intros ?. eapply hoare_bind; [apply advanced_performance_now|]. intros now.
    cbn zeta. intros w1 c w1' ?.
    rewrite bind_unfold, get_number_eq. destruct (field _ _); try done.
    rewrite bind_unfold, set_field_run. cbv beta iota.
    rewrite bind_unfold, get_number_eq. destruct (field _ _); try done.
    rewrite bind_unfold, set_field_run. cbv beta iota.
    rewrite bind_unfold, get_number_eq. destruct (field _ _); try done.
    rewrite set_field_run. by intros [= <- <-]. }
  apply (Hhoare w Throw w'); [|exact Hrun].
  split; [reflexivity|apply same_screen_refl].
Qed.

Lemma measureCPUUsage_raise_keeps_data_witness :
  ∃ w', measureCPUUsage stopped_clock_world = Some (Throw, w') ∧
        performanceData w' = initializeSimulatedData.
Proof.
  eexists. split; [vm_compute; reflexivity|].
  refine (proj1 (measureCPUUsage_raise_keeps_data stopped_clock_world _ _)).
  vm_compute. reflexivity.
Defined.

(** X10: [measureMemoryUsage] does nothing where the browser has no
    [performance.memory].  Where it has, and [ram.total] is a number, it
    sets [ram.used] to the used heap in GB, [toFixed(1)], and [ram.usage] to
    [Math.round((used / ram.total) * 100)], computed in binary64 and without
    a clamp: a finite number when [ram.total] is not zero and the quotient
    is within range, a whole percentage when the used heap fits
    [ram.total], and [Infinity] (for a used heap above zero) or [NaN] (for
    none) when [ram.total] is zero.  The allocated heap ([totalJSHeapSize])
    plays no part, and [ram.total], the other readings and the page are
    untouched.  It never raises. *)
Theorem measureMemoryUsage_reads_used_heap (w : World) :
  (memory (page w) = None → measureMemoryUsage w = Some (Normal tt, w)) ∧
  (∀ memInfo total,
     memory (page w) = Some memInfo →
     field (reading Ram (performanceData w)) "total" = Num total →
     let usedGB := usedJSHeapSize memInfo / GB in
     ∃ w', measureMemoryUsage w = Some (Normal tt, w') ∧
       field (reading Ram (performanceData w')) "used" = Fixed usedGB 1 ∧
       (¬ total == 0 → overflows (usedGB ⊘ total ⊗ 100) = false →
          usage Ram (performanceData w') =
            Num (Math_round (usedGB ⊘ total ⊗ 100))) ∧
       (0 < total → 0 <= usedGB <= total →
          percent (usage Ram (performanceData w'))) ∧
       (total == 0 → 0 < usedGB →
          usage Ram (performanceData w') = Infinity false) ∧
       (total == 0 → usedGB == 0 → usage Ram (performanceData w') = NaN) ∧
       (∀ f, f ≠ "used" → f ≠ "usage" →
          reading Ram (performanceData w') !! f =
          reading Ram (performanceData w) !! f) ∧
       (∀ m, m ≠ Ram →
          reading m (performanceData w') = reading m (performanceData w)) ∧
       page w' = page w) ∧
  (∀ c w', measureMemoryUsage w = Some (c, w') → c = Normal tt).
Proof.
  split; [|split].
  - intros Hmem. by rewrite measureMemoryUsage_eq, Hmem.
  - intros memInfo total Hmem Htotal usedGB.
    rewrite measureMemoryUsage_eq, Hmem, Htotal. cbv zeta. fold usedGB.
    eexists. split; [reflexivity|].
    split.
    { rewrite reading_write_eq, field_insert_ne by done.
      by rewrite reading_write_eq, field_insert_eq. }
    rewrite usage_write_eq.
    split.
    { intros Hnz Hfin. unfold percentage.
      destruct (Qeq_bool total 0) eqn:Hz; [by apply Qeq_bool_eq in Hz|].
      cbv zeta. by rewrite Hfin. }
    split; [intros; by apply percent_heap|].
    split.
    { intros Hz Hpos. unfold percentage, is_negative.
      rewrite (proj2 (Qeq_bool_iff total 0) Hz).
      destruct (Qeq_bool usedGB 0) eqn:Hu.
      - apply Qeq_bool_eq in Hu. lra.
      - destruct (Qlt_le_dec usedGB 0); [lra|done]. }
    split.
    { intros Hz Hu. unfold percentage.
      by rewrite (proj2 (Qeq_bool_iff total 0) Hz),
        (proj2 (Qeq_bool_iff usedGB 0) Hu). }
    split.
    { intros f Hused Husage.
      rewrite reading_write_eq, lookup_insert_ne by done.
      by rewrite reading_write_eq, lookup_insert_ne. }
    split; [|reflexivity].
    intros m Hm. by rewrite !reading_write_ne.
  - intros c w'. rewrite measureMemoryUsage_eq.
    destruct (memory (page w)); [|by intros [= <- <-]]. cbv zeta.
    destruct (field _ _); try done.
    by intros [= <- <-].
Qed.

Lemma measureMemoryUsage_reads_used_heap_witness :
  ∃ w', measureMemoryUsage heap_world = Some (Normal tt, w') ∧
        usage Ram (performanceData w') = Num 50 ∧
        reading Ram (performanceData w') !! "total" = Some (Num 16).
Proof.
  assert (¬ 16 == 0) as Hnz by (vm_compute; discriminate).
  destruct (measureMemoryUsage_reads_used_heap heap_world) as (_ & Hheap & _).
  destruct (Hheap {| usedJSHeapSize := 8 * GB; totalJSHeapSize := 12 * GB |} 16
              eq_refl eq_refl)
    as (w' & Hrun & _ & Husage & _ & _ & _ & Hframe & _).
  exists w'. split; [exact Hrun|]. split.
  - rewrite Husage; [vm_compute; reflexivity|exact Hnz|vm_compute; reflexivity].
  - rewrite Hframe by done. reflexivity.
Defined.

Lemma disk_ready_ext r3 rest w w' :
  reading Disk (performanceData w') = reading Disk (performanceData w) →
  disk_ready r3 rest w → disk_ready r3 rest w'.
Proof. unfold disk_ready, usage. by intros ->. Qed.

(** A tick on which no step raises: the usage of [ram] is what
    [measureMemoryUsage] computes, which need not be a finite number. *)
Lemma try_block_ends (w : World) (start t_exit t_end r1 r2 r3 P : Q)
    (early : list Q) (crest : list (option Q)) (rs rest : list Q) :
  clock (page w) =
    Some start :: (Some <$> early) ++ Some t_exit :: Some t_end :: crest →
  Forall (λ t, t ⊖ start < targetTime) early →
  targetTime <= t_exit ⊖ start →
  randoms (page w) = rs ++ r1 :: r2 :: r3 :: rest →
  length rs = (2 * length early)%nat →
  (∀ m, m ≠ Ram → ∃ q, usage m (performanceData w) = Num q) →
  comparable (usage Ram (performanceData w)) →
  heap_total_numeric w → disk_ready r3 rest w →
  styled (page w) →
  usage Cpu (performanceData w) = Num P →
  ∃ w', updatePerformanceMetrics w = Some (Normal tt, w') ∧
        try_block w = Some (Normal tt, w') ∧
        console (page w') = console (page w) ∧
        clock (page w') = crest ∧
        usage Cpu (performanceData w') =
          Num (blended P (estimatedUsage (t_end ⊖ start))) ∧
        usage Ram (performanceData w') = measured_ram_usage w ∧
        (∀ m, m ≠ Ram → ∃ q, usage m (performanceData w') = Num q) ∧
        ∀ m, shows m (usage m (performanceData w')) (page w') ∧
             fills m (usage m (performanceData w')) (page w').
Proof.
  intros Hclock Hearly Hexit Hrandoms Hlen Hnum Hram Hheap Hdisk Hstyled HP.
  pose proof (measureCPUUsage_run w start early t_exit t_end crest rs
                (r1 :: r2 :: r3 :: rest) P
                Hclock Hearly Hexit Hrandoms Hlen HP) as Hcpu.
  cbv zeta in Hcpu.
  set (U := blended P (estimatedUsage (t_end ⊖ start))) in *.
  destruct (measureCPUUsage_result w crest (r1 :: r2 :: r3 :: rest) U)
    as (HU & _ & _ & Hother1 & Hclock1 & Hrandoms1 & Hscreen1).
  set (w1 := write_field Cpu "freq" _ _) in *.
  assert (∀ m, m ≠ Ram → ∃ q, usage m (performanceData w1) = Num q) as Hnum1.
  { intros m Hm. destruct (decide (m = Cpu)) as [->|Hc]; [by eexists|].
    unfold usage. rewrite Hother1 by done. by apply Hnum. }
  assert (measured_ram_usage w1 = measured_ram_usage w) as Hmeasured.
  { unfold measured_ram_usage, usage. destruct Hscreen1 as (_ & _ & _ & ->).
    by rewrite Hother1. }
  assert (heap_total_numeric w1) as Hheap1.
  { unfold heap_total_numeric in *. destruct Hscreen1 as (_ & _ & _ & ->).
    by rewrite Hother1. }
  destruct (measureMemoryUsage_result w1 Hheap1)
    as (w2 & Hmem & Hpage2 & Hother2 & Hram2).
  rewrite Hmeasured in Hram2.
  assert (∀ m, m ≠ Ram → ∃ q, usage m (performanceData w2) = Num q) as Hnum2.
  { intros m Hm. unfold usage. rewrite Hother2 by done. by apply Hnum1. }
  destruct (Hnum2 Gpu) as [ugpu Hgpu]; [done|].
  destruct (Hnum2 Proc) as [uproc Hproc]; [done|].
  destruct (simulateOtherMetrics_ends w2 ugpu uproc r1 r2 r3 rest Hgpu Hproc)
    as (w3 & Hsim & Hscreen3 & Hclock3 & Hnum3 & Hram3).
  { by rewrite Hpage2. }
  { apply (disk_ready_ext r3 rest w); [|done].
    by rewrite Hother2, Hother1. }
  rewrite Hram2 in Hram3.
  assert (same_screen w w3) as Hscreen.
  { apply (same_screen_trans w w1); [done|].
    apply (same_screen_trans w1 w2); [|done].
    unfold same_screen. by rewrite Hpage2. }
  assert (updateUI w3 = Some (Normal tt, rendered w3)) as Hui.
  { apply updateUI_run; [by apply (styled_same_screen w)|].
    intros m. destruct (decide (m = Ram)) as [->|Hm].
    - rewrite Hram3. by apply comparable_measured_ram_usage.
    - destruct (Hnum3 m (Hnum2 m Hm)) as [q ->]. apply comparable_Num. }
  assert (try_block w = Some (Normal tt, rendered w3)) as Htry.
  { unfold try_block. rewrite bind_unfold, Hcpu. cbv beta iota.
    rewrite bind_unfold, Hmem. cbv beta iota.
    by rewrite bind_unfold, Hsim. }
  assert (cpu_is (reading Cpu (performanceData w1)) (rendered w3)) as Hkept.
  { apply (cpu_is_rest_of_try _ w1 (Normal tt) (rendered w3)); [done|].
    rewrite bind_unfold, Hmem. cbv beta iota. by rewrite bind_unfold, Hsim. }
  exists (rendered w3). split; [|split; [exact Htry|]].
  { unfold updatePerformanceMetrics, try_catch. by rewrite Htry. }
  apply updateUI_same in Hui as (Hpd & Hcon & Hclk & _).
  split; [rewrite Hcon; by destruct Hscreen as (_ & _ & -> & _)|].
  split; [by rewrite Hclk, Hclock3, Hpage2|].
  split; [unfold usage; by rewrite Hkept|].
  rewrite performanceData_rendered.
  split; [exact Hram3|]. split; [intros m Hm; by apply Hnum3, Hnum2|].
  intros m. split; [apply rendered_shows|apply rendered_fills].
Qed.

(** A tick on which no step raises and the heap gives a finite usage, in
    closed form as far as the usage of [cpu] goes. *)
Lemma try_block_run (w : World) (start t_exit t_end r1 r2 r3 P : Q)
    (early : list Q) (crest : list (option Q)) (rs rest : list Q) :
  clock (page w) =
    Some start :: (Some <$> early) ++ Some t_exit :: Some t_end :: crest →
  Forall (λ t, t ⊖ start < targetTime) early →
  targetTime <= t_exit ⊖ start →
  randoms (page w) = rs ++ r1 :: r2 :: r3 :: rest →
  length rs = (2 * length early)%nat →
  numeric (performanceData w) → heap_readable w → disk_ready r3 rest w →
  styled (page w) →
  usage Cpu (performanceData w) = Num P →
  ∃ w', updatePerformanceMetrics w = Some (Normal tt, w') ∧
        try_block w = Some (Normal tt, w') ∧
        console (page w') = console (page w) ∧
        clock (page w') = crest ∧
        usage Cpu (performanceData w') =
          Num (blended P (estimatedUsage (t_end ⊖ start))) ∧
        ∀ m, ∃ q, usage m (performanceData w') = Num q ∧
                  shows m (Num q) (page w') ∧ fills m (Num q) (page w').
Proof.
  intros Hclock Hearly Hexit Hrandoms Hlen Hnum Hheap Hdisk Hstyled HP.
  destruct (heap_readable_measured w Hheap (Hnum Ram)) as (Htotal & q & Hq).
  assert (comparable (usage Ram (performanceData w))) as Hcmp.
  { destruct (Hnum Ram) as [u ->]. apply comparable_Num. }
  destruct (try_block_ends w start t_exit t_end r1 r2 r3 P early crest rs rest
              Hclock Hearly Hexit Hrandoms Hlen (λ m _, Hnum m) Hcmp Htotal
              Hdisk Hstyled HP)
    as (w' & Htick & Htry & Hcon & Hclk & Hcpu & Hram & Hothers & Hscreen).
  exists w'. repeat (split; [done|]).
  intros m. destruct (decide (m = Ram)) as [->|Hm].
  - exists q. rewrite <- Hq, <- Hram. split; [done|]. apply Hscreen.
  - destruct (Hothers m Hm) as [u Hu]. exists u. rewrite <- Hu.
    split; [done|]. apply Hscreen.
Qed.

(** X11: a tick completes in its [try] block, normally and without logging,
    when the clock lets the busy loop end, enough random numbers are left,
    every usage is a number, the heap can be read where it is measured,
    [disk] can be nudged if its turn comes, and every element of the page
    has a style.  All usages are numbers afterwards, and the value element
    and the bar of every metric show its usage. *)
Theorem tick_completes (w : World) (start t_exit t_end r1 r2 r3 : Q)
    (early : list Q) (crest : list (option Q)) (rs rest : list Q) :
  clock (page w) =
    Some start :: (Some <$> early) ++ Some t_exit :: Some t_end :: crest →
  Forall (λ t, t ⊖ start < targetTime) early →
  targetTime <= t_exit ⊖ start →
  randoms (page w) = rs ++ r1 :: r2 :: r3 :: rest →
  length rs = (2 * length early)%nat →
  numeric (performanceData w) → heap_readable w → disk_ready r3 rest w →
  styled (page w) →
  ∃ w', updatePerformanceMetrics w = Some (Normal tt, w') ∧
        try_block w = Some (Normal tt, w') ∧
        console (page w') = console (page w) ∧
        clock (page w') = crest ∧
        ∀ m, ∃ q, usage m (performanceData w') = Num q ∧
                  shows m (Num q) (page w') ∧ fills m (Num q) (page w').
Proof.
  intros Hclock Hearly Hexit Hrandoms Hlen Hnum Hheap Hdisk Hstyled.
  destruct (Hnum Cpu) as [P HP].
  destruct (try_block_run w start t_exit t_end r1 r2 r3 P early crest rs rest
              Hclock Hearly Hexit Hrandoms Hlen Hnum Hheap Hdisk Hstyled HP)
    as (w' & Hrun & Htry & Hcon & Hclk & _ & Hshown).
  exists w'. repeat (split; [assumption|]). assumption.
Qed.

Lemma tick_completes_witness :
  ∃ w', updatePerformanceMetrics (example_world example_clock example_randoms) =
          Some (Normal tt, w') ∧
        console (page w') = [] ∧
        ∀ m, ∃ q, usage m (performanceData w') = Num q ∧
                  shows m (Num q) (page w').
Proof.
  assert (Forall (λ t, t ⊖ 0 < targetTime) [4]) as Hearly
    by (repeat constructor; vm_compute; reflexivity).
  assert (targetTime <= 12 ⊖ 0) as Hexit by (vm_compute; discriminate).
  assert (numeric initializeSimulatedData) as Hnum
    by (intros []; eexists; reflexivity).
  assert (disk_ready (fl 0.5) (drop 5 example_randoms)
            (example_world example_clock example_randoms)) as Hdisk.
  { intros Hlt. exfalso. revert Hlt. vm_compute. discriminate. }
  destruct (tick_completes (example_world example_clock example_randoms)
              0 12 12.5 (fl 0.9) (fl 0.3) (fl 0.5) [4] []
              (take 2 example_randoms) (drop 5 example_randoms)
              eq_refl Hearly Hexit eq_refl eq_refl Hnum I Hdisk
              (styled_example_page _ _ _))
    as (w' & Hrun & _ & Hcon & _ & Hshown).
  exists w'. split; [exact Hrun|]. split; [exact Hcon|].
  intros m. destruct (Hshown m) as (q & Hq & Hs & _). eauto.
Defined.

(** C6, as the specification states it, fails: the script computes the
    smoothing in binary64, where [45 * 0.7] is [31.499999999999996].  With
    the prior usage 45 and the estimate 0 the tick stores 31, while
    [round(0.7·45 + 0.3·0)] is 32. *)
Lemma cpu_usage_differs_from_smoothed :
  usage Cpu (performanceData tie_world) = Num 45 ∧
  estimatedUsage (10 ⊖ 0) = 0 ∧
  45 ⊗ fl 0.7 ⊕ 0 ⊗ fl 0.3 < 31.5 ∧
  smoothed 45 0 = 32 ∧
  ∃ w', updatePerformanceMetrics tie_world = Some (Normal tt, w') ∧
        usage Cpu (performanceData w') = Num 31.
Proof.
  split; [reflexivity|]. split; [vm_compute; reflexivity|].
  split; [vm_compute; reflexivity|]. split; [vm_compute; reflexivity|].
  eexists. split; [vm_compute; reflexivity|]. vm_compute. reflexivity.
Qed.

(** C6, amended: on a tick on which no step raises (the clock lets the busy
    loop end, with [start], the readings [early] within the target time,
    [t_exit] and [t_end]; enough random numbers are left; the usages the
    tick computes from are numbers and the stored usage of [ram] can be
    compared, [ram.total] is a number where the heap is measured, [disk]
    can be nudged if its turn comes, and every element has a style), with
    prior CPU usage [P] and the estimate [E], which lies in [0,100], the
    tick ends normally and the CPU usage it stores is
    [Math.round(P * 0.7 + E * 0.3)] as binary64 computes it.  For [P] in
    [0,100] the rounded sum differs from [0.7·P + 0.3·E] by at most
    [10^-13], so the stored usage is [round(0.7·P + 0.3·E)] unless that sum
    lies within [10^-13] of a half. *)
Theorem cpu_usage_smoothed (w : World) (start t_exit t_end r1 r2 r3 P : Q)
    (early : list Q) (crest : list (option Q)) (rs rest : list Q) :
  clock (page w) =
    Some start :: (Some <$> early) ++ Some t_exit :: Some t_end :: crest →
  Forall (λ t, t ⊖ start < targetTime) early →
  targetTime <= t_exit ⊖ start →
  randoms (page w) = rs ++ r1 :: r2 :: r3 :: rest →
  length rs = (2 * length early)%nat →
  (∀ m, m ≠ Ram → ∃ q, usage m (performanceData w) = Num q) →
  comparable (usage Ram (performanceData w)) →
  heap_total_numeric w → disk_ready r3 rest w →
  styled (page w) →
  usage Cpu (performanceData w) = Num P →
  let E := estimatedUsage (t_end ⊖ start) in
  0 <= E <= 100 ∧
  (∃ w', updatePerformanceMetrics w = Some (Normal tt, w') ∧
         usage Cpu (performanceData w') = Num (blended P E)) ∧
  (0 <= P <= 100 →
     Qabs (P ⊗ fl 0.7 ⊕ E ⊗ fl 0.3 - (0.7 * P + 0.3 * E))
       <= 1 # 10000000000000 ∧
     ((∀ k : Z, 1 # 10000000000000 <
                Qabs (0.7 * P + 0.3 * E - (inject_Z k + (1 # 2)))) →
      blended P E = smoothed P E)).
Proof.
  intros Hclock Hearly Hexit Hrandoms Hlen Hnum Hram Hheap Hdisk Hstyled HP E.
  pose proof (estimatedUsage_between (t_end ⊖ start)) as HE. fold E in HE.
  split; [exact HE|]. split.
  - destruct (try_block_ends w start t_exit t_end r1 r2 r3 P early crest rs
                rest Hclock Hearly Hexit Hrandoms Hlen Hnum Hram Hheap Hdisk
                Hstyled HP)
      as (w' & Hrun & _ & _ & _ & Hcpu & _).
    exists w'. split; [exact Hrun|exact Hcpu].
  - intros HPb. pose proof (blended_error P E HPb HE) as Herr.
    split; [exact Herr|]. intros Hfar. unfold blended, smoothed.
    by apply (Math_round_near _ _ (1 # 10000000000000)).
Qed.

Lemma cpu_usage_smoothed_witness :
  ∃ w', updatePerformanceMetrics (example_world example_clock example_randoms) =
          Some (Normal tt, w') ∧
        usage Cpu (performanceData w') =
          Num (blended 28 (estimatedUsage (12.5 ⊖ 0))).
Proof.
  assert (Forall (λ t, t ⊖ 0 < targetTime) [4]) as Hearly
    by (repeat constructor; vm_compute; reflexivity).
  assert (targetTime <= 12 ⊖ 0) as Hexit by (vm_compute; discriminate).
  assert (∀ m, m ≠ Ram → ∃ q, usage m initializeSimulatedData = Num q) as Hnum
    by (intros [] _; eexists; reflexivity).
  assert (disk_ready (fl 0.5) (drop 5 example_randoms)
            (example_world example_clock example_randoms)) as Hdisk.
  { intros Hlt. exfalso. revert Hlt. vm_compute. discriminate. }
  destruct (cpu_usage_smoothed (example_world example_clock example_randoms)
              0 12 12.5 (fl 0.9) (fl 0.3) (fl 0.5) 28 [4] []
              (take 2 example_randoms) (drop 5 example_randoms)
              eq_refl Hearly Hexit eq_refl eq_refl Hnum (comparable_Num 67)
              I Hdisk (styled_example_page _ _ _) eq_refl)
    as (_ & Hrun & _).
  exact Hrun.
Defined.

End TickRuns.

(** *** The CPU estimate as a function of the time taken *)

Section Estimate.

Implicit Types (t : Q).







End Estimate.



(** *** What a render may change *)

Section RenderFrames.

Implicit Types (w : World) (m : metric).

Lemma document_frame_refl w : document_frame w w.
Proof. repeat split; auto. Qed.

Lemma frame_alter_elements (w0 : World) (g : Element → Element) id :
  id ∈ card_ids →
  ∀ w, document_frame w0 w →
    document_frame w0
      (set_page (set_elements (alter g id (elements (page w))) (page w)) w).
Proof.
  intros Hid w (Hsome & Hout & Hind). split; [|split; [|exact Hind]].
  - intros id'. rewrite <- Hsome. cbn. rewrite lookup_alter.
    case_decide; [subst; apply fmap_is_Some|reflexivity].
  - intros id' Hid'. rewrite <- Hout by done. cbn.
    apply lookup_alter_ne. by intros ->.
Qed.

Lemma frame_set_textContent (w0 : World) id t :
  id ∈ card_ids → preserves (document_frame w0) (set_textContent id t).
Proof. intros Hid. apply preserves_modify. by apply frame_alter_elements. Qed.

Lemma frame_set_style (w0 : World) id f :
  id ∈ card_ids → preserves (document_frame w0) (set_style id f).
Proof.
  intros Hid w c w' Hframe. unfold set_style, assign_style.
  rewrite bind_unfold. cbn [get_world].
  destruct (elements (page w) !! id) as [el|] eqn:Hel; [|by intros [= <- <-]].
  destruct (style el) as [st|]; [|by intros [= <- <-]].
  rewrite bind_unfold, ret_run. cbv beta iota. intros [= <- <-].
  destruct Hframe as (Hsome & Hout & Hind). split; [|split; [|exact Hind]].
  - intros id'. rewrite <- Hsome. cbn.
    destruct (decide (id = id')) as [<-|Hne].
    + rewrite lookup_insert_eq, Hel. split; eauto.
    + by rewrite lookup_insert_ne.
  - intros id' Hid'. rewrite <- Hout by done. cbn.
    apply lookup_insert_ne. by intros ->.
Qed.

Lemma frame_write_detail (w0 : World) id t :
  id ∈ card_ids → preserves (document_frame w0) (write_detail id t).
Proof.
  intros Hid. apply preserves_bind; [apply preserves_getElementById|].
  intros el. by apply preserves_when_present, frame_set_textContent.
Qed.

Lemma card_id (id : string) : bool_decide (id ∈ card_ids) = true → id ∈ card_ids.
Proof. apply bool_decide_eq_true_1. Qed.

Lemma frame_updateMetricDetails (w0 : World) m data :
  preserves (document_frame w0) (updateMetricDetails m data).
Proof.
  destruct m; cbn [updateMetricDetails];
    repeat first
      [ apply preserves_ret
      | apply frame_write_detail, card_id; vm_compute; reflexivity
      | apply preserves_bind; [|intros ?] ].
Qed.

Lemma frame_updateStatusIndicator (w0 : World) m v :
  preserves (document_frame w0) (updateStatusIndicator m v).
Proof.
  intros w c w' Hframe. unfold updateStatusIndicator, assign_style.
  rewrite bind_unfold. cbn [get_world].
  destruct (indicators (page w) !! key m) as [el|] eqn:Hel; [|by intros [= <- <-]].
  destruct (js_gt v 80), (js_gt v 60); try done.
  destruct (style el) as [st|]; [|by intros [= <- <-]].
  rewrite bind_unfold, ret_run. cbv beta iota. intros [= <- <-].
  destruct Hframe as (Hsome & Hout & Hisome & Hiout & Htext).
  split; [exact Hsome|]. split; [exact Hout|]. split; [|split].
  - intros k. rewrite <- Hisome. cbn.
    destruct (decide (key m = k)) as [<-|Hne].
    + rewrite lookup_insert_eq, Hel. split; eauto.
    + by rewrite lookup_insert_ne.
  - intros k Hk. rewrite <- Hiout by done. cbn.
    apply lookup_insert_ne. intros <-. apply Hk.
    apply list_elem_of_fmap. exists m. split; [done|].
    destruct m; repeat constructor.
  - intros k. rewrite <- Htext. cbn.
    destruct (decide (key m = k)) as [<-|Hne].
    + by rewrite lookup_insert_eq, Hel.
    + by rewrite lookup_insert_ne.
Qed.

Lemma frame_updateCard (w0 : World) m :
  preserves (document_frame w0) (updateCard m).
Proof.
  unfold updateCard.
  apply preserves_bind; [apply preserves_get_world|]. intros w. cbn zeta.
  apply preserves_bind; [apply preserves_getElementById|]. intros el.
  apply preserves_bind.
  { apply preserves_when_present, preserves_bind;
      [apply frame_set_textContent|intros ?; apply frame_set_style];
      apply card_id; destruct m; vm_compute; reflexivity. }
  intros _. apply preserves_bind; [apply preserves_getElementById|]. intros el'.
  apply preserves_bind.
  { apply preserves_when_present, frame_set_style, card_id.
    destruct m; vm_compute; reflexivity. }
  intros _. apply preserves_bind; [apply frame_updateMetricDetails|].
  intros _. apply frame_updateStatusIndicator.
Qed.

Lemma frame_updateUI (w0 : World) : preserves (document_frame w0) updateUI.
Proof. apply preserves_forEach. intros m _. apply frame_updateCard. Qed.

Lemma write_detail_bare id t w :
  elements (page w) = ∅ → write_detail id t w = Some (Normal tt, w).
Proof.
  intros Hels. unfold write_detail.
  by rewrite bind_unfold, getElementById_run, Hels, lookup_empty.
Qed.

Lemma updateCard_bare m w :
  bare_page (page w) → updateCard m w = Some (Normal tt, w).
Proof.
  intros [Hels Hinds]. unfold updateCard.
  rewrite bind_unfold. cbn [get_world]. cbv beta iota zeta.
  rewrite bind_unfold, getElementById_run, Hels, lookup_empty. cbv beta iota.
  rewrite bind_unfold. cbn [when_present]. rewrite ret_run. cbv beta iota.
  rewrite bind_unfold, getElementById_run, Hels, lookup_empty. cbv beta iota.
  rewrite bind_unfold. cbn [when_present]. rewrite ret_run. cbv beta iota.
  rewrite bind_unfold.
  assert (updateMetricDetails m (reading m (performanceData w)) w =
          Some (Normal tt, w)) as ->.
  { destruct m; cbn [updateMetricDetails];
      rewrite ?bind_unfold, ?write_detail_bare by done; reflexivity. }
  cbv beta iota. unfold updateStatusIndicator.
  rewrite bind_unfold. cbn [get_world]. cbv beta iota.
  by rewrite Hinds, lookup_empty.
Qed.

End RenderFrames.

(** X13: however a render ends, it has neither created nor removed an
    element or a status indicator; an element whose [id] is not one of the
    seventeen the cards use is untouched, and so is a status indicator that
    belongs to no metric; a status indicator keeps its text.  On a page with
    none of these elements the render does nothing, whatever the metrics
    hold. *)
Theorem updateUI_keeps_elements (w w' : World) (c : completion unit) :
  (updateUI w = Some (c, w') →
     (∀ id, is_Some (elements (page w') !! id) ↔
            is_Some (elements (page w) !! id)) ∧
     (∀ id, id ∉ card_ids → elements (page w') !! id = elements (page w) !! id) ∧
     (∀ k, is_Some (indicators (page w') !! k) ↔
           is_Some (indicators (page w) !! k)) ∧
     (∀ k, k ∉ key <$> Object_keys →
        indicators (page w') !! k = indicators (page w) !! k) ∧
     (∀ k, textContent <$> (indicators (page w') !! k) =
           textContent <$> (indicators (page w) !! k))) ∧
  (bare_page (page w) → updateUI w = Some (Normal tt, w)).
Proof.
  split.
  - intros Hrun.
    pose proof (frame_updateUI w w c w' (document_frame_refl w) Hrun) as H.
    by destruct c.
  - intros Hbare. unfold updateUI, Object_keys. cbn [forEach].
    repeat (rewrite bind_unfold, updateCard_bare by done; cbv beta iota).
    reflexivity.
Qed.

Lemma updateUI_keeps_elements_witness :
  match updateUI broken_world with
  | Some (_, w') =>
      elements (page w') !! "proc-cores" = None ∧
      is_Some (elements (page w') !! "disk-value")
  | None => False
  end.
Proof.
  destruct (updateUI broken_world) as [[c w']|] eqn:Hrun;
    [|vm_compute in Hrun; discriminate Hrun].
  destruct (updateUI_keeps_elements broken_world w' c) as [Hframe _].
  destruct (Hframe Hrun) as (Hsome & Hout & _).
  split.
  - rewrite Hout; [vm_compute; reflexivity|].
    apply (bool_decide_eq_false_1 _). vm_compute. reflexivity.
  - apply Hsome. vm_compute. eauto.
Defined.

(** *** What a render shows *)

(** Computes the identifiers [key m +:+ suffix] of a goal. *)
Ltac card_ids_of_goal :=
  cbn [key];
  repeat match goal with
  | |- context [String.append ?a ?b] =>
      let r := eval vm_compute in (String.append a b) in
      change (String.append a b) with r
  end.

(** Reads the text of one element off the writes of [rendered]. *)
Ltac read_text :=
  rewrite elements_rendered; cbv zeta; unfold paint_elements, paint_details;
  card_ids_of_goal;
  repeat first
    [ rewrite text_put_style
    | rewrite text_put_text;
      destruct (decide _) as [Heq|Hne];
      [ try discriminate Heq
      | try (exfalso; apply Hne; reflexivity); clear Hne ] ];
  repeat (rewrite const_put_text || rewrite const_put_style);
  reflexivity.

Section RenderShows.

Implicit Types (w : World) (m : metric) (els inds : gmap string Element).

Lemma status_colour_Num (u : Q) : status_colour (Num u) = Some (colour_of u).
Proof.
  unfold status_colour, colour_of. cbn [js_gt].
  by destruct (Qlt_le_dec 80 u), (Qlt_le_dec 60 u).
Qed.

Lemma indicators_rendered w :
  let pd := performanceData w in
  indicators (page (rendered w)) =
  paint_indicator Cpu (usage Cpu pd)
    (paint_indicator Ram (usage Ram pd)
      (paint_indicator Proc (usage Proc pd)
        (paint_indicator Gpu (usage Gpu pd)
          (paint_indicator Disk (usage Disk pd) (indicators (page w)))))).
Proof. reflexivity. Qed.

Lemma background_put_background id c inds id' :
  (λ el, background <$> style el) <$>
    (put_style id (set_background c) inds !! id') =
  if decide (id = id') then (λ el, (λ _, c) <$> style el) <$> (inds !! id')
  else (λ el, background <$> style el) <$> (inds !! id').
Proof.
  unfold put_style. rewrite lookup_alter. case_decide; [subst|done].
  destruct (inds !! id') as [[t' [st|]]|]; reflexivity.
Qed.

Lemma rendered_background w m u :
  numeric (performanceData w) → usage m (performanceData w) = Num u →
  (λ el, background <$> style el) <$> (indicators (page (rendered w)) !! key m) =
  (λ el, (λ _, colour_of u) <$> style el) <$> (indicators (page w) !! key m).
Proof.
  intros Hnum Hu. rewrite indicators_rendered. cbv zeta.
  destruct (Hnum Disk) as [ud Hd], (Hnum Gpu) as [ug Hg], (Hnum Proc) as [up Hp],
    (Hnum Ram) as [ur Hr], (Hnum Cpu) as [uc Hc].
  rewrite Hd, Hg, Hp, Hr, Hc. unfold paint_indicator.
  rewrite !status_colour_Num.
  destruct m; cbn [key]; rewrite ?Hd, ?Hg, ?Hp, ?Hr, ?Hc in Hu;
    injection Hu as <-;
    repeat first
      [ rewrite has_style_put_style
      | rewrite background_put_background;
        destruct (decide _) as [Heq|Hne];
        [ try discriminate Heq
        | try (exfalso; apply Hne; reflexivity); clear Hne ] ];
    reflexivity.
Qed.

Lemma apply_writes_cons k g (ws : writes) els :
  apply_writes ((k, g) :: ws) els = apply_writes ws (alter g k els).
Proof. reflexivity. Qed.

Lemma writes_at_cons id k g (ws : writes) el :
  writes_at id ((k, g) :: ws) el =
  writes_at id ws (if decide (k = id) then g el else el).
Proof. reflexivity. Qed.

Lemma lookup_apply_writes (ws : writes) : ∀ els id,
  apply_writes ws els !! id = writes_at id ws <$> (els !! id).
Proof.
  induction ws as [|[k g] ws IH]; intros els id.
  - unfold apply_writes, writes_at. cbn [foldl]. by destruct (els !! id).
  - rewrite apply_writes_cons, IH, lookup_alter.
    destruct (decide (k = id)) as [->|Hne];
      (destruct (els !! id) as [el|]; [|reflexivity]);
      cbn [fmap option_fmap option_map]; rewrite writes_at_cons;
      [by rewrite decide_True|by rewrite decide_False].
Qed.

Lemma writes_at_elsewhere id (ws : writes) el :
  Forall (λ kg, kg.1 ≠ id) ws → writes_at id ws el = el.
Proof.
  revert el. induction ws as [|[k g] ws IH]; intros el Hall; [done|].
  apply Forall_cons in Hall as [Hk Hall]. cbn in Hk.
  rewrite writes_at_cons, decide_False by done. by apply IH.
Qed.

Lemma elements_rendered_writes w :
  elements (page (rendered w)) =
  apply_writes (render_writes (performanceData w)) (elements (page w)).
Proof. reflexivity. Qed.

Lemma render_writes_ids pd : Forall (λ kg, kg.1 ∈ card_ids) (render_writes pd).
Proof.
  assert (Forall (λ id, id ∈ card_ids) (render_writes pd).*1) as Hids
    by (apply (bool_decide_eq_true_1 _); vm_compute; reflexivity).
  by apply Forall_fmap in Hids.
Qed.

Lemma writes_at_again pd id el :
  writes_at id (render_writes pd) (writes_at id (render_writes pd) el) =
  writes_at id (render_writes pd) el.
Proof.
  destruct (decide (id ∈ card_ids)) as [Hin|Hout].
  - destruct el as [t [st|]]; unfold card_ids in Hin;
      repeat (apply elem_of_cons in Hin as [->|Hin]);
      try (by apply elem_of_nil in Hin); vm_compute; reflexivity.
  - rewrite !writes_at_elsewhere; [done|..];
      (eapply Forall_impl; [apply render_writes_ids|]);
      intros [k g] Hk; cbn in *; by intros ->.
Qed.

Lemma elements_rendered_again w :
  elements (page (rendered (rendered w))) = elements (page (rendered w)).
Proof.
  rewrite (elements_rendered_writes (rendered w)), performanceData_rendered.
  rewrite elements_rendered_writes.
  apply map_eq. intros id. rewrite !lookup_apply_writes.
  destruct (elements (page w) !! id) as [el|]; [|reflexivity].
  cbn [fmap option_fmap option_map]. f_equal. apply writes_at_again.
Qed.

Lemma paint_indicator_alter m v inds :
  paint_indicator m v inds = alter (indicator_write v) (key m) inds.
Proof.
  unfold paint_indicator, indicator_write.
  destruct (status_colour v); [reflexivity|]. symmetry. by apply alter_id.
Qed.

Lemma indicators_rendered_writes w :
  indicators (page (rendered w)) =
  apply_writes (indicator_writes (performanceData w)) (indicators (page w)).
Proof.
  rewrite indicators_rendered. cbv zeta. by rewrite !paint_indicator_alter.
Qed.

(** Writes to distinct keys, each idempotent, are idempotent together. *)
Lemma writes_at_distinct_again id (ws : writes) :
  NoDup ws.*1 → Forall (λ kg, ∀ el, kg.2 (kg.2 el) = kg.2 el) ws →
  ∀ el, writes_at id ws (writes_at id ws el) = writes_at id ws el.
Proof.
  induction ws as [|[k g] ws IH]; intros Hnodup Hall el; [done|].
  cbn in Hnodup. apply NoDup_cons in Hnodup as [Hk Hnodup].
  apply Forall_cons in Hall as [Hg Hall]. cbn in Hg.
  rewrite !writes_at_cons. destruct (decide (k = id)) as [->|Hne].
  - assert (Forall (λ kg, kg.1 ≠ id) ws) as Helse.
    { apply Forall_forall. intros [k' g'] Hin Heq. cbn in Heq. subst k'.
      apply Hk. apply list_elem_of_fmap. by exists (id, g'). }
    rewrite !writes_at_elsewhere by done. apply Hg.
  - by apply IH.
Qed.

Lemma indicator_write_again v el :
  indicator_write v (indicator_write v el) = indicator_write v el.
Proof.
  unfold indicator_write. destruct (status_colour v); [|done].
  by destruct el as [t [st|]].
Qed.

Lemma indicator_writes_at_again pd id el :
  writes_at id (indicator_writes pd) (writes_at id (indicator_writes pd) el) =
  writes_at id (indicator_writes pd) el.
Proof.
  apply writes_at_distinct_again.
  - apply (bool_decide_eq_true_1 _). vm_compute. reflexivity.
  - unfold indicator_writes. apply Forall_fmap, Forall_forall.
    intros m _ el'. apply indicator_write_again.
Qed.

Lemma indicators_rendered_again w :
  indicators (page (rendered (rendered w))) = indicators (page (rendered w)).
Proof.
  rewrite (indicators_rendered_writes (rendered w)), performanceData_rendered.
  rewrite indicators_rendered_writes.
  apply map_eq. intros id. rewrite !lookup_apply_writes.
  destruct (indicators (page w) !! id) as [el|]; [|reflexivity].
  cbn [fmap option_fmap option_map]. f_equal. apply indicator_writes_at_again.
Qed.

Lemma World_eq w w' :
  performanceData w = performanceData w' →
  elements (page w) = elements (page w') →
  indicators (page w) = indicators (page w') →
  console (page w) = console (page w') →
  clock (page w) = clock (page w') →
  randoms (page w) = randoms (page w') →
  memory (page w) = memory (page w') →
  w = w'.
Proof.
  destruct w as [pd [els inds con clk rnd mem]],
    w' as [pd' [els' inds' con' clk' rnd' mem']].
  cbn. by intros -> -> -> -> -> -> ->.
Qed.

Lemma rendered_again w : rendered (rendered w) = rendered w.
Proof.
  apply World_eq; try reflexivity.
  - apply elements_rendered_again.
  - apply indicators_rendered_again.
Qed.

Lemma styled_rendered w : styled (page w) → styled (page (rendered w)).
Proof. intros Hs. rewrite rendered_unfold. by repeat apply styled_painted. Qed.

End RenderShows.

(** X14: a render on a page whose elements all have a style writes the
    details of every card from the reading of its metric: [disk-used] and
    [disk-free], [gpu-temp] and [gpu-memory], [ram-used], [cpu-freq] and
    [cpu-temp] read the field of that name, between the fixed words of the
    script.  No card overwrites the text of another. *)
Theorem updateUI_details (w : World) :
  styled (page w) → (∀ m, comparable (usage m (performanceData w))) →
  let pd := performanceData w in
  ∃ w', updateUI w = Some (Normal tt, w') ∧
    reads "disk-used" [Lit "Used: "; Val (field (disk pd) "used"); Lit " GB"] w w' ∧
    reads "disk-free" [Lit "Free: "; Val (field (disk pd) "free"); Lit " GB"] w w' ∧
    reads "gpu-temp" [Lit "Temp: "; Val (field (gpu pd) "temp"); Lit "°C"] w w' ∧
    reads "gpu-memory" [Lit "Memory: "; Val (field (gpu pd) "memory"); Lit " GB"]
      w w' ∧
    reads "ram-used" [Lit "Used: "; Val (field (ram pd) "used"); Lit " GB"] w w' ∧
    reads "cpu-freq" [Lit "Freq: "; Val (field (cpu pd) "freq"); Lit " GHz"] w w' ∧
    reads "cpu-temp" [Lit "Temp: "; Val (field (cpu pd) "temp"); Lit "°C"] w w'.
Proof.
  intros Hstyled Hcmp pd. exists (rendered w).
  split; [by apply updateUI_run|]. unfold reads, pd.
  change (disk (performanceData w)) with (reading Disk (performanceData w)).
  change (gpu (performanceData w)) with (reading Gpu (performanceData w)).
  change (ram (performanceData w)) with (reading Ram (performanceData w)).
  change (cpu (performanceData w)) with (reading Cpu (performanceData w)).
  repeat split; read_text.
Qed.

Lemma updateUI_details_witness :
  ∃ w', updateUI (example_world [] []) = Some (Normal tt, w') ∧
        textContent <$> (elements (page w') !! "gpu-memory") =
          Some [Lit "Memory: "; Val (Num (fl 6.2)); Lit " GB"].
Proof.
  assert (∀ m, comparable (usage m initializeSimulatedData)) as Hcmp
    by (intros []; apply comparable_Num).
  destruct (updateUI_details (example_world [] []) (styled_example_page _ _ _) Hcmp)
    as (w' & Hrun & _ & _ & _ & Hmemory & _).
  exists w'. split; [exact Hrun|]. unfold reads in Hmemory. rewrite Hmemory.
  vm_compute. reflexivity.
Defined.

(** X15: a render on a page whose elements all have a style, with every
    usage a number, leaves the status indicator of every metric with the
    colour of that metric's own usage: the high colour above 80, the medium
    colour above 60 and up to 80, the normal colour up to 60. *)
Theorem updateUI_indicators (w : World) :
  styled (page w) → numeric (performanceData w) →
  ∃ w', updateUI w = Some (Normal tt, w') ∧
    ∀ m u, usage m (performanceData w) = Num u →
      tinted m (colour_of u) w w' ∧
      (80 < u → colour_of u = colour_high) ∧
      (60 < u <= 80 → colour_of u = colour_medium) ∧
      (u <= 60 → colour_of u = colour_normal).
Proof.
  intros Hstyled Hnum. exists (rendered w). split.
  - apply updateUI_run; [done|]. intros m. destruct (Hnum m) as [q ->].
    apply comparable_Num.
  - intros m u Hu. split; [by apply rendered_background|].
    unfold colour_of.
    destruct (Qlt_le_dec 80 u), (Qlt_le_dec 60 u);
      repeat split; intros; try reflexivity; lra.
Qed.

Lemma updateUI_indicators_witness :
  ∃ w', updateUI (example_world [] []) = Some (Normal tt, w') ∧
        (λ el, background <$> style el) <$> (indicators (page w') !! "disk") =
          Some (Some colour_medium) ∧
        (λ el, background <$> style el) <$> (indicators (page w') !! "ram") =
          Some (Some colour_medium) ∧
        (λ el, background <$> style el) <$> (indicators (page w') !! "cpu") =
          Some (Some colour_normal).
Proof.
  assert (numeric initializeSimulatedData) as Hnum
    by (intros []; eexists; reflexivity).
  destruct (updateUI_indicators (example_world [] []) (styled_example_page _ _ _)
              Hnum) as (w' & Hrun & Hcolours).
  destruct (Hcolours Disk 78 eq_refl) as (Hdisk & _).
  destruct (Hcolours Ram 67 eq_refl) as (Hram & _).
  destruct (Hcolours Cpu 28 eq_refl) as (Hcpu & _).
  exists w'. split; [exact Hrun|]. unfold tinted in *. cbn [key] in *.
  rewrite Hdisk, Hram, Hcpu. vm_compute. auto.
Defined.

(** X16: a render is idempotent: on a page whose elements all have a style,
    a second render right after the first ends normally and changes
    nothing. *)
Theorem updateUI_idempotent (w : World) :
  styled (page w) → (∀ m, comparable (usage m (performanceData w))) →
  ∃ w', updateUI w = Some (Normal tt, w') ∧
        updateUI w' = Some (Normal tt, w').
Proof.
  intros Hstyled Hcmp. exists (rendered w). split; [by apply updateUI_run|].
  rewrite updateUI_run; [by rewrite rendered_again| |].
  - by apply styled_rendered.
  - intros m. rewrite performanceData_rendered. apply Hcmp.
Qed.

Lemma updateUI_idempotent_witness :
  ∃ w', updateUI (example_world [] []) = Some (Normal tt, w') ∧
        updateUI w' = Some (Normal tt, w').
Proof.
  apply (updateUI_idempotent (example_world [] []));
    [apply styled_example_page|intros []; apply comparable_Num].
Defined.

(** *** The merge, repeated *)

Section Merges.

Implicit Types (w : World) (m : metric) (pd : MetricSet) (win : Window)
  (data : gmap string Reading).




End Merges.





(** *** Start-up *)

Section Detection.

Implicit Types (w : World) (m : metric).

Lemma assign_textContent_run id t w :
  assign_textContent id t w =
    match elements (page w) !! id with
    | Some _ => Some (Normal tt, with_elements (put_text id t) w)
    | None => Some (Throw, w)
    end.
Proof.
  unfold assign_textContent. rewrite bind_unfold, getElementById_run.
  by destruct (elements (page w) !! id).
Qed.

Lemma get_field_run m f w :
  get_field m f w = Some (Normal (field (reading m (performanceData w)) f), w).
Proof. reflexivity. Qed.

Lemma elements_with_elements f w :
  elements (page (with_elements f w)) = f (elements (page w)).
Proof. reflexivity. Qed.

Lemma lookup_put_text_ne id id' t (els : gmap string Element) :
  id ≠ id' → put_text id t els !! id' = els !! id'.
Proof. apply lookup_alter_ne. Qed.

Lemma updateStaticInfo_run w :
  has_static_elements (page w) →
  updateStaticInfo w = Some (Normal tt, static_shown w).
Proof.
  intros Hhas. unfold updateStaticInfo.
  assert (is_Some (elements (page w) !! "proc-cores")) as [e1 He1]
    by (apply Hhas; set_solver).
  assert (is_Some (elements (page w) !! "proc-threads")) as [e2 He2]
    by (apply Hhas; set_solver).
  assert (is_Some (elements (page w) !! "ram-total")) as [e3 He3]
    by (apply Hhas; set_solver).
  rewrite bind_unfold, get_field_run. cbv beta iota.
  rewrite bind_unfold, assign_textContent_run, He1. cbv beta iota.
  rewrite bind_unfold, get_field_run. cbv beta iota.
  rewrite bind_unfold, assign_textContent_run, elements_with_elements,
    lookup_put_text_ne, He2 by done.
  cbv beta iota.
  rewrite bind_unfold, get_field_run. cbv beta iota.
  rewrite assign_textContent_run, !elements_with_elements,
    !lookup_put_text_ne, He3 by done.
  reflexivity.
Qed.

(** [updateStaticInfo] stops at the first element that is missing. *)
Lemma updateStaticInfo_raises w :
  ¬ has_static_elements (page w) →
  ∃ w', updateStaticInfo w = Some (Throw, w') ∧
        performanceData w' = performanceData w.
Proof.
  intros Hmissing. unfold updateStaticInfo.
  rewrite bind_unfold, get_field_run. cbv beta iota.
  rewrite bind_unfold, assign_textContent_run.
  destruct (elements (page w) !! "proc-cores") as [e1|] eqn:He1;
    [|by eexists]. cbv beta iota.
  rewrite bind_unfold, get_field_run. cbv beta iota.
  rewrite bind_unfold, assign_textContent_run, elements_with_elements,
    lookup_put_text_ne by done.
  destruct (elements (page w) !! "proc-threads") as [e2|] eqn:He2;
    [|by eexists]. cbv beta iota.
  rewrite bind_unfold, get_field_run. cbv beta iota.
  rewrite assign_textContent_run, !elements_with_elements,
    !lookup_put_text_ne by done.
  destruct (elements (page w) !! "ram-total") as [e3|] eqn:He3;
    [|by eexists].
  exfalso. apply Hmissing. intros id Hid. unfold static_ids in Hid.
  repeat (apply elem_of_cons in Hid as [->|Hid]); eauto.
  by apply elem_of_nil in Hid.
Qed.

Lemma detect_navigator_run nav w :
  detect_navigator nav w = Some (Normal tt, detected nav w).
Proof.
  unfold detect_navigator, detected. cbv zeta.
  rewrite bind_unfold, set_field_run. cbv beta iota.
  rewrite bind_unfold, (get_number_run Proc "cores" _ _)
    by (by rewrite reading_write_eq, field_insert_eq).
  cbv beta iota. rewrite bind_unfold, set_field_run. cbv beta iota.
  rewrite bind_unfold. cbn [get_world]. cbv beta iota. rewrite !page_write.
  destruct (memory (page w)); [|reflexivity].
  by rewrite bind_unfold, set_field_run.
Qed.

Lemma page_detected nav w : page (detected nav w) = page w.
Proof. unfold detected. cbv zeta. by destruct (memory (page w)). Qed.

(** [detect_storage] writes to the reading of [disk] only, and does not
    raise. *)
Lemma detect_storage_ends e w :
  ∃ w', detect_storage e w = Some (Normal tt, w') ∧ page w' = page w ∧
        ∀ m, m ≠ Disk →
          reading m (performanceData w') = reading m (performanceData w).
Proof.
  destruct e as [[q|] [u|]];
    unfold detect_storage; cbn [estimate_quota estimate_usage]; try (by eexists).
  destruct (truthy (Some q) && truthy (Some u)); [|by eexists].
  rewrite bind_unfold, set_field_run. cbv beta iota.
  rewrite bind_unfold, set_field_run. cbv beta iota.
  set (w2 := write_field Disk "used" _ _).
  assert (field (reading Disk (performanceData w2)) "total" =
          Num (Math_round (q / GB))) as Htotal.
  { unfold w2. rewrite reading_write_eq, field_insert_ne by done.
    by rewrite reading_write_eq, field_insert_eq. }
  assert (field (reading Disk (performanceData w2)) "used" =
          Num (Math_round (u / GB))) as Hused.
  { unfold w2. by rewrite reading_write_eq, field_insert_eq. }
  rewrite bind_unfold, (get_number_run Disk "total" w2 _ Htotal). cbv beta iota.
  rewrite bind_unfold, (get_number_run Disk "used" w2 _ Hused). cbv beta iota.
  rewrite bind_unfold, set_field_run. cbv beta iota.
  set (w3 := write_field Disk "free" _ _).
  rewrite bind_unfold, (get_number_run Disk "used" w3 (Math_round (u / GB)))
    by (unfold w3; by rewrite reading_write_eq, field_insert_ne).
  cbv beta iota.
  rewrite bind_unfold, (get_number_run Disk "total" w3 (Math_round (q / GB)))
    by (unfold w3; by rewrite reading_write_eq, field_insert_ne).
  cbv beta iota.
  rewrite set_field_run. eexists. split; [reflexivity|]. split; [reflexivity|].
  intros m Hm. unfold w3, w2. by rewrite !reading_write_ne by done.
Qed.

Lemma finish_detection_run w :
  has_static_elements (page w) →
  finish_detection w =
    Some (Normal tt, set_performanceData initializeSimulatedData (static_shown w)).
Proof.
  intros Hhas. unfold finish_detection.
  by rewrite bind_unfold, updateStaticInfo_run.
Qed.

Lemma finish_detection_raises w :
  ¬ has_static_elements (page w) →
  ∃ w', finish_detection w = Some (Throw, w') ∧
        performanceData w' = performanceData w.
Proof.
  intros Hmissing. unfold finish_detection.
  destruct (updateStaticInfo_raises w Hmissing) as (w' & Hrun & Hpd).
  exists w'. by rewrite bind_unfold, Hrun.
Qed.

End Detection.

(** Reads the text of one element off the writes of [static_shown]. *)
Ltac read_static_text :=
  repeat (rewrite text_put_text;
          destruct (decide _) as [Heq|Hne];
          [ try discriminate Heq
          | try (exfalso; apply Hne; reflexivity); clear Hne ]);
  repeat rewrite const_put_text;
  reflexivity.

(** X19: the end of [detectSystemInfo].  On a page that has the three
    static elements, [updateStaticInfo] writes the core count, the thread
    count and the RAM total as the metrics hold them at that moment, and then
    [initializeSimulatedData] replaces the whole metric set by the simulated
    baseline: the metrics end as the baseline whatever was detected, while
    the static texts show what was there before it; no other element, no
    status indicator and no console line is touched.  [updateStaticInfo] has
    no guard: when one of the three elements is missing it raises at the
    first missing one, the baseline is not applied, and the metrics stay as
    they were. *)
Theorem finish_detection_baseline (w : World) :
  let pd := performanceData w in
  (has_static_elements (page w) →
     ∃ w', finish_detection w = Some (Normal tt, w') ∧
       performanceData w' = initializeSimulatedData ∧
       reads "proc-cores" [Lit "Cores: "; Val (field (proc pd) "cores")] w w' ∧
       reads "proc-threads" [Lit "Threads: "; Val (field (proc pd) "threads")]
         w w' ∧
       reads "ram-total" [Lit "Total: "; Val (field (ram pd) "total"); Lit " GB"]
         w w' ∧
       (∀ id, id ∉ static_ids →
          elements (page w') !! id = elements (page w) !! id) ∧
       indicators (page w') = indicators (page w) ∧
       console (page w') = console (page w)) ∧
  (¬ has_static_elements (page w) →
     ∃ w', finish_detection w = Some (Throw, w') ∧
           performanceData w' = performanceData w).
Proof.
  intros pd. split; [|apply finish_detection_raises].
  intros Hhas. eexists. split; [by apply finish_detection_run|].
  split; [reflexivity|]. unfold reads, static_shown. cbv zeta.
  cbn [page set_performanceData]. rewrite elements_with_elements.
  split; [|split; [|split; [|split; [|split]]]]; try reflexivity.
  - read_static_text.
  - read_static_text.
  - read_static_text.
  - intros id Hid. rewrite !lookup_put_text_ne; [done|..];
      intros <-; apply Hid; set_solver.
Qed.

Lemma finish_detection_baseline_witness :
  (∃ w', finish_detection
           {| performanceData := initial_data; page := full_page None |} =
           Some (Normal tt, w') ∧
         performanceData w' = initializeSimulatedData ∧
         textContent <$> (elements (page w') !! "ram-total") =
           Some [Lit "Total: "; Val (Num 16); Lit " GB"] ∧
         textContent <$> (elements (page w') !! "proc-cores") =
           Some [Lit "Cores: "; Val (Num 0)]) ∧
  (∃ w', finish_detection (example_world [] []) = Some (Throw, w') ∧
         performanceData w' = initializeSimulatedData).
Proof.
  assert (has_static_elements (full_page None)) as Hhas.
  { intros id Hid. unfold static_ids in Hid.
    repeat (apply elem_of_cons in Hid as [->|Hid]);
      [..|by apply elem_of_nil in Hid]; vm_compute; eauto. }
  assert (¬ has_static_elements (page (example_world [] []))) as Hmissing.
  { intros Hall. destruct (Hall "proc-cores") as [el Hel]; [set_solver|].
    vm_compute in Hel. discriminate Hel. }
  destruct (finish_detection_baseline
              {| performanceData := initial_data; page := full_page None |})
    as (Hshown & _).
  destruct (Hshown Hhas) as (w' & Hrun & Hpd & Hcores & _ & Htotal & _).
  destruct (finish_detection_baseline (example_world [] [])) as (_ & Hraises).
  split; [|exact (Hraises Hmissing)].
  exists w'. split; [exact Hrun|]. split; [exact Hpd|].
  unfold reads in Hcores, Htotal. rewrite Hcores, Htotal.
  split; vm_compute; reflexivity.
Defined.

Lemma has_static_elements_cases (p : Page) :
  has_static_elements p ∨ ¬ has_static_elements p.
Proof.
  destruct (decide (Forall (λ id, is_Some (elements p !! id)) static_ids))
    as [Hall|Hnot]; [left|right].
  - intros id Hid. by apply (proj1 (Forall_forall _ _) Hall).
  - intros Hhas. apply Hnot, Forall_forall. intros id Hid. by apply Hhas.
Qed.

(** The start-up always returns: what it leaves behind depends on the
    storage API and on the three static elements. *)
Lemma initializePerformanceMonitoring_run (nav : option Navigator) (w : World) :
  let w0 := set_performanceData initial_data w in
  let w1 := match nav with Some n => detected n w0 | None => w0 end in
  let awaits := default false (has_storage <$> nav) in
  ∃ w', initializePerformanceMonitoring nav w = Some (Normal awaits, w') ∧
    (awaits = true → w' = w1) ∧
    (awaits = false → has_static_elements (page w) →
       w' = set_performanceData initializeSimulatedData (static_shown w1)) ∧
    (awaits = false → ¬ has_static_elements (page w) →
       performanceData w' = performanceData w1).
Proof.
  intros w0 w1 awaits.
  assert (page w1 = page w) as Hpage.
  { unfold w1. destruct nav; [by rewrite page_detected|done]. }
  assert (try_catch
            (match nav with
             | Some n => detect_navigator n ;; mret (has_storage n)
             | None => mret false
             end)
            (console_log detection_failed ;; mret false) w0 =
          Some (Normal awaits, w1)) as Htry.
  { unfold try_catch, awaits, w1. destruct nav as [n|]; [|reflexivity].
    by rewrite bind_unfold, detect_navigator_run. }
  unfold initializePerformanceMonitoring.
  rewrite bind_unfold. cbn [modify]. cbv beta iota. fold w0.
  unfold try_catch at 1, detectSystemInfo_start.
  rewrite bind_unfold, Htry. cbv beta iota.
  destruct awaits.
  - rewrite ret_run. exists w1. by repeat split.
  - rewrite bind_unfold.
    destruct (has_static_elements_cases (page w)) as [Hhas|Hmissing].
    + rewrite finish_detection_run by (by rewrite Hpage). cbv beta iota.
      rewrite ret_run. eexists. by repeat split.
    + destruct (finish_detection_raises w1) as (w2 & Hfin & Hpd2);
        [by rewrite Hpage|].
      rewrite Hfin, ret_run. exists w2. by repeat split.
Qed.

(** X20: [initializePerformanceMonitoring] never raises into the
    constructor.  It stores the zero-initialised literal and runs the
    detection up to its first suspension ([w1] is the world with the detected
    core and heap figures).  Where [navigator.storage.estimate] exists the
    detection is suspended at its [await], before the baseline is applied, so
    the initial update of the constructor runs on [w1].  Otherwise the
    detection has run to its end: with the three static elements the initial
    update runs on the simulated baseline, and without them (the detection
    raised, unobserved) it runs on the metrics of [w1]. *)
Theorem initializePerformanceMonitoring_outcome (nav : option Navigator)
    (w : World) :
  let w0 := set_performanceData initial_data w in
  let w1 := match nav with Some n => detected n w0 | None => w0 end in
  let awaits := default false (has_storage <$> nav) in
  ∃ w', initializePerformanceMonitoring nav w = Some (Normal awaits, w') ∧
    construct nav w = (updatePerformanceMetrics ;; mret awaits) w' ∧
    (awaits = true → w' = w1) ∧
    (awaits = false → has_static_elements (page w) →
       w' = set_performanceData initializeSimulatedData (static_shown w1)) ∧
    (awaits = false → ¬ has_static_elements (page w) →
       performanceData w' = performanceData w1).
Proof.
  intros w0 w1 awaits.
  destruct (initializePerformanceMonitoring_run nav w) as (w' & Hinit & Hcases).
  exists w'. split; [exact Hinit|]. split; [|exact Hcases].
  unfold construct. by rewrite bind_unfold, Hinit.
Qed.

Lemma initializePerformanceMonitoring_outcome_witness :
  ∃ w', construct (Some storage_browser)
          {| performanceData := initializeSimulatedData; page := full_page None |} =
          (updatePerformanceMetrics ;; mret true) w' ∧
        usage Gpu (performanceData w') = Num 0 ∧
        field (reading Proc (performanceData w')) "cores" = Num 4.
Proof.
  destruct (initializePerformanceMonitoring_outcome (Some storage_browser)
              {| performanceData := initializeSimulatedData;
                 page := full_page None |})
    as (w' & _ & Hconstruct & Hawaits & _).
  exists w'. split; [exact Hconstruct|].
  rewrite (Hawaits eq_refl). split; reflexivity.
Defined.

Lemma Math_round_small (x : Q) : 0 <= x → x < 1 # 2 → Math_round x = 0.
Proof.
  intros H0 H1. unfold Math_round.
  assert (Qfloor (x + (1 # 2)) = 0%Z) as ->; [|reflexivity].
  pose proof (Qfloor_le (x + (1 # 2))) as Hle.
  pose proof (Qlt_floor (x + (1 # 2))) as Hlt.
  assert (Qfloor (x + (1 # 2)) < 1)%Z.
  { rewrite Zlt_Qlt. change (inject_Z 1) with 1. lra. }
  assert (0 < Qfloor (x + (1 # 2)) + 1)%Z.
  { rewrite Zlt_Qlt. change (inject_Z 0) with 0. lra. }
  lia.
Qed.

Lemma GB_positive : 0 < GB.
Proof. reflexivity. Qed.

(** X21: the statements of [detectSystemInfo] before the [await] never
    raise.  [proc.cores] becomes [navigator.hardwareConcurrency], or 8 when
    that is [undefined] or 0, and [proc.threads] twice that.  Where the
    browser has [performance.memory], [ram.total] and [ram.used] become the
    allocated and the used heap in whole GB; an allocated heap below half a
    GB leaves [ram.total] 0.  Nothing else changes. *)
Theorem detect_navigator_values (nav : Navigator) (w : World) :
  ∃ (w' : World) (cores : Q),
    detect_navigator nav w = Some (Normal tt, w') ∧
    field (reading Proc (performanceData w')) "cores" = Num cores ∧
    field (reading Proc (performanceData w')) "threads" = Num (cores * 2) ∧
    (∀ n, hardwareConcurrency nav = Some n → ¬ n == 0 → cores = n) ∧
    (∀ n, hardwareConcurrency nav = Some n → n == 0 → cores = 8) ∧
    (hardwareConcurrency nav = None → cores = 8) ∧
    (∀ memInfo, memory (page w) = Some memInfo →
       field (reading Ram (performanceData w')) "total" =
         Num (Math_round (totalJSHeapSize memInfo / GB)) ∧
       field (reading Ram (performanceData w')) "used" =
         Num (Math_round (usedJSHeapSize memInfo / GB)) ∧
       (0 <= totalJSHeapSize memInfo → totalJSHeapSize memInfo < GB / 2 →
          field (reading Ram (performanceData w')) "total" = Num 0)) ∧
    (memory (page w) = None →
       reading Ram (performanceData w') = reading Ram (performanceData w)) ∧
    (∀ m, m ≠ Proc → m ≠ Ram →
       reading m (performanceData w') = reading m (performanceData w)) ∧
    page w' = page w.
Proof.
  exists (detected nav w), (cores_or_default (hardwareConcurrency nav)).
  split; [apply detect_navigator_run|].
  assert (∀ f, f ≠ "total" → f ≠ "used" →
            field (reading Proc (performanceData (detected nav w))) f =
            field (reading Proc
                     (performanceData
                        (write_field Proc "threads"
                           (Num (cores_or_default (hardwareConcurrency nav) * 2))
                           (write_field Proc "cores"
                              (Num (cores_or_default (hardwareConcurrency nav)))
                              w)))) f) as Hproc.
  { intros f ??. unfold detected. cbv zeta.
    destruct (memory (page w)); [|done]. by rewrite !reading_write_ne by done. }
  split.
  { rewrite Hproc by done. rewrite reading_write_eq, field_insert_ne by done.
    by rewrite reading_write_eq, field_insert_eq. }
  split.
  { rewrite Hproc by done. by rewrite reading_write_eq, field_insert_eq. }
  split.
  { intros n -> Hn. cbn. destruct (Qeq_bool n 0) eqn:Hz; [|done].
    by apply Qeq_bool_eq in Hz. }
  split.
  { intros n -> Hn. cbn. destruct (Qeq_bool n 0) eqn:Hz; [done|].
    apply Qeq_bool_neq in Hz. done. }
  split; [by intros ->|].
  split.
  { intros memInfo Hmem. unfold detected. cbv zeta. rewrite Hmem.
    assert (field (reading Ram (performanceData
              (write_field Ram "used"
                 (Num (Math_round (usedJSHeapSize memInfo / GB)))
                 (write_field Ram "total"
                    (Num (Math_round (totalJSHeapSize memInfo / GB)))
                    (write_field Proc "threads"
                       (Num (cores_or_default (hardwareConcurrency nav) * 2))
                       (write_field Proc "cores"
                          (Num (cores_or_default (hardwareConcurrency nav)))
                          w)))))) "total" =
            Num (Math_round (totalJSHeapSize memInfo / GB))) as Htotal.
    { rewrite reading_write_eq, field_insert_ne by done.
      by rewrite reading_write_eq, field_insert_eq. }
    split; [exact Htotal|]. split.
    - by rewrite reading_write_eq, field_insert_eq.
    - intros H0 Hsmall. rewrite Htotal. f_equal. apply Math_round_small.
      + apply Qle_shift_div_l; [apply GB_positive|].
        rewrite Qmult_0_l. exact H0.
      + apply Qlt_shift_div_r; [apply GB_positive|].
        rewrite Qmult_comm. exact Hsmall. }
  split.
  { intros Hmem. unfold detected. cbv zeta. rewrite Hmem.
    by rewrite !reading_write_ne by done. }
  split; [|apply page_detected].
  intros m Hp Hr. unfold detected. cbv zeta.
  destruct (memory (page w)); by rewrite !reading_write_ne by done.
Qed.

Lemma detect_navigator_values_witness :
  ∃ w', detect_navigator plain_browser
          {| performanceData := initial_data;
             page := full_page (Some {| usedJSHeapSize := 20000000;
                                        totalJSHeapSize := 50000000 |}) |} =
          Some (Normal tt, w') ∧
        field (reading Proc (performanceData w')) "threads" = Num 8 ∧
        field (reading Ram (performanceData w')) "total" = Num 0.
Proof.
  destruct (detect_navigator_values plain_browser
              {| performanceData := initial_data;
                 page := full_page (Some {| usedJSHeapSize := 20000000;
                                            totalJSHeapSize := 50000000 |}) |})
    as (w' & cores & Hrun & _ & Hthreads & Hcores & _ & _ & Hheap & _).
  exists w'. split; [exact Hrun|]. split.
  - rewrite Hthreads, (Hcores 4 eq_refl); [reflexivity|].
    vm_compute. discriminate.
  - destruct (Hheap _ eq_refl) as (_ & _ & Hsmall).
    apply Hsmall; vm_compute; [discriminate|reflexivity].
Defined.

(** X22: [detectSystemInfo] from its [await] on, on a page with the three
    static elements: whether the storage estimate is rejected (the error is
    caught and logged, once), has no usable figures, or is used for the
    reading of [disk] (also when its quota rounds to 0 GB and the usage
    computed from it is not a finite number), the function ends normally
    with the metrics replaced by the simulated baseline, so the estimate
    never reaches a render; the static texts show the core count, thread
    count and RAM total from before the call. *)
Theorem detectSystemInfo_resume_baseline (estimate : option StorageEstimate)
    (w : World) :
  has_static_elements (page w) →
  let pd := performanceData w in
  ∃ w', detectSystemInfo_resume estimate w = Some (Normal tt, w') ∧
    performanceData w' = initializeSimulatedData ∧
    console (page w') =
      console (page w) ++
        match estimate with Some _ => [] | None => [detection_failed] end ∧
    reads "proc-cores" [Lit "Cores: "; Val (field (proc pd) "cores")] w w' ∧
    reads "proc-threads" [Lit "Threads: "; Val (field (proc pd) "threads")] w w' ∧
    reads "ram-total" [Lit "Total: "; Val (field (ram pd) "total"); Lit " GB"]
      w w' ∧
    (∀ id, id ∉ static_ids → elements (page w') !! id = elements (page w) !! id).
Proof.
  intros Hhas pd.
  assert (∃ w1,
    try_catch
      (match estimate with Some e => detect_storage e | None => throw end)
      (console_log detection_failed) w = Some (Normal tt, w1) ∧
    elements (page w1) = elements (page w) ∧
    console (page w1) =
      console (page w) ++
        match estimate with Some _ => [] | None => [detection_failed] end ∧
    reading Proc (performanceData w1) = reading Proc pd ∧
    reading Ram (performanceData w1) = reading Ram pd)
    as (w1 & Htry & Hels & Hcon & Hproc & Hram).
  { unfold try_catch. destruct estimate as [e|].
    - destruct (detect_storage_ends e w) as (w1 & -> & Hpage & Hother).
      exists w1. rewrite Hpage, app_nil_r, !Hother by done. done.
    - eexists. cbn [throw]. split; [reflexivity|]. done. }
  assert (has_static_elements (page w1)) as Hhas1.
  { intros id Hid. rewrite Hels. by apply Hhas. }
  exists (set_performanceData initializeSimulatedData (static_shown w1)). split.
  { unfold detectSystemInfo_resume. rewrite bind_unfold, Htry. cbv beta iota.
    by apply finish_detection_run. }
  split; [reflexivity|]. split; [exact Hcon|].
  unfold reads, static_shown. cbv zeta. cbn [page set_performanceData].
  rewrite elements_with_elements, Hels.
  change (proc (performanceData w1)) with (reading Proc (performanceData w1)).
  change (ram (performanceData w1)) with (reading Ram (performanceData w1)).
  rewrite Hproc, Hram.
  split; [read_static_text|]. split; [read_static_text|].
  split; [read_static_text|].
  intros id Hid. rewrite !lookup_put_text_ne; [done|..];
    intros <-; apply Hid; set_solver.
Qed.

Lemma detectSystemInfo_resume_baseline_witness :
  ∃ w', detectSystemInfo_resume None
          {| performanceData := initial_data; page := full_page None |} =
          Some (Normal tt, w') ∧
        performanceData w' = initializeSimulatedData ∧
        console (page w') = [detection_failed].
Proof.
  assert (has_static_elements (full_page None)) as Hhas.
  { intros id Hid. unfold static_ids in Hid.
    repeat (apply elem_of_cons in Hid as [->|Hid]);
      [..|by apply elem_of_nil in Hid]; vm_compute; eauto. }
  destruct (detectSystemInfo_resume_baseline None
              {| performanceData := initial_data; page := full_page None |}
              Hhas)
    as (w' & Hrun & Hpd & Hcon & _).
  exists w'. split; [exact Hrun|]. split; [exact Hpd|exact Hcon].
Defined.

(** What the initial update of the constructor finds: every usage is a
    number, [ram.total] and the usage and total of [disk] too, and the page
    is the one the script was loaded on, apart from the static texts. *)
Lemma initializePerformanceMonitoring_ready (nav : option Navigator) (p : Page) :
  default false (has_storage <$> nav) = true ∨ has_static_elements p →
  ∃ w0,
    initializePerformanceMonitoring nav
      {| performanceData := initial_data; page := p |} =
      Some (Normal (default false (has_storage <$> nav)), w0) ∧
    numeric (performanceData w0) ∧
    (∃ total, field (reading Ram (performanceData w0)) "total" = Num total ∧
       ∀ n memInfo, nav = Some n → has_storage n = true →
         memory p = Some memInfo →
         total = Math_round (totalJSHeapSize memInfo / GB)) ∧
    (∃ total, field (reading Disk (performanceData w0)) "total" = Num total) ∧
    indicators (page w0) = indicators p ∧ console (page w0) = console p ∧
    clock (page w0) = clock p ∧ randoms (page w0) = randoms p ∧
    memory (page w0) = memory p ∧
    (styled p → styled (page w0)).
Proof.
  intros Hcase.
  destruct (initializePerformanceMonitoring_run nav
              {| performanceData := initial_data; page := p |})
    as (w0 & Hinit & Hawaits & Hshown & _).
  cbv zeta in Hinit, Hawaits, Hshown. cbn [page] in Hshown.
  exists w0. split; [exact Hinit|].
  destruct (default false (has_storage <$> nav)) eqn:Hsusp.
  - rewrite (Hawaits eq_refl). clear Hawaits Hshown Hinit.
    destruct nav as [n|]; [|discriminate Hsusp]. cbn in Hsusp.
    unfold detected. cbv zeta. cbn [page set_performanceData].
    destruct (memory p) as [memInfo|] eqn:Hmem.
    + split; [intros []; read_writes; by eexists|].
      split.
      { eexists. split.
        - rewrite reading_write_eq, field_insert_ne by done.
          by rewrite reading_write_eq, field_insert_eq.
        - by intros n' memInfo' _ _ [= <-]. }
      split; [by eexists|]. rewrite !page_write.
      cbn [page set_performanceData]. repeat (split; [done|]). done.
    + split; [intros []; read_writes; by eexists|].
      split; [eexists; split; [reflexivity|done]|].
      split; [by eexists|]. rewrite !page_write.
      cbn [page set_performanceData]. repeat (split; [done|]). done.
  - destruct Hcase as [Hcase|Hhas]; [discriminate Hcase|].
    rewrite (Hshown eq_refl Hhas). clear Hawaits Hshown Hinit.
    split; [intros []; by eexists|].
    split.
    { eexists. split; [reflexivity|].
      intros n memInfo -> Hn. cbn in Hsusp. congruence. }
    split; [by eexists|].
    assert (page (match nav with
                  | Some n =>
                      detected n
                        (set_performanceData initial_data
                           {| performanceData := initial_data; page := p |})
                  | None =>
                      set_performanceData initial_data
                        {| performanceData := initial_data; page := p |}
                  end) = p) as Hpage.
    { destruct nav; [by rewrite page_detected|done]. }
    unfold static_shown. cbv zeta.
    cbn [page set_performanceData with_elements set_page set_elements
         indicators console clock randoms memory].
    rewrite Hpage. repeat (split; [reflexivity|]).
    intros [Hels Hinds]. split; [|exact Hinds].
    unfold set_elements. cbn [elements].
    by do 3 apply all_styled_put_text.
Qed.

(** X25.  The listener of [DOMContentLoaded] (lines 314-317).  The start-up
    of the monitor ends normally, so the construction ends as the first
    update does.  When that update ends normally, [window.dashboard] holds
    the dashboard with the readings the update left, and the listener adds
    the initialisation message as the last line of the console.  When the
    update raises, [window.dashboard] is not assigned, nothing is logged by
    the listener, and from then on [window.updateDashboard] and
    [window.updatePerformanceMetric] return without any effect, whatever
    their arguments.

    The listener does end normally where the detection is suspended at its
    [await] (a browser with [navigator.storage.estimate]) or the page has
    the three static elements, the clock lets the busy loop of the first
    update end, four random numbers are left after the loop, and every
    element has a style.  Every usage but that of [ram] is then a number,
    and the usage of [ram] can be compared; with the detection suspended it
    is computed from the heap total in whole GB, so it is [Infinity] or
    [NaN] when that total rounds to 0. *)
Theorem dashboard_exposed_after_construction (nav : option Navigator) (p : Page) :
  (∀ c win, on_DOMContentLoaded nav p = Some (c, win) →
     ∃ w0 w1,
       initializePerformanceMonitoring nav
         {| performanceData := initial_data; page := p |} =
         Some (Normal (default false (has_storage <$> nav)), w0) ∧
       match c with
       | Normal _ =>
           updatePerformanceMetrics w0 = Some (Normal tt, w1) ∧
           dashboard win = Some (performanceData w1) ∧
           globals win =
             set_console (console (page w1) ++ [initialized]) (page w1)
       | Throw =>
           updatePerformanceMetrics w0 = Some (Throw, w1) ∧
           dashboard win = None ∧ globals win = page w1 ∧
           (∀ data, window_updateDashboard data win = Some (Normal tt, win)) ∧
           (∀ metric v, window_updatePerformanceMetric metric v win =
                        Some (Normal tt, win))
       end) ∧
  (∀ (start t_exit t_end r1 r2 r3 r4 : Q) (early : list Q)
     (crest : list (option Q)) (rs rest : list Q),
     default false (has_storage <$> nav) = true ∨ has_static_elements p →
     clock p =
       Some start :: (Some <$> early) ++ Some t_exit :: Some t_end :: crest →
     Forall (λ t, t ⊖ start < targetTime) early →
     targetTime <= t_exit ⊖ start →
     randoms p = rs ++ r1 :: r2 :: r3 :: r4 :: rest →
     length rs = (2 * length early)%nat →
     styled p →
     ∃ win pd,
       on_DOMContentLoaded nav p = Some (Normal tt, win) ∧
       dashboard win = Some pd ∧
       (∀ m, m ≠ Ram → ∃ q, usage m pd = Num q) ∧
       comparable (usage Ram pd) ∧
       (∀ n memInfo,
          nav = Some n → has_storage n = true → memory p = Some memInfo →
          usage Ram pd =
            percentage (usedJSHeapSize memInfo / GB)
              (Math_round (totalJSHeapSize memInfo / GB))) ∧
       console (globals win) = console p ++ [initialized]).
Proof.
  split.
  - intros c win. unfold on_DOMContentLoaded.
    destruct (initializePerformanceMonitoring_run nav
                {| performanceData := initial_data; page := p |})
      as (w0 & Hinit & _).
    cbv zeta in Hinit. unfold construct.
    rewrite bind_unfold, Hinit. cbv beta iota. rewrite bind_unfold.
    destruct (updatePerformanceMetrics w0) as [[[[]|] w1]|] eqn:Htick; [| |done].
    + rewrite ret_run. intros [= <- <-]. by exists w0, w1.
    + intros [= <- <-]. by exists w0, w1.
  - intros start t_exit t_end r1 r2 r3 r4 early crest rs rest
      Hcase Hclock Hearly Hexit Hrandoms Hlen Hstyled.
    destruct (initializePerformanceMonitoring_ready nav p Hcase)
      as (w0 & Hinit & Hnum & (total & Htotal & Hheap) & (dtotal & Hdisk)
          & _ & Hcon0 & Hclock0 & Hrandoms0 & Hmem0 & Hstyled0).
    destruct (Hnum Cpu) as [P HP]. destruct (Hnum Disk) as [udisk Hudisk].
    assert (comparable (usage Ram (performanceData w0))) as Hcmp.
    { destruct (Hnum Ram) as [u ->]. apply comparable_Num. }
    assert (heap_total_numeric w0) as Hheap0.
    { unfold heap_total_numeric. destruct (memory (page w0)); eauto. }
    assert (disk_ready r3 (r4 :: rest) w0) as Hready.
    { intros _. by exists udisk, dtotal, r4, rest. }
    rewrite <- Hclock0 in Hclock. rewrite <- Hrandoms0 in Hrandoms.
    destruct (try_block_ends w0 start t_exit t_end r1 r2 r3 P early crest rs
                (r4 :: rest) Hclock Hearly Hexit Hrandoms Hlen
                (λ m _, Hnum m) Hcmp Hheap0 Hready (Hstyled0 Hstyled) HP)
      as (w1 & Htick & _ & Hcon1 & _ & _ & Hram & Hothers & _).
    eexists _, (performanceData w1). unfold on_DOMContentLoaded, construct.
    rewrite bind_unfold, Hinit. cbv beta iota.
    rewrite bind_unfold, Htick. cbv beta iota. rewrite ret_run.
    split; [reflexivity|]. split; [reflexivity|]. split; [exact Hothers|].
    split; [rewrite Hram; by apply comparable_measured_ram_usage|].
    split.
    + intros n memInfo Hnav Hn Hmem. rewrite Hram. unfold measured_ram_usage.
      rewrite Hmem0, Hmem, Htotal. by rewrite (Hheap n memInfo).
    + cbn [globals console set_console]. by rewrite Hcon1, Hcon0.
Qed.

Lemma dashboard_exposed_after_construction_witness :
  match on_DOMContentLoaded (Some plain_browser) broken_page with
  | Some (Throw, win) =>
      dashboard win = None ∧
      window_updatePerformanceMetric "cpu" (Num 50) win = Some (Normal tt, win)
  | _ => False
  end ∧
  ∃ win pd,
    on_DOMContentLoaded (Some storage_browser) (full_page (Some small_heap)) =
      Some (Normal tt, win) ∧
    dashboard win = Some pd ∧
    usage Ram pd = Infinity false ∧
    console (globals win) = [initialized].
Proof.
  split.
  - destruct (on_DOMContentLoaded (Some plain_browser) broken_page)
      as [[[[]|] win]|] eqn:Hrun;
      [vm_compute in Hrun; discriminate Hrun|
      |vm_compute in Hrun; discriminate Hrun].
    destruct (proj1 (dashboard_exposed_after_construction _ _) _ _ Hrun)
      as (w0 & w1 & _ & _ & Hnone & _ & _ & Hmetric).
    split; [exact Hnone|apply Hmetric].
  - assert (Forall (λ t, t ⊖ 0 < targetTime) [4]) as Hearly
      by (repeat constructor; vm_compute; reflexivity).
    assert (targetTime <= 12 ⊖ 0) as Hexit by (vm_compute; discriminate).
    assert (styled (full_page (Some small_heap))) as Hstyled
      by (split; apply all_styled_decide; vm_compute; reflexivity).
    destruct (proj2 (dashboard_exposed_after_construction
                       (Some storage_browser) (full_page (Some small_heap)))
                0 12 12.5 (fl 0.9) (fl 0.3) (fl 0.5) (fl 0.1) [4] []
                (take 2 example_randoms) (drop 6 example_randoms)
                (or_introl eq_refl) eq_refl Hearly Hexit eq_refl eq_refl
                Hstyled)
      as (win & pd & Hrun & Hpd & _ & _ & Hram & Hcon).
    exists win, pd. split; [exact Hrun|]. split; [exact Hpd|].
    split; [|exact Hcon].
    rewrite (Hram storage_browser small_heap eq_refl eq_refl eq_refl).
    vm_compute. reflexivity.
Defined.

End MonitorFacts.

(** ** Host bridge *)

Module BridgeFacts.
Import Bridge.

Lemma controls_catalog : controls = catalog.
Proof. vm_compute. reflexivity. Qed.

(** A property of every control of the catalog, checked control by control. *)
Lemma controls_ind (P : control → Prop) :
  Forall P catalog → ∀ c, c ∈ controls → P c.
Proof.
  rewrite controls_catalog. intros Hall c Hc.
  by apply (proj1 (Forall_forall P catalog) Hall).
Qed.

Lemma elem_of_controls (c : control) :
  bool_decide (c ∈ catalog) = true → c ∈ controls.
Proof. rewrite controls_catalog. apply bool_decide_eq_true_1. Qed.

(** Runs the listeners of one control on a host. *)
Ltac run_listeners :=
  unfold click;
  match goal with
  | |- context [filter ?P ?l] =>
      let r := eval vm_compute in (filter P l) in
      replace (filter P l) with r by (vm_compute; reflexivity)
  end;
  match goal with
  | |- context [doubly_registered ?c] =>
      let r := eval vm_compute in (doubly_registered c) in
      replace (doubly_registered c) with r by (vm_compute; reflexivity)
  end;
  cbn; try rewrite <- (app_assoc _ [_] [_]); try rewrite app_nil_r;
  reflexivity.

(** C10: with the host channel present, one click on the [full-clean] control
    posts ["full-clean"] twice and one click on [clean-ram] posts
    ["clean-ram"] twice, as two listeners are registered on each; a click on
    any other control posts the name of the control once.  Nothing is
    logged. *)
Theorem click_posts (c : control) (h : host) (posted : list string) :
  c ∈ controls → webview h = Some posted →
  click c h =
    {| webview := Some (posted ++
         if doubly_registered c then [name_of c; name_of c] else [name_of c]);
       console := console h |}.
Proof.
  intros Hc Hw. destruct h as [wv con]. cbn in Hw. subst wv.
  cbn [console]. revert posted con. pattern c. revert c Hc. apply controls_ind.
  unfold catalog.
  repeat (constructor; [intros posted con; run_listeners|]).
  constructor.
Qed.

Lemma click_posts_witness :
  click (DataAction "full-clean") {| webview := Some []; console := [] |} =
    {| webview := Some ["full-clean"; "full-clean"]; console := [] |} ∧
  click (DataAction "ip-flush") {| webview := Some ["cru"]; console := [] |} =
    {| webview := Some ["cru"; "ip-flush"]; console := [] |}.
Proof.
  split.
  - apply (click_posts (DataAction "full-clean")
             {| webview := Some []; console := [] |} []);
      [apply elem_of_controls; vm_compute; reflexivity | reflexivity].
  - apply (click_posts (DataAction "ip-flush")
             {| webview := Some ["cru"]; console := [] |} ["cru"]);
      [apply elem_of_controls; vm_compute; reflexivity | reflexivity].
Defined.

(** C8, as the specification states it, fails: without the host channel a
    click on the [ip-flush] control leaves the console as it was; the
    attempt is not logged. *)
Lemma click_ip_flush_not_logged :
  DataAction "ip-flush" ∈ controls ∧
  webview no_host = None ∧
  console (click (DataAction "ip-flush") no_host) = [].
Proof.
  split; [apply elem_of_controls; vm_compute; reflexivity|].
  split; reflexivity.
Qed.

(** C8, amended: without the host channel a click on a control of the catalog
    posts nothing; it logs ["WebView host not available"], once, when the
    control is [full-clean] or [clean-ram], and logs nothing for any other
    control.  ([click] is a total function: no listener raises.) *)
Theorem click_without_host (c : control) (h : host) :
  c ∈ controls → webview h = None →
  click c h =
    {| webview := None;
       console := console h ++
         if doubly_registered c then ["WebView host not available"] else [] |}.
Proof.
  intros Hc Hw. destruct h as [wv con]. cbn in Hw. subst wv.
  cbn [console]. revert con. pattern c. revert c Hc. apply controls_ind.
  unfold catalog.
  repeat (constructor; [intros con; run_listeners|]).
  constructor.
Qed.

Lemma click_without_host_witness :
  click (DataAction "clean-ram") no_host =
    {| webview := None; console := ["WebView host not available"] |} ∧
  click (DataMod "hdr") no_host = no_host.
Proof.
  split.
  - apply (click_without_host (DataAction "clean-ram") no_host);
      [apply elem_of_controls; vm_compute; reflexivity | reflexivity].
  - apply (click_without_host (DataMod "hdr") no_host);
      [apply elem_of_controls; vm_compute; reflexivity | reflexivity].
Defined.

(** *** Clicks in general, and the registration *)

Section Clicks.

Implicit Types (c : control) (h : host) (ls : list listener).

Lemma run_all_posts ls : ∀ h posted,
  webview h = Some posted →
  foldl (λ h l, run l h) h ls =
    {| webview := Some (posted ++ (message <$> ls)); console := console h |}.
Proof.
  induction ls as [|l ls IH]; intros h posted Hw; cbn [foldl fmap list_fmap].
  - rewrite app_nil_r. by destruct h as [wv con]; cbn in *; subst.
  - rewrite (IH _ (posted ++ [message l])).
    + unfold run. rewrite Hw. cbn. by rewrite <- app_assoc.
    + unfold run. by rewrite Hw.
Qed.

Lemma run_all_logs ls : ∀ h,
  webview h = None →
  foldl (λ h l, run l h) h ls =
    {| webview := None;
       console := console h ++
         ((λ _, host_missing) <$> filter (λ l, logs_missing_host l = true) ls) |}.
Proof.
  induction ls as [|l ls IH]; intros h Hw; cbn [foldl].
  - cbn. rewrite app_nil_r. by destruct h as [wv con]; cbn in *; subst.
  - assert (webview (run l h) = None) as Hw'.
    { unfold run. rewrite Hw. by destruct (logs_missing_host l). }
    rewrite (IH _ Hw'). unfold run. rewrite Hw.
    destruct (logs_missing_host l) eqn:Hl.
    + rewrite filter_cons_True by done. cbn. by rewrite <- app_assoc.
    + rewrite filter_cons_False by (by rewrite Hl). done.
Qed.

Lemma messages_are_names :
  Forall (λ l, message l = name_of (target l)) listeners.
Proof. apply (bool_decide_eq_true_1 _). vm_compute. reflexivity. Qed.

Lemma messages_of c ls :
  Forall (λ l, message l = name_of (target l)) ls →
  message <$> filter (λ l, target l = c) ls =
  replicate (length (filter (λ l, target l = c) ls)) (name_of c).
Proof.
  induction 1 as [|l ls Hl _ IH]; [done|].
  destruct (decide (target l = c)) as [Hc|Hc].
  - rewrite filter_cons_True by done. cbn. by rewrite IH, Hl, Hc.
  - by rewrite filter_cons_False.
Qed.

Lemma filter_none {A} (P : A → Prop) `{!∀ x, Decision (P x)} (l : list A) :
  (∀ x, x ∈ l → ¬ P x) → filter P l = [].
Proof.
  induction l as [|x l IH]; intros Hnone; [done|].
  rewrite filter_cons_False by (apply Hnone; left).
  apply IH. intros y Hy. apply Hnone. by right.
Qed.

End Clicks.

Lemma controls_unfold : controls = remove_dups (target <$> listeners).
Proof. reflexivity. Qed.

Lemma elem_of_controls_iff (c : control) :
  c ∈ controls ↔ ∃ l, l ∈ listeners ∧ target l = c.
Proof.
  rewrite controls_unfold, elem_of_remove_dups, list_elem_of_fmap.
  split; intros (l & ? & ?); exists l; by split.
Qed.

(** X23: a click on any control, catalogued or not.  With the host channel
    present it appends the name of the control to the posted messages, once
    per listener registered on the control, keeping the earlier messages in
    their order, and logs nothing.  Without the channel it posts nothing and
    appends at most as many log lines.  A control without a listener is not
    affected by a click at all. *)
Theorem click_appends (c : control) (h : host) :
  let n := length (filter (λ l, target l = c) listeners) in
  (∀ posted, webview h = Some posted →
     click c h =
       {| webview := Some (posted ++ replicate n (name_of c));
          console := console h |}) ∧
  (webview h = None →
     ∃ k, (k ≤ n)%nat ∧
       click c h =
         {| webview := None;
            console := console h ++ replicate k host_missing |}) ∧
  (c ∉ controls → n = 0%nat ∧ click c h = h).
Proof.
  intros n. split; [|split].
  - intros posted Hw. unfold click. rewrite (run_all_posts _ h posted Hw).
    by rewrite (messages_of c listeners messages_are_names).
  - intros Hw. unfold click. rewrite (run_all_logs _ h Hw).
    exists (length (filter (λ l, logs_missing_host l = true)
                      (filter (λ l, target l = c) listeners))).
    split; [apply length_filter|].
    f_equal. f_equal. generalize (filter (λ l, logs_missing_host l = true)
                                    (filter (λ l, target l = c) listeners)).
    induction l as [|x l IH]; [done|]. cbn. by rewrite IH.
  - intros Hc.
    assert (filter (λ l, target l = c) listeners = []) as Hnone.
    { apply filter_none. intros l Hl Htarget. apply Hc.
      apply elem_of_controls_iff. by exists l. }
    unfold n, click. by rewrite Hnone.
Qed.

Lemma click_appends_witness :
  click (DataAction "clean-ram") {| webview := Some ["hdr"]; console := [] |} =
    {| webview := Some ["hdr"; "clean-ram"; "clean-ram"]; console := [] |} ∧
  click (DataAction "no-such-control") no_host = no_host.
Proof.
  destruct (click_appends (DataAction "clean-ram")
              {| webview := Some ["hdr"]; console := [] |}) as (Hposts & _).
  destruct (click_appends (DataAction "no-such-control") no_host)
    as (_ & _ & Hnone).
  split.
  - rewrite (Hposts ["hdr"] eq_refl). vm_compute. reflexivity.
  - apply Hnone. apply (bool_decide_eq_false_1 _). vm_compute. reflexivity.
Defined.

Section Registration.

Implicit Types (present : control → bool) (ls : list listener).

Lemma add_listeners_all present ls :
  Forall (λ l, present (target l) = true) ls →
  add_listeners present ls = (ls, true).
Proof.
  induction 1 as [|l ls Hl _ IH]; [done|]. cbn [add_listeners].
  by rewrite Hl, IH.
Qed.

Lemma add_listeners_head present ls l ls' :
  ls = l :: ls' → present (target l) = false →
  add_listeners present ls = ([], false).
Proof. intros -> Hl. cbn [add_listeners]. by rewrite Hl. Qed.

(** The registration stops at the first listener whose control is
    missing. *)
Lemma add_listeners_first_missing (present : control → bool)
    (ls : list listener) :
  (∃ l, l ∈ ls ∧ present (target l) = false) →
  ∃ i l0, ls !! i = Some l0 ∧ present (target l0) = false ∧
          add_listeners present ls = (take i ls, false) ∧
          ∀ j l, j < i → ls !! j = Some l → present (target l) = true.
Proof.
  induction ls as [|l' ls IH]; intros (l & Hl & Hmissing);
    [by apply elem_of_nil in Hl|].
  cbn [add_listeners]. destruct (present (target l')) eqn:Hl'.
  - apply elem_of_cons in Hl as [->|Hl]; [congruence|].
    destruct IH as (i & l0 & Hi & Hl0 & Hrun & Hbefore); [by exists l|].
    exists (S i), l0. split; [done|]. split; [done|]. split.
    + by rewrite Hrun.
    + intros [|j] l1 Hj Hl1; cbn in Hl1; [congruence|].
      apply (Hbefore j); [lia|done].
  - exists 0, l'. split; [done|]. split; [done|]. split; [done|]. lia.
Qed.

Lemma run_script_first_missing (present : control → bool) :
  (∃ l, l ∈ listeners ∧ present (target l) = false) →
  ∃ i l0, listeners !! i = Some l0 ∧ present (target l0) = false ∧
          run_script present = (take i listeners, false) ∧
          ∀ j l, j < i → listeners !! j = Some l → present (target l) = true.
Proof. apply add_listeners_first_missing. Qed.

Lemma click_on_none (registered : list listener) (c : control) (h : host) :
  (∀ l, l ∈ registered → target l ≠ c) → click_on registered c h = h.
Proof. intros Hnone. unfold click_on. by rewrite filter_none. Qed.

End Registration.

(** X24: the registrations have no guard.  When every control of the
    catalog is on the page, all the listeners are registered and the script
    reaches the assignment of [window.updateDashboard].  When a control is
    missing, the script stops at the first listener whose control is
    missing: exactly the listeners before it are registered,
    [window.updateDashboard] is never assigned, and a click on a control
    whose listeners all come at or after that position does nothing.
    Without the [full-clean] control nothing is registered. *)
Theorem script_stops_at_missing_control (present : control → bool) :
  (Forall (λ c, present c = true) controls →
     run_script present = (listeners, true)) ∧
  (∀ c, c ∈ controls → present c = false →
     ∃ i l0,
       listeners !! i = Some l0 ∧ present (target l0) = false ∧
       run_script present = (take i listeners, false) ∧
       (∀ j l, j < i → listeners !! j = Some l → present (target l) = true) ∧
       ∀ c' h, (∀ j l, listeners !! j = Some l → target l = c' → i ≤ j) →
               click_on (run_script present).1 c' h = h) ∧
  (present (DataAction "full-clean") = false → run_script present = ([], false)).
Proof.
  split; [|split].
  - intros Hall. apply add_listeners_all, Forall_forall. intros l Hl.
    apply (proj1 (Forall_forall _ _) Hall).
    apply elem_of_controls_iff. by exists l.
  - intros c Hc Hmissing.
    apply elem_of_controls_iff in Hc as (l & Hl & <-).
    destruct (run_script_first_missing present)
      as (i & l0 & Hi & Hl0 & Hrun & Hbefore); [by exists l|].
    exists i, l0. split; [done|]. split; [done|]. split; [done|].
    split; [done|]. intros c' h Hlater. rewrite Hrun. cbn [fst].
    apply click_on_none. intros l1 Hl1 Htarget.
    apply list_elem_of_lookup in Hl1 as [j Hj].
    apply lookup_take_Some in Hj as [Hj Hlt].
    specialize (Hlater j l1 Hj Htarget). lia.
  - intros Hmissing. unfold run_script.
    pose proof (add_listeners_head present listeners
                  (logging (DataAction "full-clean") "full-clean")
                  (tail listeners) eq_refl) as Hhead.
    exact (Hhead Hmissing).
Qed.

Lemma script_stops_at_missing_control_witness :
  ∃ i, run_script (λ c, bool_decide (c ≠ DataAction "ip-flush")) =
         (take i listeners, false) ∧
       click_on (run_script (λ c, bool_decide (c ≠ DataAction "ip-flush"))).1
         (DataMod "hdr") {| webview := Some []; console := [] |} =
         {| webview := Some []; console := [] |}.
Proof.
  assert (DataAction "ip-flush" ∈ controls) as Hin
    by (apply elem_of_controls; vm_compute; reflexivity).
  assert (bool_decide (DataAction "ip-flush" ≠ DataAction "ip-flush") = false)
    as Hmissing by (vm_compute; reflexivity).
  destruct (script_stops_at_missing_control
              (λ c, bool_decide (c ≠ DataAction "ip-flush"))) as (_ & Hstop & _).
  destruct (Hstop (DataAction "ip-flush") Hin Hmissing)
    as (i & l0 & Hi & Hl0 & Hrun & Hbefore & Hnone).
  exists i. split; [exact Hrun|]. apply Hnone.
  intros j l Hj Htarget.
  assert (i ≤ 4) as Hi4.
  { destruct (decide (i ≤ 4)) as [|Hgt]; [done|exfalso].
    assert (4 < i) as Hlt by lia.
    pose proof (Hbefore 4 _ Hlt eq_refl) as Hpresent.
    vm_compute in Hpresent. discriminate Hpresent. }
  destruct (decide (i ≤ j)) as [|Hlt]; [done|exfalso].
  destruct j as [|[|[|[|j]]]]; try lia;
    injection Hj as <-; discriminate Htarget.
Defined.

End BridgeFacts.
